(** * Session-log analysers: a shallow embedding of [analysis/scripts]

    The five scripts decode a transcript (one JSON record per line) into
    events and run stateful detectors over them.  Events are kept as the
    dynamically typed JSON values that [json.loads] returns; the Python
    exceptions that a detector can raise on a value of the wrong shape
    ([AttributeError] of [.get] on a non-dict, [TypeError] of iterating a
    number, ...) are made explicit in a small exception monad.

    Strings are modelled over the 8-bit alphabet of [Stdlib.Strings.Ascii];
    [str.lower] and [str.strip] are the ASCII restrictions of the Python
    methods.  JSON numbers are restricted to integers. *)

From Stdlib Require Import List String Ascii ZArith Bool Arith Lia Setoid Sorted.
Import ListNotations.

Open Scope string_scope.
Open Scope list_scope.

Set Warnings "-register-all".

(** ** JSON values, as produced by [json.loads] *)

Inductive json : Type :=
| JNull
| JBool (b : bool)
| JInt (z : Z)
| JStr (s : string)
| JList (l : list json)
| JDict (d : list (string * json)).

(** ** Python exceptions *)

Inductive pyexc : Type := AttributeError | TypeError | KeyError | IndexError.

Inductive py (A : Type) : Type :=
| Ok (a : A)
| Raise (e : pyexc).

Arguments Ok {A} a.
Arguments Raise {A} e.

Definition bind {A B : Type} (m : py A) (k : A -> py B) : py B :=
  match m with
  | Ok a => k a
  | Raise e => Raise e
  end.

Declare Scope py_scope.
Delimit Scope py_scope with py.
Notation "x <- m ;; k" := (bind m (fun x => k))
  (at level 61, m at next level, right associativity) : py_scope.
Notation "m ;;; k" := (bind m (fun _ => k))
  (at level 61, right associativity) : py_scope.
Open Scope py_scope.

(** ** String primitives *)

Module Str.

Fixpoint take (n : nat) (s : string) : string :=
  match n, s with
  | S n', String c s' => String c (take n' s')
  | _, _ => EmptyString
  end.

Fixpoint startswith (p s : string) : bool :=
  match p, s with
  | EmptyString, _ => true
  | String a p', String b s' => Ascii.eqb a b && startswith p' s'
  | String _ _, EmptyString => false
  end.

(** [contains p s] is Python's [p in s] on two strings. *)
Fixpoint contains (p s : string) : bool :=
  startswith p s ||
  match s with
  | EmptyString => false
  | String _ s' => contains p s'
  end.

Fixpoint rev_onto (s acc : string) : string :=
  match s with
  | EmptyString => acc
  | String c s' => rev_onto s' (String c acc)
  end.

Definition rev (s : string) : string := rev_onto s EmptyString.

Definition endswith (p s : string) : bool := startswith (rev p) (rev s).

(** [s[:-1]] *)
Fixpoint drop_last (s : string) : string :=
  match s with
  | EmptyString => EmptyString
  | String c EmptyString => EmptyString
  | String c s' => String c (drop_last s')
  end.

(** A string is a sequence of code points below 256.  [str.lower] maps
    the capital letters among them (A-Z, and U+00C0-U+00DE but for the
    multiplication sign U+00D7) 32 places up and leaves the rest. *)
Definition lower_char (c : ascii) : ascii :=
  let n := nat_of_ascii c in
  if (((65 <=? n) && (n <=? 90))
      || ((192 <=? n) && (n <=? 222) && negb (n =? 215)))%nat
  then ascii_of_nat (n + 32) else c.

Fixpoint lower (s : string) : string :=
  match s with
  | EmptyString => EmptyString
  | String c s' => String (lower_char c) (lower s')
  end.

(** The code points below 256 for which [str.isspace] holds, the ones
    that [str.strip] and [str.split] remove: U+0009-U+000D,
    U+001C-U+0020, U+0085 and U+00A0. *)
Definition is_space (c : ascii) : bool :=
  let n := nat_of_ascii c in
  (((9 <=? n) && (n <=? 13)) || ((28 <=? n) && (n <=? 32))
   || (n =? 133) || (n =? 160))%nat.

Fixpoint lstrip (s : string) : string :=
  match s with
  | EmptyString => EmptyString
  | String c s' => if is_space c then lstrip s' else s
  end.

Definition strip (s : string) : string := rev (lstrip (rev (lstrip s))).

Definition is_empty (s : string) : bool :=
  match s with EmptyString => true | _ => false end.

(** [dq s] is [s] between two double quotes. *)
Definition dq (s : string) : string :=
  String "034" (s ++ String "034" EmptyString).

(** Transcript lines are written below with apostrophes in place of the
    double quotes of JSON; [q] puts the double quotes back. *)
Fixpoint q (s : string) : string :=
  match s with
  | EmptyString => EmptyString
  | String c s' => String (if Ascii.eqb c "039" then "034"%char else c) (q s')
  end.

(** [s.split()]: the maximal runs of characters that are not white
    space; [cur] is the run being read. *)
Fixpoint split_from (cur : string) (s : string) : list string :=
  match s with
  | EmptyString => if is_empty cur then [] else [cur]
  | String c s' =>
      if is_space c then
        if is_empty cur then split_from EmptyString s'
        else cur :: split_from EmptyString s'
      else split_from (cur ++ String c EmptyString) s'
  end.

Definition split (s : string) : list string := split_from EmptyString s.

End Str.

(** ** Python operations on JSON values *)

(** Truthiness, as used by [if event:] and [if block.get('is_error'):]. *)
Definition truthy (v : json) : bool :=
  match v with
  | JNull => false
  | JBool b => b
  | JInt z => negb (Z.eqb z 0)
  | JStr s => negb (Str.is_empty s)
  | JList l => match l with [] => false | _ => true end
  | JDict d => match d with [] => false | _ => true end
  end.

Fixpoint dict_lookup (k : string) (d : list (string * json)) : option json :=
  match d with
  | [] => None
  | (k', v) :: d' => if String.eqb k k' then Some v else dict_lookup k d'
  end.

(** [d[k] = v] on an insertion-ordered dict: an existing key keeps its
    place and takes the new value. *)
Fixpoint dict_set (k : string) (v : json) (d : list (string * json))
  : list (string * json) :=
  match d with
  | [] => [(k, v)]
  | (k', v') :: d' =>
      if String.eqb k k' then (k', v) :: d' else (k', v') :: dict_set k v d'
  end.

(** [a == b].  [True == 1] and [False == 0] hold in Python; dicts compare
    without regard to order. *)
Fixpoint py_eq (a b : json) {struct a} : bool :=
  match a, b with
  | JNull, JNull => true
  | JBool x, JBool y => Bool.eqb x y
  | JBool x, JInt n => Z.eqb n (if x then 1 else 0)
  | JInt n, JBool x => Z.eqb n (if x then 1 else 0)
  | JInt m, JInt n => Z.eqb m n
  | JStr s, JStr t => String.eqb s t
  | JList l, JList l' =>
      (fix go (xs ys : list json) {struct xs} : bool :=
         match xs, ys with
         | [], [] => true
         | x :: xs', y :: ys' => py_eq x y && go xs' ys'
         | _, _ => false
         end) l l'
  | JDict d, JDict d' =>
      Nat.eqb (List.length d) (List.length d') &&
      (fix go (xs : list (string * json)) {struct xs} : bool :=
         match xs with
         | [] => true
         | (k, v) :: xs' =>
             match dict_lookup k d' with
             | Some v' => py_eq v v'
             | None => false
             end && go xs'
         end) d
  | _, _ => false
  end.

(** [v == 'literal'] *)
Definition is_str (v : json) (s : string) : bool := py_eq v (JStr s).

(** [v.get(k, default)]; only dicts have [.get]. *)
Definition py_get (v : json) (k : string) (default : json) : py json :=
  match v with
  | JDict d => Ok (match dict_lookup k d with Some x => x | None => default end)
  | _ => Raise AttributeError
  end.

(** [for x in v]: a list yields its items, a dict its keys, a string its
    characters; [None], booleans and numbers are not iterable. *)
Fixpoint chars (s : string) : list json :=
  match s with
  | EmptyString => []
  | String c s' => JStr (String c EmptyString) :: chars s'
  end.

Definition py_iter (v : json) : py (list json) :=
  match v with
  | JList l => Ok l
  | JDict d => Ok (map (fun kv => JStr (fst kv)) d)
  | JStr s => Ok (chars s)
  | _ => Raise TypeError
  end.

Definition isinstance_list (v : json) : bool :=
  match v with JList _ => true | _ => false end.

Definition isinstance_str (v : json) : bool :=
  match v with JStr _ => true | _ => false end.

(** Values that can be a dict key or a set member. *)
Definition hashable (v : json) : bool :=
  match v with
  | JList _ | JDict _ => false
  | _ => true
  end.

(** [v[:n]]: strings and lists can be sliced. *)
Definition py_slice_to (n : nat) (v : json) : py json :=
  match v with
  | JStr s => Ok (JStr (Str.take n s))
  | JList l => Ok (JList (firstn n l))
  | _ => Raise TypeError
  end.

(** [v.lower()] *)
Definition py_lower (v : json) : py string :=
  match v with
  | JStr s => Ok (Str.lower s)
  | _ => Raise AttributeError
  end.

(** ['p' in v] for a string literal [p]: substring test on a string,
    membership on a list, key membership on a dict. *)
Definition py_in (p : string) (v : json) : py bool :=
  match v with
  | JStr s => Ok (Str.contains p s)
  | JList l => Ok (existsb (py_eq (JStr p)) l)
  | JDict d => Ok (existsb (fun kv => String.eqb p (fst kv)) d)
  | _ => Raise TypeError
  end.

(** [any(p in v for p in patterns)]: stops at the first hit. *)
Fixpoint py_any_in (patterns : list string) (v : json) : py bool :=
  match patterns with
  | [] => Ok false
  | p :: ps =>
      b <- py_in p v ;;
      if b then Ok true else py_any_in ps v
  end.

(** [v.startswith('p')] *)
Definition py_startswith (p : string) (v : json) : py bool :=
  match v with
  | JStr s => Ok (Str.startswith p s)
  | _ => Raise AttributeError
  end.

(** [enumerate(l)] *)
Fixpoint enumerate_from {A : Type} (n : nat) (l : list A) : list (nat * A) :=
  match l with
  | [] => []
  | x :: l' => (n, x) :: enumerate_from (S n) l'
  end.

Definition enumerate {A : Type} (l : list A) : list (nat * A) :=
  enumerate_from 0 l.

(** ** The decoder [json.loads]

    A recursive-descent reader that follows the scanner of the standard
    [json] module on the integer fragment: whitespace is space, tab, line
    feed and carriage return; a string may not hold a raw control
    character; a repeated key keeps its first place and its last value;
    anything after the value other than whitespace is an error.  A float
    literal, [NaN], [Infinity] and a [\u] escape above [00ff] are outside
    the modelled fragment: the type [json] has no value for them, so
    [loads] gives [None] there, and [None] stands for a decode error only
    on a line inside the fragment.  The properties below that hold for
    every decoder take the decoder as a variable; [loads] itself is
    applied to lines written out in full inside the fragment. *)

Module Json.

Definition is_ws (c : ascii) : bool :=
  match nat_of_ascii c with
  | 32 | 9 | 10 | 13 => true
  | _ => false
  end.

Fixpoint skip_ws (s : string) : string :=
  match s with
  | EmptyString => EmptyString
  | String c s' => if is_ws c then skip_ws s' else s
  end.

Definition digit_of (c : ascii) : option Z :=
  let n := nat_of_ascii c in
  if ((48 <=? n) && (n <=? 57))%nat then Some (Z.of_nat (n - 48)) else None.

Definition hex_of (c : ascii) : option nat :=
  let n := nat_of_ascii c in
  if ((48 <=? n) && (n <=? 57))%nat then Some (n - 48)
  else if ((97 <=? n) && (n <=? 102))%nat then Some (n - 87)
  else if ((65 <=? n) && (n <=? 70))%nat then Some (n - 55)
  else None.

(** The digits that follow a leading nonzero digit. *)
Fixpoint more_digits (acc : Z) (s : string) : Z * string :=
  match s with
  | EmptyString => (acc, s)
  | String c s' =>
      match digit_of c with
      | Some d => more_digits (10 * acc + d)%Z s'
      | None => (acc, s)
      end
  end.

Definition starts_with_digit (s : string) : bool :=
  match s with
  | String c _ => match digit_of c with Some _ => true | None => false end
  | EmptyString => false
  end.

(** Does a fraction (a dot and a digit) or an exponent (e or E, an
    optional sign, a digit) follow? *)
Definition float_follows (s : string) : bool :=
  match s with
  | String "." r => starts_with_digit r
  | String "e" r | String "E" r =>
      match r with
      | String "+" r' | String "-" r' => starts_with_digit r'
      | _ => starts_with_digit r
      end
  | _ => false
  end.

(** The integer part: a lone zero, or a nonzero digit and more digits. *)
Definition scan_natural (s : string) : option (Z * string) :=
  match s with
  | String c s' =>
      match digit_of c with
      | Some 0%Z => Some (0%Z, s')
      | Some d => Some (more_digits d s')
      | None => None
      end
  | EmptyString => None
  end.

Definition scan_number (s : string) : option (json * string) :=
  let '(neg, body) :=
    match s with
    | String "-" r => (true, r)
    | _ => (false, s)
    end in
  match scan_natural body with
  | Some (n, rest) =>
      if float_follows rest then None
      else Some (JInt (if neg then - n else n)%Z, rest)
  | None => None
  end.

Definition scan_escape (s : string) : option (ascii * string) :=
  match s with
  | String "034" r => Some ("034", r)
  | String "\" r => Some ("\", r)
  | String "/" r => Some ("/", r)
  | String "b" r => Some ("008", r)
  | String "f" r => Some ("012", r)
  | String "n" r => Some ("010", r)
  | String "r" r => Some ("013", r)
  | String "t" r => Some ("009", r)
  | String "u" (String a (String b (String c (String d r)))) =>
      match hex_of a, hex_of b, hex_of c, hex_of d with
      | Some 0, Some 0, Some x, Some y => Some (ascii_of_nat (16 * x + y), r)
      | _, _, _, _ => None
      end
  | _ => None
  end%char.

(** The body of a string literal, after the opening quote. *)
Fixpoint scan_string (fuel : nat) (s : string) : option (string * string) :=
  match fuel with
  | 0 => None
  | S fuel' =>
      match s with
      | EmptyString => None
      | String c r =>
          if Ascii.eqb c "034" then Some (EmptyString, r)
          else if Ascii.eqb c "\" then
            match scan_escape r with
            | Some (x, r') =>
                match scan_string fuel' r' with
                | Some (body, rest) => Some (String x body, rest)
                | None => None
                end
            | None => None
            end
          else if (nat_of_ascii c <? 32)%nat then None
          else
            match scan_string fuel' r with
            | Some (body, rest) => Some (String c body, rest)
            | None => None
            end
      end
  end.

Fixpoint scan_once (fuel : nat) (s : string) {struct fuel}
  : option (json * string) :=
  match fuel with
  | 0 => None
  | S fuel' =>
      match s with
      | String "034" r =>
          match scan_string fuel' r with
          | Some (body, rest) => Some (JStr body, rest)
          | None => None
          end
      | String "{" r =>
          match skip_ws r with
          | String "}" rest => Some (JDict [], rest)
          | r' => scan_members fuel' r' []
          end
      | String "[" r =>
          match skip_ws r with
          | String "]" rest => Some (JList [], rest)
          | r' => scan_items fuel' r' []
          end
      | String "n" (String "u" (String "l" (String "l" rest))) =>
          Some (JNull, rest)
      | String "t" (String "r" (String "u" (String "e" rest))) =>
          Some (JBool true, rest)
      | String "f" (String "a" (String "l" (String "s" (String "e" rest)))) =>
          Some (JBool false, rest)
      | _ => scan_number s
      end
  end%char

(** [s] stands at the quote that opens the next key. *)
with scan_members (fuel : nat) (s : string) (acc : list (string * json))
  {struct fuel} : option (json * string) :=
  match fuel with
  | 0 => None
  | S fuel' =>
      match s with
      | String "034" r =>
          match scan_string fuel' r with
          | Some (key, r1) =>
              match skip_ws r1 with
              | String ":" r2 =>
                  match scan_once fuel' (skip_ws r2) with
                  | Some (v, r3) =>
                      let acc' := dict_set key v acc in
                      match skip_ws r3 with
                      | String "}" rest => Some (JDict acc', rest)
                      | String "," r4 => scan_members fuel' (skip_ws r4) acc'
                      | _ => None
                      end
                  | None => None
                  end
              | _ => None
              end
          | None => None
          end
      | _ => None
      end
  end%char

(** [s] stands at the first character of the next item. *)
with scan_items (fuel : nat) (s : string) (acc : list json)
  {struct fuel} : option (json * string) :=
  match fuel with
  | 0 => None
  | S fuel' =>
      match scan_once fuel' s with
      | Some (v, r1) =>
          match skip_ws r1 with
          | String "]" rest => Some (JList (acc ++ [v]), rest)
          | String "," r2 => scan_items fuel' (skip_ws r2) (acc ++ [v])
          | _ => None
          end
      | None => None
      end
  end%char.

(** [json.loads(s)]: [None] stands for [JSONDecodeError]. *)
Definition loads (s : string) : option json :=
  match scan_once (S (String.length s)) (skip_ws s) with
  | Some (v, rest) =>
      match skip_ws rest with
      | EmptyString => Some v
      | _ => None
      end
  | None => None
  end.

(** [json.dumps(v)] with the default separators and [ensure_ascii]. *)

Definition hex_digit (n : nat) : ascii :=
  ascii_of_nat (if (n <? 10)%nat then 48 + n else 87 + n).

Definition escape_char (c : ascii) : string :=
  let n := nat_of_ascii c in
  match n with
  | 34 => String "\" (String "034" "") | 92 => "\\"
  | 8 => "\b" | 9 => "\t" | 10 => "\n" | 12 => "\f" | 13 => "\r"
  | _ =>
      if ((n <? 32) || (126 <? n))%nat then
        "\u00" ++ String (hex_digit (n / 16)) (String (hex_digit (n mod 16)) "")
      else String c ""
  end.

Fixpoint escape (s : string) : string :=
  match s with
  | EmptyString => EmptyString
  | String c s' => (escape_char c ++ escape s')%string
  end.

Definition quote (s : string) : string :=
  String "034" (escape s ++ String "034" "")%string.

Fixpoint digits_of (fuel : nat) (n : N) (acc : string) : string :=
  match fuel with
  | 0 => acc
  | S fuel' =>
      let acc' := String (ascii_of_N (48 + N.modulo n 10)) acc in
      if (n <? 10)%N then acc' else digits_of fuel' (N.div n 10) acc'
  end.

Definition int_repr (z : Z) : string :=
  let n := Z.abs_N z in
  let body := digits_of (S (N.to_nat (N.log2 n))) n "" in
  if (z <? 0)%Z then ("-" ++ body)%string else body.

Fixpoint dumps (v : json) : string :=
  match v with
  | JNull => "null"
  | JBool true => "true"
  | JBool false => "false"
  | JInt z => int_repr z
  | JStr s => quote s
  | JList l =>
      ("[" ++
       (fix items (l : list json) : string :=
          match l with
          | [] => ""
          | [x] => dumps x
          | x :: l' => dumps x ++ ", " ++ items l'
          end) l ++ "]")%string
  | JDict d =>
      ("{" ++
       (fix members (d : list (string * json)) : string :=
          match d with
          | [] => ""
          | [(k, x)] => quote k ++ ": " ++ dumps x
          | (k, x) :: d' => quote k ++ ": " ++ dumps x ++ ", " ++ members d'
          end) d ++ "}")%string
  end.

End Json.

(** ** Loops *)

(** [for x in l: body], threading the loop state and stopping at the first
    exception. *)
Fixpoint for_each {A S : Type} (l : list A) (body : S -> A -> py S) (s : S)
  : py S :=
  match l with
  | [] => Ok s
  | x :: l' => s' <- body s x ;; for_each l' body s'
  end.

(** [range(a, b)] *)
Definition range (a b : nat) : list nat := seq a (b - a).

(** [l[i]] *)
Definition py_index {A : Type} (l : list A) (i : nat) : py A :=
  match nth_error l i with
  | Some x => Ok x
  | None => Raise IndexError
  end.

(** ** [analyze_stuck_points.py] *)

Module AnalyzeStuckPoints.

Section Decoder.

Variable json_loads : string -> option json.

(** The [for _ in range(3)] repair loop of [parse_event]. *)
Fixpoint strip_braces (budget : nat) (line : string) : option json :=
  match budget with
  | 0 => None
  | S budget' =>
      if Str.endswith "}" line then
        let line := Str.drop_last line in
        match json_loads line with
        | Some v => Some v
        | None => strip_braces budget' line
        end
      else strip_braces budget' line
  end.

Definition parse_event (line : string) : option json :=
  let line := Str.strip line in
  if Str.is_empty line then None
  else
    match json_loads line with
    | Some v => Some v
    | None => strip_braces 3 line
    end.

Fixpoint extract_events (lines : list string) : list json :=
  match lines with
  | [] => []
  | line :: lines' =>
      match parse_event line with
      | Some event =>
          if truthy event then event :: extract_events lines'
          else extract_events lines'
      | None => extract_events lines'
      end
  end.

End Decoder.

(** The dict [{'name': .., 'input': .., 'id': ..}] built by
    [find_tool_uses]. *)
Record tool : Type := mk_tool {
  name : json;
  input : json;
  id : json
}.

Definition find_tool_uses (event : json) : py (list tool) :=
  ty <- py_get event "type" JNull ;;
  if negb (is_str ty "assistant") then Ok []
  else
    message <- py_get event "message" (JDict []) ;;
    content <- py_get message "content" (JList []) ;;
    match content with
    | JList blocks =>
        for_each blocks
          (fun tools block =>
             bty <- py_get block "type" JNull ;;
             if is_str bty "tool_use" then
               n <- py_get block "name" JNull ;;
               inp <- py_get block "input" (JDict []) ;;
               i <- py_get block "id" JNull ;;
               Ok (tools ++ [mk_tool n inp i])
             else Ok tools)
          []
    | _ => Ok []
    end.

(** The dict [{'content': .., 'is_error': ..}] returned by
    [find_tool_result]. *)
Record result : Type := mk_result {
  content : json;
  is_error : json
}.

(** The inner [for block in content] of [find_tool_result]; [Some] is the
    [return] taken inside the loop. *)
Fixpoint match_blocks (blocks : list json) (tool_use_id : json)
  : py (option result) :=
  match blocks with
  | [] => Ok None
  | block :: blocks' =>
      bty <- py_get block "type" JNull ;;
      hit <- (if is_str bty "tool_result" then
                tid <- py_get block "tool_use_id" JNull ;;
                Ok (py_eq tid tool_use_id)
              else Ok false) ;;
      if hit then
        c <- py_get block "content" (JStr "") ;;
        e <- py_get block "is_error" (JBool false) ;;
        Ok (Some (mk_result c e))
      else match_blocks blocks' tool_use_id
  end.

(** The outer [for i in range(..)] of [find_tool_result]. *)
Fixpoint scan_range (events : list json) (tool_use_id : json)
  (indices : list nat) : py (option result) :=
  match indices with
  | [] => Ok None
  | i :: indices' =>
      event <- py_index events i ;;
      ty <- py_get event "type" JNull ;;
      if negb (is_str ty "user") then scan_range events tool_use_id indices'
      else
        message <- py_get event "message" (JDict []) ;;
        content <- py_get message "content" (JList []) ;;
        match content with
        | JList blocks =>
            r <- match_blocks blocks tool_use_id ;;
            match r with
            | Some found => Ok (Some found)
            | None => scan_range events tool_use_id indices'
            end
        | _ => scan_range events tool_use_id indices'
        end
  end.

Definition find_tool_result (events : list json) (tool_use_id : json)
  (start_idx : nat) : py (option result) :=
  scan_range events tool_use_id
    (range start_idx (Nat.min (start_idx + 10) (List.length events))).

(** One [{'index': .., 'command': .., 'result': ..}] entry of a Bash
    sequence. *)
Record entry : Type := mk_entry {
  entry_index : nat;
  entry_command : json;
  entry_result : option result
}.

Definition is_bash (t : tool) : bool := is_str (name t) "Bash".

(** Loop state of [analyze_bash_sequences]. *)
Record seq_state : Type := mk_seq_state {
  sequences : list (list entry);
  current_seq : list entry
}.

Definition bash_sequences_step (events : list json) (st : seq_state)
  (ie : nat * json) : py seq_state :=
  let '(i, event) := ie in
  tools <- find_tool_uses event ;;
  let bash_tools := filter is_bash tools in
  match bash_tools with
  | _ :: _ =>
      cur <- for_each bash_tools
               (fun cur t =>
                  r <- find_tool_result events (id t) i ;;
                  cmd <- py_get (input t) "command" (JStr "") ;;
                  Ok (cur ++ [mk_entry i cmd r]))
               (current_seq st) ;;
      Ok (mk_seq_state (sequences st) cur)
  | [] =>
      if 5 <=? List.length (current_seq st) then
        Ok (mk_seq_state (sequences st ++ [current_seq st]) [])
      else Ok (mk_seq_state (sequences st) [])
  end%nat.

Definition analyze_bash_sequences (events : list json)
  : py (list (list entry)) :=
  st <- for_each (enumerate events) (bash_sequences_step events)
          (mk_seq_state [] []) ;;
  if (5 <=? List.length (current_seq st))%nat then
    Ok (sequences st ++ [current_seq st])
  else Ok (sequences st).

Inductive issue_type : Type := error | warning.

Record issue : Type := mk_issue {
  issue_index : nat;
  issue_command : json;
  kind : issue_type;
  detail : string
}.

Definition error_patterns : list string :=
  [ "command not found"; "no module named"; "not found";
    "permission denied"; "cannot find"; "missing"; "failed to"; "error:" ].

(** The body of [for tool in tools] in [find_environment_issues]. *)
Definition environment_issue_step (events : list json) (i : nat)
  (issues : list issue) (t : tool) : py (list issue) :=
  if is_bash t then
    cmd <- py_get (input t) "command" (JStr "") ;;
    r <- find_tool_result events (id t) i ;;
    match r with
    | None => Ok issues
    | Some res =>
        match content res with
        | JStr text =>
            let content_lower := Str.lower text in
            if truthy (is_error res) then
              c <- py_slice_to 80 cmd ;;
              Ok (issues ++ [mk_issue i c error (Str.take 200 text)])
            else if existsb (fun p => Str.contains p content_lower)
                      error_patterns then
              c <- py_slice_to 80 cmd ;;
              Ok (issues ++ [mk_issue i c warning (Str.take 200 text)])
            else Ok issues
        | _ => Ok issues
        end
    end
  else Ok issues.

Definition find_environment_issues (events : list json) : py (list issue) :=
  for_each (enumerate events)
    (fun issues ie =>
       tools <- find_tool_uses (snd ie) ;;
       for_each tools (environment_issue_step events (fst ie)) issues)
    [].

(** An element of [escapes]. *)
Record escape : Type := mk_escape {
  escape_index : nat;
  escape_type : string;
  escape_input : json
}.

Definition analyze_workflow_escapes (events : list json) : py (list escape) :=
  for_each (enumerate events)
    (fun escapes ie =>
       tools <- find_tool_uses (snd ie) ;;
       for_each tools
         (fun escapes t =>
            if is_str (name t) "TodoWrite"
            then Ok (escapes ++ [mk_escape (fst ie) "TodoWrite" (input t)])
            else Ok escapes)
         escapes)
    [].

Definition test_patterns : list string :=
  [ "cargo test"; "cargo build"; "npm test"; "pytest"; "jest"; "go test" ].

(** An element of [attempts]. *)
Record attempt : Type := mk_attempt {
  attempt_index : nat;
  attempt_command : json;
  attempt_is_error : json;
  output_preview : json
}.

(** The body of [for tool in tools] in [analyze_test_attempts]. *)
Definition test_attempt_step (events : list json) (i : nat)
  (attempts : list attempt) (t : tool) : py (list attempt) :=
  if is_bash t then
    cmd <- py_get (input t) "command" (JStr "") ;;
    hit <- py_any_in test_patterns cmd ;;
    if hit then
      r <- find_tool_result events (id t) i ;;
      let output :=
        match r with
        | Some res =>
            match content res with
            | JStr text => JStr (Str.take 500 text)
            | _ => JStr ""
            end
        | None => JStr ""
        end in
      let is_err :=
        match r with
        | Some res => is_error res
        | None => JBool false
        end in
      c <- py_slice_to 100 cmd ;;
      Ok (attempts ++ [mk_attempt i c is_err output])
    else Ok attempts
  else Ok attempts.

Definition analyze_test_attempts (events : list json) : py (list attempt) :=
  for_each (enumerate events)
    (fun attempts ie =>
       tools <- find_tool_uses (snd ie) ;;
       for_each tools (test_attempt_step events (fst ie)) attempts)
    [].



End AnalyzeStuckPoints.

(** ** [analyze_flow.py] *)

(** [v.split()] *)
Definition py_split (v : json) : py (list string) :=
  match v with
  | JStr s => Ok (Str.split s)
  | _ => Raise AttributeError
  end.

Module AnalyzeFlow.

Section Decoder.

Variable json_loads : string -> option json.

Definition parse_event (line : string) : option json :=
  let line := Str.strip line in
  if Str.is_empty line then None
  else
    let line :=
      if Str.endswith "}}" line && Str.contains (Str.dq "loop_meta") line
      then Str.drop_last line else line in
    json_loads line.

Fixpoint load_events (lines : list string) : list json :=
  match lines with
  | [] => []
  | line :: lines' =>
      match parse_event line with
      | Some e => if truthy e then e :: load_events lines' else load_events lines'
      | None => load_events lines'
      end
  end.

End Decoder.

Definition recovery_words : list string :=
  [ "fix"; "let me"; "try"; "install"; "check" ].

(** Truthiness of [last_error_idx], which is [None] or an [int]. *)
Definition idx_truthy (o : option nat) : bool :=
  match o with
  | Some n => negb (Nat.eqb n 0)
  | None => false
  end.

(** A recorded [(last_error_idx, i, text)]. *)
Record recovery : Type := mk_recovery {
  err_idx : option nat;
  recov_idx : nat;
  thought : json
}.

(** Loop state of the error -> recovery scan. *)
Record recovery_state : Type := mk_recovery_state {
  error_recoveries : list recovery;
  last_error_idx : option nat
}.

(** [for block in content] over a user event: every error result sets
    [last_error_idx = i]. *)
Definition mark_errors (i : nat) (blocks : list json) (last : option nat)
  : py (option nat) :=
  for_each blocks
    (fun last block =>
       bty <- py_get block "type" JNull ;;
       if is_str bty "tool_result" then
         e <- py_get block "is_error" JNull ;;
         if truthy e then Ok (Some i) else Ok last
       else Ok last)
    last.

(** [for block in content] over an assistant event; the [break] ends the
    loop at the first text block that holds a recovery word. *)
Fixpoint find_recovery (i : nat) (blocks : list json) (st : recovery_state)
  : py recovery_state :=
  match blocks with
  | [] => Ok st
  | block :: blocks' =>
      bty <- py_get block "type" JNull ;;
      if is_str bty "text" then
        t <- py_get block "text" (JStr "") ;;
        text <- py_slice_to 80 t ;;
        low <- py_lower text ;;
        if existsb (fun w => Str.contains w low) recovery_words then
          Ok (mk_recovery_state
                (error_recoveries st
                   ++ [mk_recovery (last_error_idx st) i text])
                None)
        else find_recovery i blocks' st
      else find_recovery i blocks' st
  end.

Definition recovery_step (st : recovery_state) (ie : nat * json)
  : py recovery_state :=
  let '(i, event) := ie in
  ty <- py_get event "type" JNull ;;
  st1 <- (if is_str ty "user" then
            msg <- py_get event "message" (JDict []) ;;
            content <- py_get msg "content" (JList []) ;;
            blocks <- py_iter content ;;
            last <- mark_errors i blocks (last_error_idx st) ;;
            Ok (mk_recovery_state (error_recoveries st) last)
          else Ok st) ;;
  if is_str ty "assistant" && idx_truthy (last_error_idx st1) then
    msg <- py_get event "message" (JDict []) ;;
    content <- py_get msg "content" (JList []) ;;
    blocks <- py_iter content ;;
    find_recovery i blocks st1
  else Ok st1.

(** The ERROR -> RECOVERY pass of [analyze_flow]. *)
Definition error_recovery_scan (events : list json) : py (list recovery) :=
  st <- for_each (enumerate events) recovery_step
          (mk_recovery_state [] None) ;;
  Ok (error_recoveries st).

(** [x in reads] and [reads.add(x)] on a set kept in insertion order;
    both hash [x]. *)
Definition set_mem (x : json) (s : list json) : py bool :=
  if hashable x then Ok (existsb (py_eq x) s) else Raise TypeError.

Definition set_add (x : json) (s : list json) : py (list json) :=
  b <- set_mem x s ;;
  if b then Ok s else Ok (s ++ [x]).

(** A recorded [(i, fp, had_read)]. *)
Record edit : Type := mk_edit {
  edit_index : nat;
  fp : json;
  had_read : bool
}.

Record edit_state : Type := mk_edit_state {
  edits : list edit;
  reads : list json
}.

Definition edit_block_step (i : nat) (st : edit_state) (block : json)
  : py edit_state :=
  bty <- py_get block "type" JNull ;;
  if is_str bty "tool_use" then
    name <- py_get block "name" JNull ;;
    inp <- py_get block "input" (JDict []) ;;
    if is_str name "Read" then
      p <- py_get inp "file_path" (JStr "") ;;
      rs <- set_add p (reads st) ;;
      Ok (mk_edit_state (edits st) rs)
    else if is_str name "Edit" then
      p <- py_get inp "file_path" (JStr "") ;;
      had <- set_mem p (reads st) ;;
      Ok (mk_edit_state (edits st ++ [mk_edit i p had]) (reads st))
    else Ok st
  else Ok st.

Definition edit_step (st : edit_state) (ie : nat * json) : py edit_state :=
  let '(i, event) := ie in
  ty <- py_get event "type" JNull ;;
  if negb (is_str ty "assistant") then Ok st
  else
    msg <- py_get event "message" (JDict []) ;;
    content <- py_get msg "content" (JList []) ;;
    blocks <- py_iter content ;;
    for_each blocks (edit_block_step i) st.

(** The READ-BEFORE-EDIT pass of [analyze_flow]. *)
Definition read_before_edit (events : list json) : py (list edit) :=
  st <- for_each (enumerate events) edit_step (mk_edit_state [] []) ;;
  Ok (edits st).

(** [edits_with_read = sum(1 for _, _, had in edits if had)] *)
Definition edits_with_read (es : list edit) : nat :=
  List.length (filter had_read es).

Inductive action : Type := START | CLOSE.

(** A recorded [(action, task_id, i)]. *)
Record transition : Type := mk_transition {
  action_of : action;
  task_id : string;
  at_index : nat
}.

(** [cmd.split()[2] if len(cmd.split()) > 2 else 'unknown'] *)
Definition task_id_of (cmd : json) : py string :=
  ws <- py_split cmd ;;
  if (2 <? List.length ws)%nat then
    ws' <- py_split cmd ;;
    Ok (nth 2 ws' "unknown")
  else Ok "unknown".

Definition timeline_block (i : nat) (timeline : list transition)
  (block : json) : py (list transition) :=
  bty <- py_get block "type" JNull ;;
  bash <- (if is_str bty "tool_use" then
             n <- py_get block "name" JNull ;;
             Ok (is_str n "Bash")
           else Ok false) ;;
  if bash then
    inp <- py_get block "input" (JDict []) ;;
    cmd <- py_get inp "command" (JStr "") ;;
    u <- py_in "bd update" cmd ;;
    starts <- (if u then py_in "in_progress" cmd else Ok false) ;;
    if starts then
      t <- task_id_of cmd ;;
      Ok (timeline ++ [mk_transition START t i])
    else
      c <- py_in "bd close" cmd ;;
      if c then
        t <- task_id_of cmd ;;
        Ok (timeline ++ [mk_transition CLOSE t i])
      else Ok timeline
  else Ok timeline.

Definition timeline_step (timeline : list transition) (ie : nat * json)
  : py (list transition) :=
  let '(i, event) := ie in
  ty <- py_get event "type" JNull ;;
  if negb (is_str ty "assistant") then Ok timeline
  else
    msg <- py_get event "message" (JDict []) ;;
    content <- py_get msg "content" (JList []) ;;
    blocks <- py_iter content ;;
    for_each blocks (timeline_block i) timeline.

(** The task-transition pass of [analyze_flow]. *)
Definition task_timeline (events : list json) : py (list transition) :=
  for_each (enumerate events) timeline_step [].

(** The TASK TIMELINE lines: each transition with its [events_since],
    the distance to [prev_idx]. *)
Fixpoint timeline_lines (prev_idx : nat) (timeline : list transition)
  : list (transition * Z) :=
  match timeline with
  | [] => []
  | t :: timeline' =>
      (t, (Z.of_nat (at_index t) - Z.of_nat prev_idx)%Z)
        :: timeline_lines (at_index t) timeline'
  end.

End AnalyzeFlow.

(** ** [analyze_efficiency.py] *)

Module AnalyzeEfficiency.

(** [tool_categories]; a dict literal iterates in the order written. *)
Definition tool_categories : list (string * list string) :=
  [ ("orientation", ["bd ready"; "bd show"; "bd list"]);
    ("claiming", ["bd update"]);
    ("reading", ["Read"; "Glob"]);
    ("testing", ["cargo test"; "pytest"; "npm test"; "python -m pytest"]);
    ("editing", ["Edit"; "Write"]);
    ("closing", ["bd close"]);
    ("git", ["git "]);
    ("env_setup", ["apt-get"; "dnf"; "pip"; "which"; "curl"]) ].

(** [for cat, patterns in tool_categories.items()] with its [break];
    [None] is [categorized = False] at the end of the loop. *)
Fixpoint first_category (cats : list (string * list string)) (cmd : json)
  : py (option string) :=
  match cats with
  | [] => Ok None
  | (cat, patterns) :: cats' =>
      b <- py_any_in patterns cmd ;;
      if b then Ok (Some cat) else first_category cats' cmd
  end.

(** The category whose counter is incremented for a command. *)
Definition categorize (cmd : json) : py string :=
  c <- first_category tool_categories cmd ;;
  match c with
  | Some cat => Ok cat
  | None => Ok "other"
  end.

(** [category_counts[cat] += 1]; every category is a key from the start. *)
Fixpoint increment (cat : string) (counts : list (string * nat))
  : list (string * nat) :=
  match counts with
  | [] => []
  | (k, n) :: counts' =>
      if String.eqb cat k then (k, S n) :: counts'
      else (k, n) :: increment cat counts'
  end.

Definition initial_counts : list (string * nat) :=
  map (fun kv => (fst kv, 0)) tool_categories ++ [("other", 0)].

(** The match target of a [tool_use] block. *)
Definition match_target (block : json) : py json :=
  name <- py_get block "name" (JStr "") ;;
  inp <- py_get block "input" (JDict []) ;;
  if is_str name "Bash" then py_get inp "command" (JStr "") else Ok name.

Definition count_block (counts : list (string * nat)) (block : json)
  : py (list (string * nat)) :=
  bty <- py_get block "type" JNull ;;
  if negb (is_str bty "tool_use") then Ok counts
  else
    cmd <- match_target block ;;
    cat <- categorize cmd ;;
    Ok (increment cat counts).

Definition count_event (counts : list (string * nat)) (event : json)
  : py (list (string * nat)) :=
  ty <- py_get event "type" JNull ;;
  if negb (is_str ty "assistant") then Ok counts
  else
    msg <- py_get event "message" (JDict []) ;;
    content <- py_get msg "content" (JList []) ;;
    blocks <- py_iter content ;;
    for_each blocks count_block counts.

(** The category counts computed by [analyze]. *)
Definition analyze (events : list json) : py (list (string * nat)) :=
  for_each events count_event initial_counts.

(** [category_counts[cat]] *)
Fixpoint count_of (cat : string) (counts : list (string * nat)) : py nat :=
  match counts with
  | [] => Raise KeyError
  | (k, n) :: counts' =>
      if String.eqb cat k then Ok n else count_of cat counts'
  end.

(** The figures of the three closing lines of [analyze]; [total] is
    [sum(category_counts.values())]. *)
Record figures : Type := mk_figures {
  total : nat;
  productive : nat;
  overhead : nat;
  workflow : nat
}.

(** How [analyze] ends: the closing lines are printed, or an exception
    leaves the function; [productive/total*100] divides two [int]s. *)
Inductive outcome : Type :=
| Printed (f : figures)
| Raised (e : pyexc)
| ZeroDivisionError.

(** The lines after the table: the three sums are taken first, then the
    first [print] divides by [total]. *)
Definition closing_lines (counts : list (string * nat)) : outcome :=
  let total := list_sum (map snd counts) in
  match
    (editing <- count_of "editing" counts ;;
     testing <- count_of "testing" counts ;;
     orientation <- count_of "orientation" counts ;;
     env_setup <- count_of "env_setup" counts ;;
     git <- count_of "git" counts ;;
     claiming <- count_of "claiming" counts ;;
     closing <- count_of "closing" counts ;;
     Ok (mk_figures total (editing + testing)
           (orientation + env_setup + git) (claiming + closing)))
  with
  | Ok f => if Nat.eqb total 0 then ZeroDivisionError else Printed f
  | Raise e => Raised e
  end.

(** [analyze] to its end, on the events of the file. *)
Definition report (events : list json) : outcome :=
  match analyze events with
  | Ok counts => closing_lines counts
  | Raise e => Raised e
  end.

End AnalyzeEfficiency.

(** ** [summarize_session.py] *)

Module SummarizeSession.

Section Decoder.

Variable json_loads : string -> option json.

Definition parse_event (line : string) : option json :=
  let line := Str.strip line in
  if Str.is_empty line then None
  else
    let line :=
      if Str.endswith "}}" line && Str.contains (Str.dq "loop_meta") line
      then Str.drop_last line else line in
    json_loads line.

(** An element of [tool_events]. *)
Record tool_event : Type := mk_tool_event {
  index : nat;
  name : json;
  id : json;
  input : json
}.

(** An element of [thoughts] or of [thinking_blocks]. *)
Record note : Type := mk_note {
  note_index : nat;
  text : json
}.

(** The data collected by the first loop of [summarize_session]. *)
Record collected : Type := mk_collected {
  loop_meta : list json;
  tool_counts : list (json * nat);
  tool_errors : nat;
  tool_events : list tool_event;
  thoughts : list note;
  thinking_blocks : list note;
  issues_worked : list json;
  bd_commands : list json
}.

Definition empty : collected := mk_collected [] [] 0 [] [] [] [] [].

(** [tool_counts[tool_name] += 1] on a [defaultdict(int)]. *)
Fixpoint bump (k : json) (counts : list (json * nat)) : list (json * nat) :=
  match counts with
  | [] => [(k, 1)]
  | (k', n) :: counts' =>
      if py_eq k k' then (k', S n) :: counts' else (k', n) :: bump k counts'
  end.

Definition count_tool (k : json) (counts : list (json * nat))
  : py (list (json * nat)) :=
  if hashable k then Ok (bump k counts) else Raise TypeError.

(** [issues_worked.add(issue_id)] *)
Definition add_issue (x : json) (s : list json) : py (list json) :=
  if hashable x then
    Ok (if existsb (py_eq x) s then s else s ++ [x])
  else Raise TypeError.

Definition assistant_block (idx : nat) (c : collected) (block : json)
  : py collected :=
  block_type <- py_get block "type" JNull ;;
  if is_str block_type "thinking" then
    t <- py_get block "thinking" (JStr "") ;;
    t200 <- py_slice_to 200 t ;;
    Ok (mk_collected (loop_meta c) (tool_counts c) (tool_errors c)
          (tool_events c) (thoughts c)
          (thinking_blocks c ++ [mk_note idx t200])
          (issues_worked c) (bd_commands c))
  else if is_str block_type "text" then
    t <- py_get block "text" (JStr "") ;;
    Ok (mk_collected (loop_meta c) (tool_counts c) (tool_errors c)
          (tool_events c) (thoughts c ++ [mk_note idx t])
          (thinking_blocks c) (issues_worked c) (bd_commands c))
  else if is_str block_type "tool_use" then
    tool_name <- py_get block "name" JNull ;;
    tool_input <- py_get block "input" (JDict []) ;;
    counts <- count_tool tool_name (tool_counts c) ;;
    i <- py_get block "id" JNull ;;
    let events := tool_events c ++ [mk_tool_event idx tool_name i tool_input] in
    bd <- (if is_str tool_name "Bash" then
             cmd <- py_get tool_input "command" (JStr "") ;;
             a <- py_startswith "bd " cmd ;;
             b <- (if a then Ok true else py_in " bd " cmd) ;;
             if b then Ok (bd_commands c ++ [cmd]) else Ok (bd_commands c)
           else Ok (bd_commands c)) ;;
    Ok (mk_collected (loop_meta c) counts (tool_errors c) events
          (thoughts c) (thinking_blocks c) (issues_worked c) bd)
  else Ok c.

Definition user_block (c : collected) (block : json) : py collected :=
  block_type <- py_get block "type" JNull ;;
  if is_str block_type "tool_result" then
    e <- py_get block "is_error" (JBool false) ;;
    if truthy e then
      Ok (mk_collected (loop_meta c) (tool_counts c) (S (tool_errors c))
            (tool_events c) (thoughts c) (thinking_blocks c)
            (issues_worked c) (bd_commands c))
    else Ok c
  else Ok c.

(** The body of [for idx, line in enumerate(lines)]. *)
Definition collect_line (c : collected) (il : nat * string) : py collected :=
  let '(idx, line) := il in
  match parse_event line with
  | None => Ok c
  | Some event =>
      if negb (truthy event) then Ok c
      else
        event_type <- py_get event "type" JNull ;;
        if is_str event_type "loop_meta" then
          let metas := loop_meta c ++ [event] in
          ev <- py_get event "event" JNull ;;
          issues <- (if is_str ev "iteration_start" then
                       data <- py_get event "data" (JDict []) ;;
                       issue_id <- py_get data "issue_id" JNull ;;
                       if truthy issue_id
                       then add_issue issue_id (issues_worked c)
                       else Ok (issues_worked c)
                     else Ok (issues_worked c)) ;;
          Ok (mk_collected metas (tool_counts c) (tool_errors c)
                (tool_events c) (thoughts c) (thinking_blocks c)
                issues (bd_commands c))
        else if is_str event_type "system" then Ok c
        else if is_str event_type "assistant" then
          message <- py_get event "message" (JDict []) ;;
          content <- py_get message "content" (JList []) ;;
          match content with
          | JList blocks => for_each blocks (assistant_block idx) c
          | _ => Ok c
          end
        else if is_str event_type "user" then
          message <- py_get event "message" (JDict []) ;;
          content <- py_get message "content" (JList []) ;;
          match content with
          | JList blocks => for_each blocks user_block c
          | _ => Ok c
          end
        else Ok c
  end.

(** The collecting loop of [summarize_session]. *)
Definition collect (lines : list string) : py collected :=
  for_each (enumerate lines) collect_line empty.

End Decoder.

(** A printed [tool xN starting at event #start]. *)
Record loop_finding : Type := mk_loop_finding {
  tool_name : json;
  run_length : nat;
  start : nat
}.

(** Loop state of the consecutive-run pass. *)
Record run_state : Type := mk_run_state {
  consecutive_tool : json;
  consecutive_count : nat;
  start_index : nat;
  found : list loop_finding
}.

Definition run_step (st : run_state) (event : tool_event) : run_state :=
  let tool := name event in
  if py_eq tool (consecutive_tool st) then
    mk_run_state (consecutive_tool st) (S (consecutive_count st))
      (start_index st) (found st)
  else
    let found' :=
      if (5 <=? consecutive_count st)%nat then
        found st ++ [mk_loop_finding (consecutive_tool st)
                       (consecutive_count st) (start_index st)]
      else found st in
    mk_run_state tool 1 (index event) found'.

(** The POTENTIAL LOOPS pass of [summarize_session] over [tool_events]. *)
Definition potential_loops (events : list tool_event) : list loop_finding :=
  let st := fold_left run_step events (mk_run_state JNull 0 0 []) in
  if (5 <=? consecutive_count st)%nat then
    found st ++ [mk_loop_finding (consecutive_tool st)
                   (consecutive_count st) (start_index st)]
  else found st.

End SummarizeSession.

(** ** The transcript schema

    The input format of the scripts: every record is an object, its
    [message] an object whose [content] is a list of objects, and the
    fields the detectors read have the type the format gives them.  Any
    field may be absent (the scripts default it); a field that is present
    has the right type. *)

Definition is_dict (v : json) : bool :=
  match v with JDict _ => true | _ => false end.

(** What [v.get(k, default)] returns on a dict [v]. *)
Definition field (v : json) (k : string) (default : json) : json :=
  match v with
  | JDict d => match dict_lookup k d with Some x => x | None => default end
  | _ => default
  end.

(** The content blocks of an event. *)
Definition blocks_of (event : json) : list json :=
  match field (field event "message" (JDict [])) "content" (JList []) with
  | JList blocks => blocks
  | _ => []
  end.

Definition block_ok (b : json) : bool :=
  is_dict b
  && isinstance_str (field b "name" (JStr ""))
  && is_dict (field b "input" (JDict []))
  && isinstance_str (field (field b "input" (JDict [])) "command" (JStr ""))
  && isinstance_str (field (field b "input" (JDict [])) "file_path" (JStr ""))
  && isinstance_str (field b "text" (JStr ""))
  && isinstance_str (field b "thinking" (JStr "")).

Definition event_ok (e : json) : bool :=
  is_dict e
  && is_dict (field e "message" (JDict []))
  && isinstance_list (field (field e "message" (JDict [])) "content" (JList []))
  && forallb block_ok (blocks_of e)
  && is_dict (field e "data" (JDict []))
  && isinstance_str (field (field e "data" (JDict [])) "issue_id" (JStr "")).

Definition transcript_ok (events : list json) : bool :=
  forallb event_ok events.

(** ** Sample records *)

Module Sample.

(** A well-formed [iteration_start] record and its serialization. *)
Definition iteration_start : json :=
  JDict [ ("type", JStr "loop_meta");
          ("event", JStr "iteration_start");
          ("timestamp", JStr "2026-01-05T10:00:00Z");
          ("data", JDict [ ("iteration", JInt 1);
                           ("mode", JStr "build");
                           ("issue_id", JStr "bd-7") ]) ].

Definition iteration_start_line : string :=
  Str.q "{'type': 'loop_meta', 'event': 'iteration_start', 'timestamp': '2026-01-05T10:00:00Z', 'data': {'iteration': 1, 'mode': 'build', 'issue_id': 'bd-7'}}".

End Sample.

(** ** Declarative counterparts used in the statements *)

(** The categories, in declared order, with a pattern that occurs in [s]. *)
Definition matching (s : string) : list string :=
  map fst
    (filter (fun cp => existsb (fun p => Str.contains p s) (snd cp))
       AnalyzeEfficiency.tool_categories).

(** *** Error -> recovery matcher *)

(** A [tool_result] block with a truthy [is_error]. *)
Definition is_error_block (b : json) : bool :=
  is_str (field b "type" JNull) "tool_result"
  && truthy (field b "is_error" JNull).

(** A user event that holds an error result. *)
Definition has_error (e : json) : bool :=
  is_str (field e "type" JNull) "user" && existsb is_error_block (blocks_of e).

(** The excerpt [block.get('text', '')[:80]] of a block. *)
Definition excerpt (b : json) : string :=
  match field b "text" (JStr "") with
  | JStr t => Str.take 80 t
  | _ => ""
  end.

(** A [text] block whose excerpt, lowercased, holds a recovery word. *)
Definition is_recovery_block (b : json) : bool :=
  is_str (field b "type" JNull) "text"
  && existsb (fun w => Str.contains w (Str.lower (excerpt b)))
       AnalyzeFlow.recovery_words.

(** The excerpt of the first recovery block of an assistant event. *)
Definition recovery_text (e : json) : option json :=
  if is_str (field e "type" JNull) "assistant" then
    match find is_recovery_block (blocks_of e) with
    | Some b => Some (JStr (excerpt b))
    | None => None
    end
  else None.

Definition has_error_at (events : list json) (j : nat) : bool :=
  match nth_error events j with
  | Some e => has_error e
  | None => false
  end.

Definition recovery_at (events : list json) (j : nat) : option json :=
  match nth_error events j with
  | Some e => recovery_text e
  | None => None
  end.

(** Between the error at [e] and position [n] there is no other error
    and, when [e] is not 0, no recovery text. *)
Definition open_error (events : list json) (n e : nat) : Prop :=
  e < n
  /\ has_error_at events e = true
  /\ (forall j, e < j < n -> has_error_at events j = false)
  /\ (e <> 0 -> forall j, e < j < n -> recovery_at events j = None).

(** The string held by the [text] field of a block. *)
Definition text_of (b : json) : string :=
  match field b "text" (JStr "") with
  | JStr t => t
  | _ => ""
  end.

(** One iteration of the matcher's loop on a well-shaped event. *)
Definition recovery_step_spec (st : AnalyzeFlow.recovery_state)
  (ie : nat * json) : AnalyzeFlow.recovery_state :=
  let last1 :=
    if has_error (snd ie) then Some (fst ie)
    else AnalyzeFlow.last_error_idx st in
  if AnalyzeFlow.idx_truthy last1 then
    match recovery_text (snd ie) with
    | Some t =>
        AnalyzeFlow.mk_recovery_state
          (AnalyzeFlow.error_recoveries st
             ++ [AnalyzeFlow.mk_recovery last1 (fst ie) t])
          None
    | None =>
        AnalyzeFlow.mk_recovery_state (AnalyzeFlow.error_recoveries st) last1
    end
  else AnalyzeFlow.mk_recovery_state (AnalyzeFlow.error_recoveries st) last1.

(** The pairing [x] is an open error other than index 0 met by a recovery
    text. *)
Definition paired (events : list json) (x : AnalyzeFlow.recovery) : Prop :=
  exists e,
    AnalyzeFlow.err_idx x = Some e
    /\ e <> 0
    /\ open_error events (AnalyzeFlow.recov_idx x) e
    /\ recovery_at events (AnalyzeFlow.recov_idx x)
       = Some (AnalyzeFlow.thought x).

(** The matcher's state after a whole transcript of well-shaped events. *)
Definition matcher_run (events : list json) : AnalyzeFlow.recovery_state :=
  fold_left recovery_step_spec (enumerate events)
    (AnalyzeFlow.mk_recovery_state [] None).

(** What the matcher's state says about the events read so far: the
    pending index is the one open error, and the recorded pairings are the
    open errors other than index 0 met by a recovery text. *)
Definition matcher_inv (events : list json) (st : AnalyzeFlow.recovery_state)
  : Prop :=
  (forall e,
     AnalyzeFlow.last_error_idx st = Some e
     <-> open_error events (List.length events) e)
  /\ (forall x, In x (AnalyzeFlow.error_recoveries st) <-> paired events x).

(** Records of the matcher's examples. *)

Module FlowSample.

Definition system_init : json :=
  JDict [("type", JStr "system"); ("subtype", JStr "init")].

Definition tool_error (call_id : string) : json :=
  JDict [ ("type", JStr "user");
          ("message",
           JDict [("content",
                   JList [JDict [ ("type", JStr "tool_result");
                                  ("tool_use_id", JStr call_id);
                                  ("content", JStr "exit status 1");
                                  ("is_error", JBool true) ]])]) ].

Definition says (t : string) : json :=
  JDict [ ("type", JStr "assistant");
          ("message",
           JDict [("content",
                   JList [JDict [("type", JStr "text"); ("text", JStr t)]])]) ].

(** [Error@1, Error@3, Text(try again)@4] *)
Definition two_errors : list json :=
  [ system_init; tool_error "t1"; system_init; tool_error "t2";
    says "try again" ].

(** [Error@5, Text(let me fix this)@7] *)
Definition one_error : list json :=
  [ system_init; system_init; system_init; system_init; system_init;
    tool_error "t1"; system_init; says "let me fix this" ].

(** A text of 104 characters whose only recovery word comes after the
    first 80. *)
Definition late_word : string :=
  "The build stopped in the linker stage and the log shows an undefined symbol there, so I will fix it now.".

(** [Error@1, Text(late_word)@2] *)
Definition late_recovery : list json :=
  [ system_init; tool_error "t1"; says late_word ].

(** [Error@0, Text(try again)@1] *)
Definition error_first : list json := [ tool_error "t1"; says "try again" ].

End FlowSample.

(** *** Tool-result lookup *)

(** A [tool_result] block that answers the call [call_id]. *)
Definition matches (call_id : json) (b : json) : bool :=
  is_str (field b "type" JNull) "tool_result"
  && py_eq (field b "tool_use_id" JNull) call_id.

(** The blocks of a user event; other events hold no results. *)
Definition result_blocks (e : json) : list json :=
  if is_str (field e "type" JNull) "user" then blocks_of e else [].

(** What [find_tool_result] returns for a matching block. *)
Definition as_result (b : json) : AnalyzeStuckPoints.result :=
  AnalyzeStuckPoints.mk_result
    (field b "content" (JStr "")) (field b "is_error" (JBool false)).

(** The first block of event [k] that answers [call_id]; [None] past the
    end of the transcript. *)
Definition match_at (events : list json) (call_id : json) (k : nat)
  : option json :=
  match nth_error events k with
  | Some e => find (matches call_id) (result_blocks e)
  | None => None
  end.

(** The first match among the events [k], [k+1], ..., [k+n-1]. *)
Fixpoint first_from (events : list json) (call_id : json) (k n : nat)
  : option json :=
  match n with
  | 0 => None
  | S n' =>
      match match_at events call_id k with
      | Some b => Some b
      | None => first_from events call_id (S k) n'
      end
  end.

(** Transcripts of the lookup's examples: a call at event 0 whose result
    comes [n] events later. *)

Module LookupSample.

Definition call (call_id cmd : string) : json :=
  JDict [ ("type", JStr "assistant");
          ("message",
           JDict [("content",
                   JList [JDict [ ("type", JStr "tool_use");
                                  ("name", JStr "Bash");
                                  ("input", JDict [("command", JStr cmd)]);
                                  ("id", JStr call_id) ]])]) ].

Definition answer_block (call_id : string) : json :=
  JDict [ ("type", JStr "tool_result");
          ("tool_use_id", JStr call_id);
          ("content", JStr "ok");
          ("is_error", JBool false) ].

Definition answer (call_id : string) : json :=
  JDict [ ("type", JStr "user");
          ("message", JDict [("content", JList [answer_block call_id])]) ].

Definition answered_after (n : nat) : list json :=
  call "t1" "ls" :: repeat FlowSample.system_init (n - 1) ++ [answer "t1"].

End LookupSample.

(** *** Tool invocations and the detectors of [analyze_stuck_points.py] *)

Definition is_tool_use (b : json) : bool :=
  is_str (field b "type" JNull) "tool_use".

(** The record [find_tool_uses] builds for a [tool_use] block. *)
Definition as_tool (b : json) : AnalyzeStuckPoints.tool :=
  AnalyzeStuckPoints.mk_tool
    (field b "name" JNull) (field b "input" (JDict [])) (field b "id" JNull).

(** The tool invocations of an event, in block order. *)
Definition tool_uses (e : json) : list AnalyzeStuckPoints.tool :=
  if is_str (field e "type" JNull) "assistant"
  then map as_tool (filter is_tool_use (blocks_of e))
  else [].

(** The Bash invocations of event [i]. *)
Definition bash_uses_at (events : list json) (i : nat)
  : list AnalyzeStuckPoints.tool :=
  match nth_error events i with
  | Some e => filter AnalyzeStuckPoints.is_bash (tool_uses e)
  | None => []
  end.

(** The command text of a Bash invocation. *)
Definition command_of (t : AnalyzeStuckPoints.tool) : json :=
  field (AnalyzeStuckPoints.input t) "command" (JStr "").

(** The result matched to an invocation of event [i]: the first answer in
    the ten events from [i] on. *)
Definition matched_result (events : list json) (i : nat)
  (t : AnalyzeStuckPoints.tool) : option AnalyzeStuckPoints.result :=
  option_map as_result (first_from events (AnalyzeStuckPoints.id t) i 10).

(** The finding, if any, for one Bash invocation of event [i]. *)
Definition issue_of (events : list json) (i : nat)
  (t : AnalyzeStuckPoints.tool) : list AnalyzeStuckPoints.issue :=
  match matched_result events i t with
  | Some r =>
      match AnalyzeStuckPoints.content r, command_of t with
      | JStr text, JStr cmd =>
          if truthy (AnalyzeStuckPoints.is_error r) then
            [AnalyzeStuckPoints.mk_issue i (JStr (Str.take 80 cmd))
               AnalyzeStuckPoints.error (Str.take 200 text)]
          else if existsb (fun p => Str.contains p (Str.lower text))
                    AnalyzeStuckPoints.error_patterns then
            [AnalyzeStuckPoints.mk_issue i (JStr (Str.take 80 cmd))
               AnalyzeStuckPoints.warning (Str.take 200 text)]
          else []
      | _, _ => []
      end
  | None => []
  end.

(** A tool record built from a well-shaped block. *)
Definition tool_ok (t : AnalyzeStuckPoints.tool) : bool :=
  is_dict (AnalyzeStuckPoints.input t) && isinstance_str (command_of t).

(** Transcripts of the environment scanner's examples. *)

Module IssueSample.

(** An error result whose content is a list of blocks, not a string. *)
Definition structured_error (call_id : string) : json :=
  JDict [ ("type", JStr "user");
          ("message",
           JDict [("content",
                   JList [JDict [ ("type", JStr "tool_result");
                                  ("tool_use_id", JStr call_id);
                                  ("content",
                                   JList [JDict [("type", JStr "text");
                                                 ("text", JStr "make: command not found")]]);
                                  ("is_error", JBool true) ]])]) ].

Definition failed_call : list json :=
  [ LookupSample.call "t1" "make"; FlowSample.tool_error "t1" ].

Definition failed_call_structured : list json :=
  [ LookupSample.call "t1" "make"; structured_error "t1" ].

End IssueSample.

(** *** Bash sequences *)

(** The entry recorded for a Bash invocation of event [i]. *)
Definition entry_of (events : list json) (i : nat)
  (t : AnalyzeStuckPoints.tool) : AnalyzeStuckPoints.entry :=
  AnalyzeStuckPoints.mk_entry i (command_of t) (matched_result events i t).

(** The entries of event [i]: one per Bash invocation it holds. *)
Definition entries_at (events : list json) (i : nat)
  : list AnalyzeStuckPoints.entry :=
  map (entry_of events i) (bash_uses_at events i).

(** Event [i] exists and holds at least one Bash invocation. *)
Definition has_bash (events : list json) (i : nat) : bool :=
  match bash_uses_at events i with
  | [] => false
  | _ :: _ => true
  end.

(** The entries of the events [a], ..., [b-1]. *)
Definition entries_between (events : list json) (a b : nat)
  : list AnalyzeStuckPoints.entry :=
  flat_map (entries_at events) (seq a (b - a)).

(** The events [a], ..., [b-1] are a maximal run of events that each hold
    a Bash invocation. *)
Definition maximal_run (events : list json) (a b : nat) : Prop :=
  a < b
  /\ (forall k, a <= k < b -> has_bash events k = true)
  /\ (a = 0 \/ has_bash events (a - 1) = false)
  /\ has_bash events b = false.

(** One iteration of the loop of [analyze_bash_sequences] on a
    well-shaped event. *)
Definition seq_step_spec (events : list json)
  (st : AnalyzeStuckPoints.seq_state) (ie : nat * json)
  : AnalyzeStuckPoints.seq_state :=
  match filter AnalyzeStuckPoints.is_bash (tool_uses (snd ie)) with
  | [] =>
      if (5 <=? List.length (AnalyzeStuckPoints.current_seq st))%nat then
        AnalyzeStuckPoints.mk_seq_state
          (AnalyzeStuckPoints.sequences st
             ++ [AnalyzeStuckPoints.current_seq st]) []
      else AnalyzeStuckPoints.mk_seq_state (AnalyzeStuckPoints.sequences st) []
  | bash_tools =>
      AnalyzeStuckPoints.mk_seq_state (AnalyzeStuckPoints.sequences st)
        (AnalyzeStuckPoints.current_seq st
           ++ map (entry_of events (fst ie)) bash_tools)
  end.

(** What the loop state says after the first [n] events: the open
    sequence holds the entries of the run that ends at [n], and the
    recorded sequences are the closed maximal runs with five entries or
    more. *)
Definition seq_inv (events : list json) (n : nat)
  (st : AnalyzeStuckPoints.seq_state) : Prop :=
  (exists a,
     a <= n
     /\ AnalyzeStuckPoints.current_seq st = entries_between events a n
     /\ (forall k, a <= k < n -> has_bash events k = true)
     /\ (a = 0 \/ has_bash events (a - 1) = false))
  /\ (forall s,
        In s (AnalyzeStuckPoints.sequences st)
        <-> exists a b,
              b < n
              /\ maximal_run events a b
              /\ s = entries_between events a b
              /\ 5 <= List.length s).

(** Transcripts of the Bash-sequence detector's examples. *)

Module BashSample.

Definition bash_block (call_id cmd : string) : json :=
  JDict [ ("type", JStr "tool_use"); ("name", JStr "Bash");
          ("input", JDict [("command", JStr cmd)]); ("id", JStr call_id) ].

(** One assistant event that holds five Bash invocations. *)
Definition burst : list json :=
  [ JDict [ ("type", JStr "assistant");
            ("message",
             JDict [("content",
                     JList [ bash_block "a1" "ls"; bash_block "a2" "pwd";
                             bash_block "a3" "git status";
                             bash_block "a4" "bd ready";
                             bash_block "a5" "cargo test" ])]) ] ].

(** Five assistant events in a row with one Bash invocation each. *)
Definition five_calls : list json :=
  [ LookupSample.call "c1" "ls"; LookupSample.call "c2" "ls";
    LookupSample.call "c3" "ls"; LookupSample.call "c4" "ls";
    LookupSample.call "c5" "ls" ].

End BashSample.

(** *** Read-before-edit checker *)

Definition is_read (b : json) : bool := is_str (field b "name" JNull) "Read".

Definition is_edit (b : json) : bool := is_str (field b "name" JNull) "Edit".

(** [inp.get('file_path', '')] of a block. *)
Definition path_of (b : json) : json :=
  field (field b "input" (JDict [])) "file_path" (JStr "").

(** The [file_path] entry of the input of a block, if it has one. *)
Definition file_path_key (b : json) : option json :=
  match field b "input" (JDict []) with
  | JDict d => dict_lookup "file_path" d
  | _ => None
  end.

(** The [tool_use] blocks of an event, each with the event's index. *)
Definition calls_of (ie : nat * json) : list (nat * json) :=
  if is_str (field (snd ie) "type" JNull) "assistant"
  then map (pair (fst ie)) (filter is_tool_use (blocks_of (snd ie)))
  else [].

(** All tool invocations of a transcript, in scan order. *)
Definition tool_calls (events : list json) : list (nat * json) :=
  flat_map calls_of (enumerate events).

(** Some invocation of [before] is a Read of the path of [b]. *)
Definition covered (before : list (nat * json)) (b : json) : bool :=
  existsb (fun c => is_read (snd c) && py_eq (path_of b) (path_of (snd c)))
    before.

(** The effect of one tool invocation on the checker's state. *)
Definition call_step (st : AnalyzeFlow.edit_state) (c : nat * json)
  : AnalyzeFlow.edit_state :=
  if is_read (snd c) then
    AnalyzeFlow.mk_edit_state (AnalyzeFlow.edits st)
      (if existsb (py_eq (path_of (snd c))) (AnalyzeFlow.reads st)
       then AnalyzeFlow.reads st
       else AnalyzeFlow.reads st ++ [path_of (snd c)])
  else if is_edit (snd c) then
    AnalyzeFlow.mk_edit_state
      (AnalyzeFlow.edits st
         ++ [AnalyzeFlow.mk_edit (fst c) (path_of (snd c))
               (existsb (py_eq (path_of (snd c))) (AnalyzeFlow.reads st))])
      (AnalyzeFlow.reads st)
  else st.

(** What the checker's state says after the invocations [seen]: a path is
    in [reads] iff some Read of [seen] has it, and there is one edit
    record per Edit of [seen], flagged by the Reads before it. *)
Definition edit_inv (seen : list (nat * json)) (st : AnalyzeFlow.edit_state)
  : Prop :=
  (forall p : string,
     existsb (py_eq (JStr p)) (AnalyzeFlow.reads st)
     = existsb (fun c => is_read (snd c) && py_eq (JStr p) (path_of (snd c)))
         seen)
  /\ (forall x,
        In x (AnalyzeFlow.edits st)
        <-> exists before i b after,
              seen = before ++ (i, b) :: after
              /\ is_edit b = true
              /\ x = AnalyzeFlow.mk_edit i (path_of b) (covered before b)).

(** Transcript of the checker's example:
    [Read(a.py)@1, Edit(a.py)@2, Edit(b.py)@3], and an Edit and a Read
    with no [file_path]. *)

Module EditSample.

Definition file_call (tool path : string) : json :=
  JDict [ ("type", JStr "assistant");
          ("message",
           JDict [("content",
                   JList [JDict [ ("type", JStr "tool_use");
                                  ("name", JStr tool);
                                  ("input", JDict [("file_path", JStr path)]);
                                  ("id", JStr "t") ]])]) ].

Definition bare_block (tool : string) : json :=
  JDict [ ("type", JStr "tool_use"); ("name", JStr tool);
          ("input", JDict []); ("id", JStr "t") ].

Definition bare_call (tool : string) : json :=
  JDict [ ("type", JStr "assistant");
          ("message", JDict [("content", JList [bare_block tool])]) ].

Definition read_then_edits : list json :=
  [ FlowSample.system_init; file_call "Read" "a.py"; file_call "Edit" "a.py";
    file_call "Edit" "b.py" ].

Definition bare_read_then_edit : list json :=
  [ bare_call "Read"; bare_call "Edit" ].

End EditSample.

(** *** Event indices *)

(** A decoder keeps a line when it decodes to a truthy value
    ([if event:]). *)
Definition keeps (parse : string -> option json) (line : string) : bool :=
  match parse line with
  | Some e => truthy e
  | None => false
  end.

(** The positions, in the file, of the lines that are kept. *)
Definition kept_positions (parse : string -> option json)
  (lines : list string) : list nat :=
  map fst (filter (fun il => keeps parse (snd il)) (enumerate lines)).

(** What the line at position [p] decodes to. *)
Definition decoded (parse : string -> option json) (lines : list string)
  (p : nat) : option json :=
  match nth_error lines p with
  | Some line => parse line
  | None => None
  end.

(** The tool event that [summarize_session] records at index [idx] for a
    [tool_use] block. *)
Definition as_tool_event (idx : nat) (b : json)
  : SummarizeSession.tool_event :=
  SummarizeSession.mk_tool_event idx
    (field b "name" JNull) (field b "id" JNull) (field b "input" (JDict [])).

(** The tool event [ev] was recorded for a [tool_use] block of the line at
    position [index ev], and that line is a kept one. *)
Definition from_line (parse : string -> option json) (lines : list string)
  (ev : SummarizeSession.tool_event) : Prop :=
  exists e b,
    decoded parse lines (SummarizeSession.index ev) = Some e
    /\ truthy e = true
    /\ In b (blocks_of e)
    /\ is_tool_use b = true
    /\ ev = as_tool_event (SummarizeSession.index ev) b.

(** The note [x] was recorded at the position of a kept line. *)
Definition note_from_line (parse : string -> option json)
  (lines : list string) (x : SummarizeSession.note) : Prop :=
  exists e,
    decoded parse lines (SummarizeSession.note_index x) = Some e
    /\ truthy e = true.

(** Lines of the index examples. *)

Module IndexSample.

Definition call_line : string :=
  Str.q "{'type': 'assistant', 'message': {'content': [{'type': 'tool_use', 'name': 'Bash', 'input': {'command': 'ls'}, 'id': 't1'}]}}".

(** A line that does not decode, then a tool call. *)
Definition lines : list string := [ "Traceback (most recent call last):"; call_line ].

End IndexSample.

(** What the lists recorded by [summarize_session] say after the first
    [n] lines: the indices never decrease, and each is the position of
    the kept line it was recorded for. *)
Definition index_inv (parse : string -> option json) (lines : list string)
  (n : nat) (c : SummarizeSession.collected) : Prop :=
  (Sorted le (map SummarizeSession.index (SummarizeSession.tool_events c))
   /\ Forall (fun ev => SummarizeSession.index ev < n
                        /\ from_line parse lines ev)
        (SummarizeSession.tool_events c))
  /\ (Sorted le (map SummarizeSession.note_index (SummarizeSession.thoughts c))
      /\ Forall (fun x => SummarizeSession.note_index x < n
                          /\ note_from_line parse lines x)
           (SummarizeSession.thoughts c))
  /\ (Sorted le
        (map SummarizeSession.note_index (SummarizeSession.thinking_blocks c))
      /\ Forall (fun x => SummarizeSession.note_index x < n
                          /\ note_from_line parse lines x)
           (SummarizeSession.thinking_blocks c)).

(** Five Bash calls after a line that does not decode, and the same with
    four calls. *)

Module RunSample.

Definition five_lines : list string :=
  "warming up" :: repeat IndexSample.call_line 5.

Definition four_lines : list string :=
  "warming up" :: repeat IndexSample.call_line 4.

End RunSample.

(** *** Decoders *)

(** [s] without its last [k] characters. *)
Fixpoint drop_lasts (k : nat) (s : string) : string :=
  match k with
  | 0 => s
  | S k' => drop_lasts k' (Str.drop_last s)
  end.

(** Every character of [s] is whitespace. *)
Fixpoint all_space (s : string) : bool :=
  match s with
  | EmptyString => true
  | String c s' => Str.is_space c && all_space s'
  end.

(** Lines of the decoder examples: a record with one brace too many, and
    with four. *)

Module RepairSample.

Definition one_extra : string :=
  Str.q "{'type': 'system', 'subtype': 'init'}}".

Definition four_extra : string :=
  Str.q "{'type': 'system', 'subtype': 'init'}}}}}".

End RepairSample.

(** *** Workflow escapes and test attempts *)

Definition is_todo (t : AnalyzeStuckPoints.tool) : bool :=
  is_str (AnalyzeStuckPoints.name t) "TodoWrite".

(** The record kept for a TodoWrite invocation of event [i]. *)
Definition escape_of (i : nat) (t : AnalyzeStuckPoints.tool)
  : AnalyzeStuckPoints.escape :=
  AnalyzeStuckPoints.mk_escape i "TodoWrite" (AnalyzeStuckPoints.input t).

(** A Bash invocation whose command holds a test or build pattern. *)
Definition is_test_call (t : AnalyzeStuckPoints.tool) : bool :=
  AnalyzeStuckPoints.is_bash t
  && match command_of t with
     | JStr c =>
         existsb (fun p => Str.contains p c) AnalyzeStuckPoints.test_patterns
     | _ => false
     end.

(** The record kept for a test invocation of event [i]. *)
Definition attempt_of (events : list json) (i : nat)
  (t : AnalyzeStuckPoints.tool) : AnalyzeStuckPoints.attempt :=
  AnalyzeStuckPoints.mk_attempt i
    (match command_of t with
     | JStr c => JStr (Str.take 100 c)
     | v => v
     end)
    (match matched_result events i t with
     | Some r => AnalyzeStuckPoints.is_error r
     | None => JBool false
     end)
    (match matched_result events i t with
     | Some r =>
         match AnalyzeStuckPoints.content r with
         | JStr text => JStr (Str.take 500 text)
         | _ => JStr ""
         end
     | None => JStr ""
     end).

(** A transcript whose test call is never answered, and one whose test
    call fails with a message. *)

Module AttemptSample.


Definition failing : list json :=
  [ LookupSample.call "t1" "cargo test"; FlowSample.tool_error "t1" ].

Definition todo_call : json :=
  JDict [ ("type", JStr "assistant");
          ("message",
           JDict [("content",
                   JList [JDict [ ("type", JStr "tool_use");
                                  ("name", JStr "TodoWrite");
                                  ("input", JDict [("todos", JList [])]);
                                  ("id", JStr "t9") ]])]) ].

End AttemptSample.

(** *** Category counts of [analyze_efficiency.py] *)

(** The text a [tool_use] block is classified by: the command of a Bash
    invocation, the name of any other tool. *)
Definition target_of (b : json) : string :=
  match
    (if is_str (field b "name" (JStr "")) "Bash"
     then field (field b "input" (JDict [])) "command" (JStr "")
     else field b "name" (JStr ""))
  with
  | JStr s => s
  | _ => ""
  end.

Definition category_of (b : json) : string :=
  hd "other" (matching (target_of b)).

(** The [tool_use] blocks of an event that [analyze] looks at. *)
Definition call_blocks (e : json) : list json :=
  if is_str (field e "type" JNull) "assistant"
  then filter is_tool_use (blocks_of e)
  else [].

(** The number of tool invocations of a transcript that fall in [cat]. *)
Definition calls_in (cat : string) (events : list json) : nat :=
  List.length
    (filter (fun b => String.eqb (category_of b) cat)
       (flat_map call_blocks events)).

Module EfficiencySample.

Definition nameless_block : json :=
  JDict [ ("type", JStr "tool_use");
          ("input", JDict [("command", JStr "git status")]) ].

Definition null_name_block : json :=
  JDict [ ("type", JStr "tool_use"); ("name", JNull) ].

End EfficiencySample.

(** *** Tool usage totals of [summarize_session.py] *)

(** The tool events recorded for Bash. *)
Definition bash_events (c : SummarizeSession.collected)
  : list SummarizeSession.tool_event :=
  filter (fun ev => is_str (SummarizeSession.name ev) "Bash")
    (SummarizeSession.tool_events c).

(** What the summary's counters say about the recorded tool events. *)
Definition usage_inv (c : SummarizeSession.collected) : Prop :=
  list_sum (map snd (SummarizeSession.tool_counts c))
  = List.length (SummarizeSession.tool_events c)
  /\ Forall (fun kn => 0 < snd kn) (SummarizeSession.tool_counts c)
  /\ List.length (SummarizeSession.bd_commands c)
     <= List.length (bash_events c).

(** A user event whose content is a plain string, as a prompt is
    recorded. *)

Module PromptSample.

Definition prompt : json :=
  JDict [ ("type", JStr "user");
          ("message",
           JDict [ ("role", JStr "user");
                   ("content", JStr "Fix the failing test") ]) ].

End PromptSample.

(** *** Task timeline of [analyze_flow.py] *)

(** The third white-space separated word of a command, or [unknown]. *)
Definition third_word (c : string) : string :=
  match Str.split c with
  | _ :: _ :: w :: _ => w
  | _ => "unknown"
  end.

(** The transition recorded for a Bash invocation of event [i]: a
    [bd update] to [in_progress] is tested first, then a [bd close]. *)
Definition transition_of (i : nat) (t : AnalyzeStuckPoints.tool)
  : list AnalyzeFlow.transition :=
  match command_of t with
  | JStr c =>
      if Str.contains "bd update" c && Str.contains "in_progress" c
      then [AnalyzeFlow.mk_transition AnalyzeFlow.START (third_word c) i]
      else if Str.contains "bd close" c
      then [AnalyzeFlow.mk_transition AnalyzeFlow.CLOSE (third_word c) i]
      else []
  | _ => []
  end.

Definition transitions_at (ie : nat * json) : list AnalyzeFlow.transition :=
  flat_map (transition_of (fst ie))
    (filter AnalyzeStuckPoints.is_bash (tool_uses (snd ie))).

(** The index of the last transition of a timeline, [prev] if it has
    none. *)
Definition last_index (prev : nat) (timeline : list AnalyzeFlow.transition)
  : nat :=
  last (map AnalyzeFlow.at_index timeline) prev.

(** The sum of the printed [events_since]. *)
Definition total_gap (lines : list (AnalyzeFlow.transition * Z)) : Z :=
  fold_right Z.add 0%Z (map snd lines).

(** A non-empty string with no white space. *)
Fixpoint no_space (w : string) : bool :=
  match w with
  | EmptyString => true
  | String c w' => negb (Str.is_space c) && no_space w'
  end.

Definition is_word (w : string) : bool :=
  negb (Str.is_empty w) && no_space w.

Module TimelineSample.

Definition events : list json :=
  [ FlowSample.system_init;
    LookupSample.call "t1" "bd update bd-7 --status in_progress";
    LookupSample.answer "t1";
    LookupSample.call "t2" "bd close bd-7" ].

End TimelineSample.

(** The error results that a line adds to TOOL ERRORS: the
    [tool_result] blocks with a truthy [is_error] of a user event whose
    content is a list. *)
Definition line_errors (parse : string -> option json) (line : string)
  : nat :=
  match parse line with
  | Some e =>
      if truthy e && is_str (field e "type" JNull) "user"
      then List.length (filter is_error_block (blocks_of e))
      else 0
  | None => 0
  end.

(** One line that holds no tool call, then five lines that each hold a
    [tool_use] block with no [name]. *)

Module NamelessSample.

Definition call_line : string :=
  Str.q "{'type': 'assistant', 'message': {'content': [{'type': 'tool_use', 'input': {'command': 'ls'}, 'id': 't1'}]}}".

Definition opening_line : string :=
  Str.q "{'type': 'system', 'subtype': 'init'}".

Definition lines : list string := opening_line :: repeat call_line 5.

End NamelessSample.

(** *** What [summarize_session.py] records for a line *)

(** The blocks that the collecting loop reads on a line: those of a kept
    [assistant] event whose content is a list. *)
Definition assistant_blocks (parse : string -> option json) (line : string)
  : list json :=
  match parse line with
  | Some e =>
      if truthy e && is_str (field e "type" JNull) "assistant"
      then blocks_of e else []
  | None => []
  end.

Definition is_text (b : json) : bool :=
  is_str (field b "type" JNull) "text".

Definition is_thinking (b : json) : bool :=
  is_str (field b "type" JNull) "thinking".

(** [v[:200]] on a value that can be sliced. *)
Definition first200 (v : json) : json :=
  match v with
  | JStr s => JStr (Str.take 200 s)
  | JList l => JList (firstn 200 l)
  | _ => v
  end.

Definition thought_of (idx : nat) (b : json) : SummarizeSession.note :=
  SummarizeSession.mk_note idx (field b "text" (JStr "")).

Definition thinking_of (idx : nat) (b : json) : SummarizeSession.note :=
  SummarizeSession.mk_note idx (first200 (field b "thinking" (JStr ""))).

(** The tool events, thoughts and thinking blocks of the line at position
    [fst il], each stamped with that position, in block order. *)
Definition line_tool_events (parse : string -> option json)
  (il : nat * string) : list SummarizeSession.tool_event :=
  map (as_tool_event (fst il))
    (filter is_tool_use (assistant_blocks parse (snd il))).

Definition line_thoughts (parse : string -> option json)
  (il : nat * string) : list SummarizeSession.note :=
  map (thought_of (fst il)) (filter is_text (assistant_blocks parse (snd il))).

Definition line_thinking (parse : string -> option json)
  (il : nat * string) : list SummarizeSession.note :=
  map (thinking_of (fst il))
    (filter is_thinking (assistant_blocks parse (snd il))).

(** The records kept for the TodoWrite invocations of the event at
    position [fst ie], in block order. *)
Definition escapes_at (ie : nat * json) : list AnalyzeStuckPoints.escape :=
  map (escape_of (fst ie)) (filter is_todo (tool_uses (snd ie))).

(** *** Runs reported by the consecutive-run pass *)

(** The finding [f] is a run of the tool events at the positions [p] to
    [p + run_length f - 1]: it has five events or more; it is named after
    its first event, and starts at that event's index, or at 0 when the
    first event is the first of all and has no name; every later event
    of it compares equal to its name; and the event after it, if there
    is one, does not. *)
Definition run_at (events : list SummarizeSession.tool_event) (p : nat)
  (f : SummarizeSession.loop_finding) : Prop :=
  5 <= SummarizeSession.run_length f
  /\ (exists first,
        nth_error events p = Some first
        /\ SummarizeSession.tool_name f = SummarizeSession.name first
        /\ SummarizeSession.start f
           = if (p =? 0)%nat && py_eq (SummarizeSession.name first) JNull
             then 0 else SummarizeSession.index first)
  /\ (forall j,
        p < j < p + SummarizeSession.run_length f ->
        exists ev,
          nth_error events j = Some ev
          /\ py_eq (SummarizeSession.name ev) (SummarizeSession.tool_name f)
             = true)
  /\ match nth_error events (p + SummarizeSession.run_length f) with
     | Some ev =>
         py_eq (SummarizeSession.name ev) (SummarizeSession.tool_name f)
         = false
     | None => True
     end.

(** The findings [fs] are runs at the positions [ps], in this order and
    one after the other between [lo] and [hi]: no two of them share an
    event. *)
Fixpoint runs_between (events : list SummarizeSession.tool_event)
  (lo hi : nat) (ps : list nat) (fs : list SummarizeSession.loop_finding)
  : Prop :=
  match ps, fs with
  | [], [] => lo <= hi
  | p :: ps', f :: fs' =>
      lo <= p
      /\ run_at events p f
      /\ runs_between events (p + SummarizeSession.run_length f) hi ps' fs'
  | _, _ => False
  end.

(** What the state of the pass says after the events [seen]: the open
    run is the last [consecutive_count] events, and the findings are the
    runs before it. *)
Definition run_inv (seen : list SummarizeSession.tool_event)
  (st : SummarizeSession.run_state) : Prop :=
  let n := List.length seen in
  let k := SummarizeSession.consecutive_count st in
  k <= n
  /\ (k = 0 ->
      n = 0 /\ SummarizeSession.consecutive_tool st = JNull
      /\ SummarizeSession.start_index st = 0
      /\ SummarizeSession.found st = [])
  /\ (0 < k ->
      exists first,
        nth_error seen (n - k) = Some first
        /\ SummarizeSession.consecutive_tool st = SummarizeSession.name first
        /\ SummarizeSession.start_index st
           = if (n - k =? 0)%nat && py_eq (SummarizeSession.name first) JNull
             then 0 else SummarizeSession.index first)
  /\ (forall j,
        n - k < j < n ->
        exists ev,
          nth_error seen j = Some ev
          /\ py_eq (SummarizeSession.name ev)
               (SummarizeSession.consecutive_tool st) = true)
  /\ exists ps, runs_between seen 0 (n - k) ps (SummarizeSession.found st).

(** * Properties *)

(** Keep [simpl] from unfolding the string primitives and the fixed word
    lists. *)
Arguments Str.take : simpl never.
Arguments Str.lower : simpl never.
Arguments Str.contains : simpl never.
Arguments AnalyzeFlow.recovery_words : simpl never.
Arguments AnalyzeStuckPoints.error_patterns : simpl never.

(** ** Decoder *)

Section DecoderFacts.

Variable json_loads : string -> option json.

(** The decoder of [analyze_stuck_points.py] tries the line as it is
    first, so a line that decodes is returned unchanged. *)
Lemma stuck_points_parse_event_valid (line : string) (v : json) :
  Str.is_empty (Str.strip line) = false ->
  json_loads (Str.strip line) = Some v ->
  AnalyzeStuckPoints.parse_event json_loads line = Some v.
Proof.
  intros Hne Hv. unfold AnalyzeStuckPoints.parse_event.
  rewrite Hne, Hv. reflexivity.
Qed.

(** The decoder of [summarize_session.py] never tries a [loop_meta] line
    that ends in two braces as it is: it decodes the line without its last
    character. *)
Lemma summarize_parse_event_loop_meta (line : string) :
  Str.is_empty (Str.strip line) = false ->
  Str.endswith "}}" (Str.strip line) = true ->
  Str.contains (Str.dq "loop_meta") (Str.strip line) = true ->
  SummarizeSession.parse_event json_loads line
  = json_loads (Str.drop_last (Str.strip line)).
Proof.
  intros Hne He Hc. unfold SummarizeSession.parse_event.
  rewrite Hne, He, Hc. reflexivity.
Qed.

End DecoderFacts.

(** C1.  A well-formed [loop_meta] record, serialized by [json.dumps], ends
    in two closing braces.  [json.loads] and the decoder of
    [analyze_stuck_points.py] return the record; the decoders of
    [summarize_session.py] and [analyze_flow.py] strip one brace from the
    valid line and return [None]. *)
Theorem parse_event_drops_valid_loop_meta :
  Json.dumps Sample.iteration_start = Sample.iteration_start_line
  /\ Json.loads Sample.iteration_start_line = Some Sample.iteration_start
  /\ AnalyzeStuckPoints.parse_event Json.loads Sample.iteration_start_line
     = Some Sample.iteration_start
  /\ SummarizeSession.parse_event Json.loads Sample.iteration_start_line
     = None
  /\ AnalyzeFlow.parse_event Json.loads Sample.iteration_start_line = None.
Proof. repeat split; vm_compute; reflexivity. Qed.

(** ** Consecutive-run detector *)

Section RunFacts.

Import SummarizeSession.

Lemma py_eq_refl_hashable (n : json) : hashable n = true -> py_eq n n = true.
Proof.
  destruct n; simpl; intros H; try discriminate; auto.
  - destruct b; reflexivity.
  - apply Z.eqb_refl.
  - apply String.eqb_refl.
Qed.

Lemma py_eq_null_r (n : json) : n <> JNull -> py_eq n JNull = false.
Proof. destruct n; simpl; congruence. Qed.

(** While the tool name stays the same the run only grows. *)
Lemma run_step_same (n : json) (events : list tool_event) :
  hashable n = true ->
  Forall (fun ev => name ev = n) events ->
  forall count start_idx out,
    fold_left run_step events (mk_run_state n count start_idx out)
    = mk_run_state n (List.length events + count) start_idx out.
Proof.
  intros Hh Hall. induction Hall as [|ev events Hev _ IH]; intros count s0 out.
  - reflexivity.
  - simpl. unfold run_step at 2. simpl. rewrite Hev.
    rewrite (py_eq_refl_hashable n Hh). rewrite IH.
    f_equal. lia.
Qed.

(** A stream that is one run of [n]: one finding iff the run has five
    calls or more, starting at the index of the first call. *)
Lemma potential_loops_single_run (n : json) (first : tool_event)
  (rest : list tool_event) :
  hashable n = true -> n <> JNull ->
  Forall (fun ev => name ev = n) (first :: rest) ->
  potential_loops (first :: rest)
  = if (5 <=? S (List.length rest))%nat
    then [mk_loop_finding n (S (List.length rest)) (index first)]
    else [].
Proof.
  intros Hh Hn Hall. inversion Hall as [|? ? Hfirst Hrest]; subst.
  assert (Hrun :
    fold_left run_step (first :: rest) (mk_run_state JNull 0 0 [])
    = mk_run_state (name first) (S (List.length rest)) (index first) []).
  { cbn [fold_left]. unfold run_step at 2.
    cbn [consecutive_tool consecutive_count start_index found].
    rewrite (py_eq_null_r _ Hn). cbn [Nat.leb].
    rewrite (run_step_same (name first) rest Hh Hrest).
    rewrite Nat.add_1_r. reflexivity. }
  unfold potential_loops. rewrite Hrun.
  cbn [consecutive_tool consecutive_count start_index found app].
  reflexivity.
Qed.

End RunFacts.

(** The threshold for a tool with a name.  When the tool invocations are
    one tool [n], other than [None], called five times in a row and
    nothing else, the pass reports exactly one finding, of length five,
    that starts at the index of the first call (the run is still open at
    the end of the stream and is flushed there); with four calls it
    reports nothing. *)
Theorem consecutive_run_threshold (n : json)
  (events : list SummarizeSession.tool_event) :
  hashable n = true -> n <> JNull ->
  Forall (fun ev => SummarizeSession.name ev = n) events ->
  (List.length events = 5 ->
   exists first rest,
     events = first :: rest
     /\ SummarizeSession.potential_loops events
        = [SummarizeSession.mk_loop_finding n 5 (SummarizeSession.index first)])
  /\ (List.length events = 4 -> SummarizeSession.potential_loops events = []).
Proof.
  intros Hh Hn Hall. split; intros Hlen.
  - destruct events as [|first rest]; [discriminate|].
    exists first, rest. split; [reflexivity|].
    rewrite (potential_loops_single_run n first rest Hh Hn Hall).
    simpl in Hlen. injection Hlen as Hlen. rewrite Hlen. reflexivity.
  - destruct events as [|first rest]; [discriminate|].
    rewrite (potential_loops_single_run n first rest Hh Hn Hall).
    simpl in Hlen. injection Hlen as Hlen. rewrite Hlen. reflexivity.
Qed.

Lemma consecutive_run_threshold_witness :
  let bash i := SummarizeSession.mk_tool_event i (JStr "Bash") JNull (JDict []) in
  let events := [bash 3; bash 4; bash 6; bash 8; bash 9] in
  hashable (JStr "Bash") = true
  /\ JStr "Bash" <> JNull
  /\ Forall (fun ev => SummarizeSession.name ev = JStr "Bash") events
  /\ SummarizeSession.potential_loops events
     = [SummarizeSession.mk_loop_finding (JStr "Bash") 5 3].
Proof.
  intros bash events.
  assert (Hall : Forall (fun ev => SummarizeSession.name ev = JStr "Bash") events)
    by (repeat constructor).
  split; [reflexivity|]. split; [discriminate|]. split; [exact Hall|].
  destruct (consecutive_run_threshold (JStr "Bash") events
              eq_refl ltac:(discriminate) Hall) as [H5 _].
  destruct (H5 eq_refl) as (first & rest & Hev & Hloops).
  injection Hev as <- _. exact Hloops.
Defined.

(** The same on a transcript: five Bash calls on the lines 1 to 5 give one
    finding that starts at index 1; four calls give none. *)
Example five_bash_lines_one_finding :
  (exists c,
     SummarizeSession.collect Json.loads RunSample.five_lines = Ok c
     /\ SummarizeSession.potential_loops (SummarizeSession.tool_events c)
        = [SummarizeSession.mk_loop_finding (JStr "Bash") 5 1])
  /\ (exists c,
        SummarizeSession.collect Json.loads RunSample.four_lines = Ok c
        /\ SummarizeSession.potential_loops (SummarizeSession.tool_events c)
           = []).
Proof. split; eexists; split; vm_compute; reflexivity. Qed.

(** C5.  The run's start index is lost when the tool has no name.  The
    five tool invocations of the lines 1 to 5 have no [name], so
    [block.get('name')] is [None] for each: the first one compares equal
    to the initial [consecutive_tool = None], the branch that sets
    [start_index = event['index']] is never taken, and the one finding of
    length five is reported as starting at index 0, where there is no
    tool invocation, and not at index 1, where the run starts. *)
Theorem nameless_run_loses_start_index :
  exists c,
    SummarizeSession.collect Json.loads NamelessSample.lines = Ok c
    /\ map SummarizeSession.index (SummarizeSession.tool_events c)
       = [1; 2; 3; 4; 5]
    /\ map SummarizeSession.name (SummarizeSession.tool_events c)
       = repeat JNull 5
    /\ SummarizeSession.potential_loops (SummarizeSession.tool_events c)
       = [SummarizeSession.mk_loop_finding JNull 5 0].
Proof.
  eexists. split; [vm_compute; reflexivity|].
  split; [reflexivity|]. split; reflexivity.
Qed.

(** ** Tool-category classifier *)

Section ClassifierFacts.

Import AnalyzeEfficiency.

Lemma py_any_in_str (patterns : list string) (s : string) :
  py_any_in patterns (JStr s)
  = Ok (existsb (fun p => Str.contains p s) patterns).
Proof.
  induction patterns as [|p ps IH]; simpl; [reflexivity|].
  destruct (Str.contains p s); simpl; [reflexivity|exact IH].
Qed.

Lemma first_category_str (cats : list (string * list string)) (s : string) :
  first_category cats (JStr s)
  = Ok (hd_error
          (map fst
             (filter (fun cp => existsb (fun p => Str.contains p s) (snd cp))
                cats))).
Proof.
  induction cats as [|[cat patterns] cats IH]; simpl; [reflexivity|].
  rewrite py_any_in_str. simpl.
  destruct (existsb _ patterns); simpl; [reflexivity|exact IH].
Qed.

Lemma categorize_str (s : string) :
  categorize (JStr s) = Ok (hd "other" (matching s)).
Proof.
  unfold categorize, matching. rewrite first_category_str. simpl.
  destruct (map fst _); reflexivity.
Qed.

End ClassifierFacts.

(** C8.  For a Bash invocation whose command [s] holds both "git " and
    "bd update", the classifier increments one category: the first one, in
    declared order, with a pattern that occurs in [s].  [claiming] is
    declared before [git], so the category is never [git]: it is
    [claiming], unless a pattern of the still earlier [orientation] occurs
    in [s] as well.  A command in which no pattern occurs goes to [other],
    and the counts are a function of the events. *)
Theorem classifier_first_match_wins (block : json) (s : string)
  (counts : list (string * nat)) :
  field block "type" JNull = JStr "tool_use" ->
  field block "name" (JStr "") = JStr "Bash" ->
  field (field block "input" (JDict [])) "command" (JStr "") = JStr s ->
  is_dict block = true ->
  is_dict (field block "input" (JDict [])) = true ->
  AnalyzeEfficiency.count_block counts block
  = Ok (AnalyzeEfficiency.increment (hd "other" (matching s)) counts)
  /\ AnalyzeEfficiency.categorize (JStr s) = Ok (hd "other" (matching s))
  /\ (Str.contains "git " s = true ->
      Str.contains "bd update" s = true ->
      hd "other" (matching s)
      = if existsb (fun p => Str.contains p s) ["bd ready"; "bd show"; "bd list"]
        then "orientation" else "claiming")
  /\ (matching s = [] -> AnalyzeEfficiency.categorize (JStr s) = Ok "other")
  /\ (forall events r1 r2,
        AnalyzeEfficiency.analyze events = r1 ->
        AnalyzeEfficiency.analyze events = r2 -> r1 = r2).
Proof.
  intros Hty Hname Hcmd Hd Hdi.
  repeat split.
  - destruct block as [| | | | |d]; try discriminate.
    unfold AnalyzeEfficiency.count_block, AnalyzeEfficiency.match_target.
    simpl in *. rewrite Hty. simpl. rewrite Hname. simpl.
    destruct (match dict_lookup "input" d with Some x => x | None => JDict [] end)
      as [| | | | |di]; try discriminate.
    simpl in *. rewrite Hcmd. simpl.
    rewrite categorize_str. reflexivity.
  - apply categorize_str.
  - intros Hgit Hbd. unfold matching. simpl.
    rewrite Hbd.
    destruct (Str.contains "bd ready" s), (Str.contains "bd show" s),
      (Str.contains "bd list" s); reflexivity.
  - intros Hnone. rewrite categorize_str, Hnone. reflexivity.
  - intros events r1 r2 H1 H2. congruence.
Qed.

Lemma classifier_first_match_wins_witness :
  let s := "bd update bd-7 --status in_progress && git status" in
  let block :=
    JDict [ ("type", JStr "tool_use"); ("name", JStr "Bash");
            ("input", JDict [("command", JStr s)]); ("id", JStr "t1") ] in
  field block "type" JNull = JStr "tool_use"
  /\ Str.contains "git " s = true
  /\ Str.contains "bd update" s = true
  /\ AnalyzeEfficiency.categorize (JStr s) = Ok (hd "other" (matching s))
  /\ hd "other" (matching s) = "claiming".
Proof.
  intros s block.
  split; [reflexivity|]. split; [reflexivity|]. split; [reflexivity|].
  destruct (classifier_first_match_wins block s [] eq_refl eq_refl eq_refl
              eq_refl eq_refl) as (_ & Hcat & Hgit & _).
  split; [exact Hcat|]. exact (Hgit eq_refl eq_refl).
Defined.

(** ** Reading a well-shaped record *)

Lemma py_get_dict (v : json) (k : string) (default : json) :
  is_dict v = true -> py_get v k default = Ok (field v k default).
Proof. destruct v; simpl; intros H; try discriminate; reflexivity. Qed.

Lemma py_get_ok (v : json) (k : string) (default x : json) :
  py_get v k default = Ok x -> is_dict v = true /\ x = field v k default.
Proof.
  destruct v; simpl; intros H; try discriminate.
  injection H as <-. split; reflexivity.
Qed.

Lemma event_ok_dict (e : json) : event_ok e = true -> is_dict e = true.
Proof.
  unfold event_ok. intros H.
  repeat (apply andb_prop in H; destruct H as [H ?]). exact H.
Qed.

Lemma event_ok_message (e : json) :
  event_ok e = true -> is_dict (field e "message" (JDict [])) = true.
Proof.
  unfold event_ok. intros H.
  repeat (apply andb_prop in H; destruct H as [H ?]). assumption.
Qed.

Lemma event_ok_content (e : json) :
  event_ok e = true ->
  field (field e "message" (JDict [])) "content" (JList [])
  = JList (blocks_of e).
Proof.
  unfold event_ok. intros H.
  repeat (apply andb_prop in H; destruct H as [H ?]).
  unfold blocks_of.
  destruct (field (field e "message" (JDict [])) "content" (JList []));
    try discriminate; reflexivity.
Qed.

Lemma event_ok_blocks (e : json) :
  event_ok e = true -> Forall (fun b => block_ok b = true) (blocks_of e).
Proof.
  unfold event_ok. intros H.
  repeat (apply andb_prop in H; destruct H as [H ?]).
  apply Forall_forall. apply forallb_forall. assumption.
Qed.

Lemma block_ok_dict (b : json) : block_ok b = true -> is_dict b = true.
Proof.
  unfold block_ok. intros H.
  repeat (apply andb_prop in H; destruct H as [H ?]). exact H.
Qed.

Lemma block_ok_text (b : json) :
  block_ok b = true -> field b "text" (JStr "") = JStr (text_of b).
Proof.
  unfold block_ok, text_of. intros H.
  repeat (apply andb_prop in H; destruct H as [H ?]).
  destruct (field b "text" (JStr "")); try discriminate; reflexivity.
Qed.

Lemma Forall_block_dict (blocks : list json) :
  Forall (fun b => block_ok b = true) blocks ->
  Forall (fun b => is_dict b = true) blocks.
Proof.
  intros H. eapply Forall_impl; [|exact H]. exact block_ok_dict.
Qed.

Lemma transcript_ok_Forall (events : list json) :
  transcript_ok events = true -> Forall (fun e => event_ok e = true) events.
Proof.
  intros H. apply Forall_forall. apply forallb_forall. exact H.
Qed.

(** ** Loops *)

Lemma for_each_app {A S : Type} (body : S -> A -> py S) (l1 l2 : list A)
  (s : S) :
  for_each (l1 ++ l2) body s
  = (s' <- for_each l1 body s ;; for_each l2 body s').
Proof.
  revert s. induction l1 as [|x l1 IH]; intros s; simpl; [reflexivity|].
  destruct (body s x); simpl; [apply IH|reflexivity].
Qed.

(** Destructs the first computation of a sequence that ended in [Ok]. *)
Ltac step_bind H :=
  match type of H with
  | bind ?m _ = Ok _ =>
      let E := fresh "E" in
      destruct m eqn:E; cbn [bind] in H; [|discriminate H]
  end.

(** A loop whose body never raises on the items it meets is a fold. *)
Lemma for_each_pure {A S : Type} (f : S -> A -> S) (body : S -> A -> py S)
  (P : A -> Prop) (l : list A) :
  (forall s x, P x -> body s x = Ok (f s x)) ->
  Forall P l ->
  forall s, for_each l body s = Ok (fold_left f l s).
Proof.
  intros Hbody Hall. induction Hall as [|x l Hx _ IH]; intros s; simpl.
  - reflexivity.
  - rewrite (Hbody s x Hx). simpl. apply IH.
Qed.

(** A property that every successful step keeps holds after the loop. *)
Lemma for_each_invariant {A S : Type} (I : S -> Prop) (body : S -> A -> py S)
  (l : list A) :
  (forall s x s', I s -> body s x = Ok s' -> I s') ->
  forall s s', I s -> for_each l body s = Ok s' -> I s'.
Proof.
  intros Hstep. induction l as [|x l IH]; intros s s' Hs Hrun; simpl in Hrun.
  - injection Hrun as <-. exact Hs.
  - destruct (body s x) as [s1|] eqn:Hb; simpl in Hrun; [|discriminate].
    eapply IH; [|exact Hrun]. eapply Hstep; eassumption.
Qed.

Lemma enumerate_from_app {A : Type} (n : nat) (l1 l2 : list A) :
  enumerate_from n (l1 ++ l2)
  = enumerate_from n l1 ++ enumerate_from (n + List.length l1) l2.
Proof.
  revert n. induction l1 as [|x l1 IH]; intros n; simpl.
  - rewrite Nat.add_0_r. reflexivity.
  - rewrite IH. do 3 f_equal. lia.
Qed.

Lemma enumerate_from_snd {A : Type} (n : nat) (l : list A) :
  map snd (enumerate_from n l) = l.
Proof.
  revert n. induction l as [|x l IH]; intros n; simpl; [reflexivity|].
  rewrite IH. reflexivity.
Qed.

Lemma enumerate_from_fst {A : Type} (n : nat) (l : list A) :
  map fst (enumerate_from n l) = seq n (List.length l).
Proof.
  revert n. induction l as [|x l IH]; intros n; simpl; [reflexivity|].
  rewrite IH. reflexivity.
Qed.

Lemma enumerate_from_Forall {A : Type} (P : A -> Prop) (n : nat) (l : list A) :
  Forall P l -> Forall (fun ix => P (snd ix)) (enumerate_from n l).
Proof.
  intros H. revert n. induction H as [|x l Hx _ IH]; intros n; simpl;
    constructor; auto.
Qed.

(** ** Error -> recovery matcher *)

Section MatcherFacts.

Import AnalyzeFlow.

Lemma mark_errors_ok (i : nat) (blocks : list json) :
  Forall (fun b => is_dict b = true) blocks ->
  forall last,
    mark_errors i blocks last
    = Ok (if existsb is_error_block blocks then Some i else last).
Proof.
  unfold mark_errors.
  intros Hall. induction Hall as [|b blocks Hb _ IH]; intros last; simpl.
  - reflexivity.
  - rewrite (py_get_dict b "type" JNull Hb). simpl.
    unfold is_error_block at 1.
    destruct (is_str (field b "type" JNull) "tool_result"); simpl.
    + rewrite (py_get_dict b "is_error" JNull Hb). simpl.
      destruct (truthy (field b "is_error" JNull)); simpl; rewrite IH.
      * destruct (existsb is_error_block blocks); reflexivity.
      * reflexivity.
    + apply IH.
Qed.

Lemma find_recovery_ok (i : nat) (blocks : list json) (st : recovery_state) :
  Forall (fun b => block_ok b = true) blocks ->
  find_recovery i blocks st
  = Ok (match find is_recovery_block blocks with
        | Some b =>
            mk_recovery_state
              (error_recoveries st
                 ++ [mk_recovery (last_error_idx st) i (JStr (excerpt b))])
              None
        | None => st
        end).
Proof.
  intros Hall. induction Hall as [|b blocks Hb _ IH]; simpl.
  - reflexivity.
  - rewrite (py_get_dict b "type" JNull (block_ok_dict b Hb)). simpl.
    unfold is_recovery_block at 1.
    destruct (is_str (field b "type" JNull) "text"); simpl.
    + rewrite (py_get_dict b "text" (JStr "") (block_ok_dict b Hb)). simpl.
      unfold excerpt. rewrite (block_ok_text b Hb). simpl.
      match goal with
      | |- (if ?c then _ else _) = _ =>
          destruct c; [rewrite (block_ok_text b Hb); reflexivity|exact IH]
      end.
    + exact IH.
Qed.

Lemma is_str_eq (v : json) (s : string) :
  is_str v s = true -> v = JStr s.
Proof.
  unfold is_str. destruct v; simpl; try discriminate.
  intros H. apply String.eqb_eq in H. congruence.
Qed.

Lemma recovery_step_ok (st : recovery_state) (i : nat) (e : json) :
  event_ok e = true ->
  recovery_step st (i, e) = Ok (recovery_step_spec st (i, e)).
Proof.
  intros He.
  pose proof (event_ok_dict e He) as Hd.
  pose proof (event_ok_message e He) as Hm.
  pose proof (event_ok_content e He) as Hc.
  pose proof (event_ok_blocks e He) as Hb.
  unfold recovery_step, recovery_step_spec, has_error, recovery_text.
  cbn [fst snd].
  rewrite (py_get_dict e "type" JNull Hd). cbn [bind].
  destruct (is_str (field e "type" JNull) "user") eqn:Hu.
  - rewrite (py_get_dict e "message" (JDict []) Hd). cbn [bind].
    rewrite (py_get_dict _ "content" (JList []) Hm). cbn [bind].
    rewrite Hc. cbn [py_iter bind].
    rewrite (mark_errors_ok i _ (Forall_block_dict _ Hb)). cbn [bind].
    rewrite (is_str_eq _ _ Hu). cbn [is_str py_eq String.eqb andb].
    replace (is_str (JStr "user") "assistant") with false by reflexivity.
    cbn [andb last_error_idx error_recoveries].
    destruct (existsb is_error_block (blocks_of e)); cbn [andb];
      destruct (idx_truthy _); reflexivity.
  - cbn [bind andb].
    destruct (is_str (field e "type" JNull) "assistant") eqn:Ha; cbn [andb].
    + destruct (idx_truthy (last_error_idx st)) eqn:Ht.
      * rewrite (py_get_dict e "message" (JDict []) Hd). cbn [bind].
        rewrite (py_get_dict _ "content" (JList []) Hm). cbn [bind].
        rewrite Hc. cbn [py_iter bind].
        rewrite (find_recovery_ok i _ st Hb).
        destruct (find is_recovery_block (blocks_of e)); destruct st; reflexivity.
      * destruct st; reflexivity.
    + destruct (idx_truthy (last_error_idx st)); destruct st; reflexivity.
Qed.

Lemma error_recovery_scan_ok (events : list json) :
  transcript_ok events = true ->
  error_recovery_scan events
  = Ok (error_recoveries
          (fold_left recovery_step_spec (enumerate events)
             (mk_recovery_state [] None))).
Proof.
  intros Hok. unfold error_recovery_scan.
  rewrite (for_each_pure recovery_step_spec recovery_step
             (fun ie => event_ok (snd ie) = true)).
  - reflexivity.
  - intros s [i e] He. apply recovery_step_ok. exact He.
  - exact (enumerate_from_Forall (fun e => event_ok e = true) 0 events
             (transcript_ok_Forall events Hok)).
Qed.

End MatcherFacts.

Section MatcherInvariant.

Import AnalyzeFlow.

Lemma has_error_at_app_lt (pre : list json) (ev : json) (j : nat) :
  j < List.length pre -> has_error_at (pre ++ [ev]) j = has_error_at pre j.
Proof.
  intros H. unfold has_error_at. rewrite nth_error_app1 by exact H. reflexivity.
Qed.

Lemma has_error_at_app_eq (pre : list json) (ev : json) :
  has_error_at (pre ++ [ev]) (List.length pre) = has_error ev.
Proof.
  unfold has_error_at. rewrite nth_error_app2 by lia.
  rewrite Nat.sub_diag. reflexivity.
Qed.

Lemma recovery_at_app_lt (pre : list json) (ev : json) (j : nat) :
  j < List.length pre -> recovery_at (pre ++ [ev]) j = recovery_at pre j.
Proof.
  intros H. unfold recovery_at. rewrite nth_error_app1 by exact H. reflexivity.
Qed.

Lemma recovery_at_app_eq (pre : list json) (ev : json) :
  recovery_at (pre ++ [ev]) (List.length pre) = recovery_text ev.
Proof.
  unfold recovery_at. rewrite nth_error_app2 by lia.
  rewrite Nat.sub_diag. reflexivity.
Qed.

Lemma recovery_at_bound (events : list json) (j : nat) (t : json) :
  recovery_at events j = Some t -> j < List.length events.
Proof.
  unfold recovery_at. intros H. apply nth_error_Some.
  destruct (nth_error events j); [discriminate|discriminate H].
Qed.

(** An event is a user turn or an assistant turn, never both. *)
Lemma has_error_no_recovery (e : json) :
  has_error e = true -> recovery_text e = None.
Proof.
  unfold has_error, recovery_text. intros H.
  apply andb_prop in H. destruct H as [H _].
  rewrite (is_str_eq _ _ H). reflexivity.
Qed.

Lemma open_error_app (pre : list json) (ev : json) (m e : nat) :
  m <= List.length pre ->
  open_error (pre ++ [ev]) m e <-> open_error pre m e.
Proof.
  intros Hm. unfold open_error. split.
  - intros (Hlt & Herr & Hno & Hrec). split; [exact Hlt|]. split.
    + rewrite <- (has_error_at_app_lt pre ev) by lia. exact Herr.
    + split.
      * intros j Hj. rewrite <- (has_error_at_app_lt pre ev) by lia. auto.
      * intros He0 j Hj. rewrite <- (recovery_at_app_lt pre ev) by lia. auto.
  - intros (Hlt & Herr & Hno & Hrec). split; [exact Hlt|]. split.
    + rewrite has_error_at_app_lt by lia. exact Herr.
    + split.
      * intros j Hj. rewrite has_error_at_app_lt by lia. auto.
      * intros He0 j Hj. rewrite recovery_at_app_lt by lia. auto.
Qed.

(** The open errors after one more event. *)
Lemma open_error_snoc (pre : list json) (ev : json) (e : nat) :
  open_error (pre ++ [ev]) (S (List.length pre)) e
  <-> (e = List.length pre /\ has_error ev = true)
      \/ (open_error pre (List.length pre) e
          /\ has_error ev = false
          /\ (e <> 0 -> recovery_text ev = None)).
Proof.
  unfold open_error. split.
  - intros (Hlt & Herr & Hno & Hrec).
    destruct (Nat.eq_dec e (List.length pre)) as [->|Hne].
    + left. rewrite has_error_at_app_eq in Herr. auto.
    + right. assert (He : e < List.length pre) by lia.
      split; [|split].
      * split; [exact He|]. split.
        -- rewrite <- (has_error_at_app_lt pre ev) by lia. exact Herr.
        -- split.
           ++ intros j Hj. rewrite <- (has_error_at_app_lt pre ev) by lia.
              apply Hno. lia.
           ++ intros He0 j Hj. rewrite <- (recovery_at_app_lt pre ev) by lia.
              apply Hrec; [exact He0|lia].
      * rewrite <- (has_error_at_app_eq pre ev). apply Hno. lia.
      * intros He0. rewrite <- (recovery_at_app_eq pre ev).
        apply Hrec; [exact He0|lia].
  - intros [[-> Herr]|((Hlt & Herr & Hno & Hrec) & Hev & Hrt)].
    + split; [lia|]. split; [rewrite has_error_at_app_eq; exact Herr|].
      split; intros; lia.
    + split; [lia|]. split; [rewrite has_error_at_app_lt by lia; exact Herr|].
      split.
      * intros j Hj. destruct (Nat.eq_dec j (List.length pre)) as [->|Hne].
        -- rewrite has_error_at_app_eq. exact Hev.
        -- rewrite has_error_at_app_lt by lia. apply Hno. lia.
      * intros He0 j Hj. destruct (Nat.eq_dec j (List.length pre)) as [->|Hne].
        -- rewrite recovery_at_app_eq. auto.
        -- rewrite recovery_at_app_lt by lia. apply Hrec; [exact He0|lia].
Qed.

Lemma idx_truthy_Some (o : option nat) :
  idx_truthy o = true <-> exists e, o = Some e /\ e <> 0.
Proof.
  destruct o as [[|n]|]; simpl; split; intros H;
    try discriminate; try reflexivity.
  - destruct H as (e & [= <-] & He). congruence.
  - exists (S n). split; [reflexivity|discriminate].
  - destruct H as (e & [=] & _).
Qed.

Lemma paired_snoc (pre : list json) (ev : json) (x : recovery) :
  paired (pre ++ [ev]) x
  <-> paired pre x
      \/ (recov_idx x = List.length pre
          /\ exists e,
               err_idx x = Some e /\ e <> 0
               /\ open_error pre (List.length pre) e
               /\ recovery_text ev = Some (thought x)).
Proof.
  unfold paired. split.
  - intros (e & Hx & He0 & Hopen & Hrec).
    pose proof (recovery_at_bound _ _ _ Hrec) as Hlt.
    rewrite length_app in Hlt. simpl in Hlt.
    destruct (Nat.eq_dec (recov_idx x) (List.length pre)) as [Heq|Hne].
    + right. split; [exact Heq|]. exists e.
      rewrite Heq in Hopen, Hrec.
      rewrite recovery_at_app_eq in Hrec.
      rewrite open_error_app in Hopen by lia. auto.
    + left. exists e.
      rewrite open_error_app in Hopen by lia.
      rewrite recovery_at_app_lt in Hrec by lia. auto.
  - intros [(e & Hx & He0 & Hopen & Hrec)|(Heq & e & Hx & He0 & Hopen & Hrec)].
    + pose proof (recovery_at_bound _ _ _ Hrec) as Hlt.
      exists e. split; [exact Hx|]. split; [exact He0|]. split.
      * apply open_error_app; [lia|exact Hopen].
      * rewrite recovery_at_app_lt by lia. exact Hrec.
    + exists e. split; [exact Hx|]. split; [exact He0|]. rewrite Heq. split.
      * apply open_error_app; [lia|exact Hopen].
      * rewrite recovery_at_app_eq. exact Hrec.
Qed.

Lemma matcher_inv_step (pre : list json) (ev : json) (st : recovery_state) :
  matcher_inv pre st ->
  matcher_inv (pre ++ [ev]) (recovery_step_spec st (List.length pre, ev)).
Proof.
  intros [HA HB].
  assert (Hlen : List.length (pre ++ [ev]) = S (List.length pre))
    by (rewrite length_app; simpl; lia).
  unfold matcher_inv. rewrite Hlen.
  unfold recovery_step_spec. cbn [fst snd].
  destruct (has_error ev) eqn:Herr.
  - (* an error at this event: it becomes the pending one *)
    rewrite (has_error_no_recovery ev Herr).
    assert (Hst :
      (if idx_truthy (Some (List.length pre))
       then mk_recovery_state (error_recoveries st) (Some (List.length pre))
       else mk_recovery_state (error_recoveries st) (Some (List.length pre)))
      = mk_recovery_state (error_recoveries st) (Some (List.length pre)))
      by (destruct (idx_truthy _); reflexivity).
    rewrite Hst. cbn [last_error_idx error_recoveries]. split.
    + intros e. rewrite open_error_snoc. split.
      * intros [= <-]. left. auto.
      * intros [[-> _]|(_ & Hf & _)]; [reflexivity|congruence].
    + intros x. rewrite paired_snoc, HB. split; [auto|].
      intros [H|(_ & e & _ & _ & _ & Hrec)]; [exact H|].
      rewrite (has_error_no_recovery ev Herr) in Hrec. congruence.
  - destruct (idx_truthy (last_error_idx st)) eqn:Ht.
    + apply idx_truthy_Some in Ht. destruct Ht as (e0 & Hlast & He0).
      destruct (recovery_text ev) as [t|] eqn:Hrt;
        cbn [last_error_idx error_recoveries].
      * (* the pending error meets its recovery text *)
        split.
        -- intros e. rewrite open_error_snoc. split; [congruence|].
           intros [[_ Hf]|(Hopen & _ & Hnone)]; [congruence|].
           apply HA in Hopen. rewrite Hlast in Hopen. injection Hopen as <-.
           specialize (Hnone He0). congruence.
        -- intros x. rewrite paired_snoc, in_app_iff, HB. split.
           ++ intros [H|[<-|[]]]; [left; exact H|].
              right. split; [reflexivity|]. exists e0. cbn.
              split; [exact Hlast|]. split; [exact He0|]. split.
              ** apply HA. exact Hlast.
              ** exact Hrt.
           ++ intros [H|(Hr & e & Hx & _ & Hopen & Hth)]; [left; exact H|].
              right. left.
              apply HA in Hopen. rewrite Hlast in Hopen. injection Hopen as <-.
              rewrite Hrt in Hth. injection Hth as Hth.
              destruct x as [xe xr xt]. cbn in *. subst.
              rewrite Hlast. reflexivity.
      * (* no recovery text here *)
        split.
        -- intros e. rewrite open_error_snoc, HA. split.
           ++ intros Hopen. right. auto.
           ++ intros [[_ Hf]|(Hopen & _)]; [congruence|exact Hopen].
        -- intros x. rewrite paired_snoc, HB. split; [auto|].
           intros [H|(_ & e & _ & _ & _ & Hrec)]; [exact H|congruence].
    + (* nothing pending, or an error pending at index 0 *)
      cbn [last_error_idx error_recoveries]. split.
      * intros e. rewrite open_error_snoc, HA. split.
        -- intros Hopen. right. split; [exact Hopen|]. split; [exact Herr|].
           intros He0. apply HA in Hopen.
           assert (Hc : idx_truthy (last_error_idx st) = true)
             by (apply idx_truthy_Some; eauto).
           congruence.
        -- intros [[_ Hf]|(Hopen & _)]; [congruence|exact Hopen].
      * intros x. rewrite paired_snoc, HB. split; [auto|].
        intros [H|(_ & e & _ & He0 & Hopen & _)]; [exact H|].
        apply HA in Hopen.
        assert (Hc : idx_truthy (last_error_idx st) = true)
          by (apply idx_truthy_Some; eauto).
        congruence.
Qed.

(** After the loop the recorded pairings are exactly the open errors
    other than index 0 that were met by a recovery text. *)
Lemma matcher_inv_run (events : list json) :
  matcher_inv events (matcher_run events).
Proof.
  unfold matcher_run, enumerate.
  induction events as [|ev pre IH] using rev_ind.
  - split.
    + intros e. unfold open_error. simpl. split; [discriminate|lia].
    + intros x. unfold paired, recovery_at. simpl. split; [intros []|].
      intros (e & _ & _ & _ & H). destruct (recov_idx x); discriminate.
  - rewrite enumerate_from_app, fold_left_app. simpl.
    apply matcher_inv_step. exact IH.
Qed.

End MatcherInvariant.

Section MatcherShape.

Import AnalyzeFlow.

(** Whatever the blocks are, [find_recovery] records at most one pairing,
    and its error index is the pending one. *)
Lemma find_recovery_shape (i : nat) (blocks : list json)
  (st st' : recovery_state) :
  find_recovery i blocks st = Ok st' ->
  error_recoveries st' = error_recoveries st
  \/ exists t,
       error_recoveries st'
       = error_recoveries st ++ [mk_recovery (last_error_idx st) i t].
Proof.
  induction blocks as [|b blocks IH]; simpl; intros H.
  - injection H as <-. left. reflexivity.
  - step_bind H. destruct (is_str a "text"); [|exact (IH H)].
    do 3 step_bind H.
    match type of H with
    | (if ?c then _ else _) = _ => destruct c
    end; [|exact (IH H)].
    injection H as <-. right. eexists. reflexivity.
Qed.

Lemma recovery_step_truthy (st st' : recovery_state) (ie : nat * json) :
  Forall (fun x => idx_truthy (err_idx x) = true) (error_recoveries st) ->
  recovery_step st ie = Ok st' ->
  Forall (fun x => idx_truthy (err_idx x) = true) (error_recoveries st').
Proof.
  destruct ie as [i event]. unfold recovery_step. intros Hall H.
  step_bind H. step_bind H.
  assert (Hs : error_recoveries a0 = error_recoveries st).
  { destruct (is_str a "user").
    - do 4 step_bind E0. injection E0 as <-. reflexivity.
    - injection E0 as <-. reflexivity. }
  destruct (is_str a "assistant" && idx_truthy (last_error_idx a0)) eqn:Hc.
  - apply andb_prop in Hc. destruct Hc as [_ Ht].
    do 3 step_bind H.
    destruct (find_recovery_shape _ _ _ _ H) as [->|(t & ->)].
    + rewrite Hs. exact Hall.
    + rewrite Hs. apply Forall_app. split; [exact Hall|].
      constructor; [exact Ht|constructor].
  - injection H as <-. rewrite Hs. exact Hall.
Qed.

Lemma error_recovery_scan_truthy (events : list json) (out : list recovery) :
  error_recovery_scan events = Ok out ->
  Forall (fun x => idx_truthy (err_idx x) = true) out.
Proof.
  unfold error_recovery_scan. intros H. step_bind H. injection H as <-.
  refine (for_each_invariant
            (fun st => Forall (fun x => idx_truthy (err_idx x) = true)
                         (error_recoveries st))
            recovery_step (enumerate events) _ _ a _ E).
  - intros s x s' Hs Hstep. exact (recovery_step_truthy s s' x Hs Hstep).
  - constructor.
Qed.

End MatcherShape.

(** C4, as amended.  On a well-shaped transcript the matcher returns, and
    for an error index [e] other than 0 it records the pairing [(e, r, t)]
    exactly when event [e] holds an error result, [r] is the first later
    assistant event with a text block whose first 80 characters,
    lowercased, hold a recovery word ([t] is that 80-character excerpt),
    and no other error result lies between them: a later error overwrites
    the pending one. *)
Theorem error_recovery_pairs (events : list json) :
  transcript_ok events = true ->
  exists out,
    AnalyzeFlow.error_recovery_scan events = Ok out
    /\ forall e r t,
         e <> 0 ->
         (In (AnalyzeFlow.mk_recovery (Some e) r t) out
          <-> e < r
              /\ has_error_at events e = true
              /\ recovery_at events r = Some t
              /\ forall j, e < j < r ->
                   has_error_at events j = false
                   /\ recovery_at events j = None).
Proof.
  intros Hok. eexists. split; [apply error_recovery_scan_ok; exact Hok|].
  intros e r t He0.
  destruct (matcher_inv_run events) as [_ HB]. fold (matcher_run events).
  rewrite HB. unfold paired, open_error. cbn. split.
  - intros (e' & [= <-] & _ & (Hlt & Herr & Hno & Hrec) & Ht).
    repeat split; auto.
  - intros (Hlt & Herr & Ht & Hbetween).
    exists e. repeat split; auto; intros; apply Hbetween; assumption.
Qed.

Lemma error_recovery_pairs_witness :
  transcript_ok FlowSample.two_errors = true
  /\ AnalyzeFlow.error_recovery_scan FlowSample.two_errors
     = Ok [AnalyzeFlow.mk_recovery (Some 3) 4 (JStr "try again")]
  /\ exists out,
       AnalyzeFlow.error_recovery_scan FlowSample.two_errors = Ok out
       /\ In (AnalyzeFlow.mk_recovery (Some 3) 4 (JStr "try again")) out
       /\ ~ In (AnalyzeFlow.mk_recovery (Some 1) 4 (JStr "try again")) out.
Proof.
  split; [reflexivity|]. split; [reflexivity|].
  destruct (error_recovery_pairs FlowSample.two_errors eq_refl)
    as (out & Hscan & Hiff).
  exists out. split; [exact Hscan|]. split.
  - apply Hiff; [discriminate|].
    split; [lia|]. split; [reflexivity|]. split; [reflexivity|].
    intros j Hj. lia.
  - intros Hin. apply Hiff in Hin; [|discriminate].
    destruct Hin as (_ & _ & _ & Hbetween).
    destruct (Hbetween 3 ltac:(lia)) as [Hf _]. discriminate Hf.
Defined.

(** C4, as stated, fails: the text at event 2 holds the word "fix", but
    after its first 80 characters, and the error at event 1 stays
    unpaired. *)
Lemma recovery_word_after_excerpt :
  transcript_ok FlowSample.late_recovery = true
  /\ has_error_at FlowSample.late_recovery 1 = true
  /\ nth_error FlowSample.late_recovery 2 = Some (FlowSample.says FlowSample.late_word)
  /\ Str.contains "fix" (Str.lower FlowSample.late_word) = true
  /\ AnalyzeFlow.error_recovery_scan FlowSample.late_recovery = Ok [].
Proof. repeat split; vm_compute; reflexivity. Qed.

(** C9.  No pairing has error index 0: the pending index is tested for
    truthiness before it is used, so an error result at event 0 is never
    paired with a later recovery text.  On a well-shaped transcript the
    matcher does return. *)
Theorem recovery_never_pairs_index_zero (events : list json) :
  (forall out,
     AnalyzeFlow.error_recovery_scan events = Ok out ->
     forall x, In x out ->
       exists e, AnalyzeFlow.err_idx x = Some e /\ e <> 0)
  /\ (forall out r t,
        AnalyzeFlow.error_recovery_scan events = Ok out ->
        ~ In (AnalyzeFlow.mk_recovery (Some 0) r t) out)
  /\ (transcript_ok events = true ->
      exists out, AnalyzeFlow.error_recovery_scan events = Ok out).
Proof.
  split; [|split].
  - intros out Hscan x Hin.
    pose proof (error_recovery_scan_truthy events out Hscan) as Hall.
    rewrite Forall_forall in Hall. apply idx_truthy_Some. auto.
  - intros out r t Hscan Hin.
    pose proof (error_recovery_scan_truthy events out Hscan) as Hall.
    rewrite Forall_forall in Hall. specialize (Hall _ Hin). discriminate Hall.
  - intros Hok. eexists. apply error_recovery_scan_ok. exact Hok.
Qed.

(** The error at event 0 of [Error@0, Text(try again)@1] stays unpaired. *)
Example error_at_index_zero_unpaired :
  AnalyzeFlow.error_recovery_scan FlowSample.error_first = Ok [].
Proof. reflexivity. Qed.

(** ** Tool-result lookup *)

Section LookupFacts.

Import AnalyzeStuckPoints.

Lemma match_blocks_ok (call_id : json) (blocks : list json) :
  Forall (fun b => is_dict b = true) blocks ->
  match_blocks blocks call_id
  = Ok (option_map as_result (find (matches call_id) blocks)).
Proof.
  intros Hall. induction Hall as [|b blocks Hb _ IH]; simpl; [reflexivity|].
  rewrite (py_get_dict b "type" JNull Hb). cbn [bind].
  unfold matches at 1.
  destruct (is_str (field b "type" JNull) "tool_result"); cbn [bind andb].
  - rewrite (py_get_dict b "tool_use_id" JNull Hb). cbn [bind].
    destruct (py_eq (field b "tool_use_id" JNull) call_id).
    + rewrite (py_get_dict b "content" (JStr "") Hb). cbn [bind].
      rewrite (py_get_dict b "is_error" (JBool false) Hb). reflexivity.
    + exact IH.
  - exact IH.
Qed.

Lemma first_from_None (events : list json) (call_id : json) (n k : nat) :
  first_from events call_id k n = None
  <-> forall j, k <= j < k + n -> match_at events call_id j = None.
Proof.
  revert k. induction n as [|n IH]; intros k; simpl.
  - split; [intros _ j Hj; lia|reflexivity].
  - destruct (match_at events call_id k) as [b0|] eqn:Hk.
    + split; [discriminate|]. intros H. rewrite H in Hk by lia. discriminate.
    + rewrite IH. split.
      * intros H j Hj. destruct (Nat.eq_dec j k) as [->|Hne]; [exact Hk|].
        apply H. lia.
      * intros H j Hj. apply H. lia.
Qed.

Lemma first_from_Some (events : list json) (call_id b : json) (n k : nat) :
  first_from events call_id k n = Some b
  <-> exists j,
        k <= j < k + n
        /\ match_at events call_id j = Some b
        /\ forall j', k <= j' < j -> match_at events call_id j' = None.
Proof.
  revert k. induction n as [|n IH]; intros k; simpl.
  - split; [discriminate|]. intros (j & Hj & _). lia.
  - destruct (match_at events call_id k) as [b0|] eqn:Hk.
    + split.
      * intros [= <-]. exists k. split; [lia|]. split; [exact Hk|].
        intros j' Hj'. lia.
      * intros (j & Hj & Hm & Hbefore).
        destruct (Nat.eq_dec j k) as [->|Hne]; [congruence|].
        rewrite Hbefore in Hk by lia. discriminate.
    + rewrite IH. split.
      * intros (j & Hj & Hm & Hbefore). exists j. split; [lia|].
        split; [exact Hm|]. intros j' Hj'.
        destruct (Nat.eq_dec j' k) as [->|Hne]; [exact Hk|].
        apply Hbefore. lia.
      * intros (j & Hj & Hm & Hbefore). exists j.
        assert (j <> k) by congruence.
        split; [lia|]. split; [exact Hm|]. intros j' Hj'. apply Hbefore. lia.
Qed.

Lemma match_at_past_end (events : list json) (call_id : json) (j : nat) :
  List.length events <= j -> match_at events call_id j = None.
Proof.
  intros H. unfold match_at.
  rewrite (proj2 (nth_error_None events j) H). reflexivity.
Qed.

(** Looking past the end of the transcript finds nothing more. *)
Lemma first_from_truncate (events : list json) (call_id : json) (k n m : nat) :
  List.length events <= k + n ->
  first_from events call_id k (n + m) = first_from events call_id k n.
Proof.
  intros Hlen.
  destruct (first_from events call_id k n) as [b|] eqn:Hn.
  - apply first_from_Some in Hn. destruct Hn as (j & Hj & Hm & Hbefore).
    apply first_from_Some. exists j. split; [lia|]. auto.
  - rewrite first_from_None in Hn. apply first_from_None.
    intros j Hj. destruct (Nat.lt_ge_cases j (k + n)) as [Hlt|Hge].
    + apply Hn. lia.
    + apply match_at_past_end. lia.
Qed.

Lemma scan_range_ok (events : list json) (call_id : json) :
  transcript_ok events = true ->
  forall n k,
    (n <> 0 -> k + n <= List.length events) ->
    scan_range events call_id (seq k n)
    = Ok (option_map as_result (first_from events call_id k n)).
Proof.
  intros Hok. pose proof (transcript_ok_Forall events Hok) as Hall.
  rewrite Forall_forall in Hall.
  induction n as [|n IH]; intros k Hk; simpl; [reflexivity|].
  unfold py_index, match_at.
  destruct (nth_error events k) as [e|] eqn:He.
  2:{ apply nth_error_None in He. specialize (Hk ltac:(discriminate)). lia. }
  cbn [bind].
  assert (Heok : event_ok e = true) by (apply Hall; eapply nth_error_In; eauto).
  rewrite (py_get_dict e "type" JNull (event_ok_dict e Heok)). cbn [bind].
  unfold result_blocks.
  destruct (is_str (field e "type" JNull) "user"); cbn [negb].
  - rewrite (py_get_dict e "message" (JDict []) (event_ok_dict e Heok)).
    cbn [bind].
    rewrite (py_get_dict _ "content" (JList []) (event_ok_message e Heok)).
    cbn [bind]. rewrite (event_ok_content e Heok).
    rewrite (match_blocks_ok call_id _
               (Forall_block_dict _ (event_ok_blocks e Heok))).
    cbn [bind].
    destruct (find (matches call_id) (blocks_of e)); cbn [option_map].
    + reflexivity.
    + apply IH. lia.
  - cbn [find]. apply IH. lia.
Qed.

(** The lookup returns the first match of the ten events from
    [start_idx] on. *)
Lemma find_tool_result_ok (events : list json) (call_id : json)
  (start_idx : nat) :
  transcript_ok events = true ->
  find_tool_result events call_id start_idx
  = Ok (option_map as_result (first_from events call_id start_idx 10)).
Proof.
  intros Hok. unfold find_tool_result, range.
  rewrite (scan_range_ok events call_id Hok) by lia.
  do 2 f_equal.
  destruct (Nat.le_gt_cases (start_idx + 10) (List.length events)) as [Hle|Hgt].
  - f_equal. lia.
  - replace 10
      with ((Nat.min (start_idx + 10) (List.length events) - start_idx)
            + (10 - (Nat.min (start_idx + 10) (List.length events) - start_idx)))
      at 2 by lia.
    symmetry. apply first_from_truncate. lia.
Qed.

End LookupFacts.

(** C3.  On a well-shaped transcript [find_tool_result events c i] returns
    the first [tool_result] block for [c] among the events of the half-open
    window [i, i+10), cut at the end of the transcript: a match in event
    [i+9] with none before it is returned, and when no event of the window
    holds a match (a match at [i+10] or later does not count) the result
    is [None]. *)
Theorem find_tool_result_horizon (events : list json) (c : json) (i : nat) :
  transcript_ok events = true ->
  (forall r,
     AnalyzeStuckPoints.find_tool_result events c i = Ok (Some r)
     <-> exists j b,
           i <= j < i + 10
           /\ match_at events c j = Some b
           /\ r = as_result b
           /\ forall k, i <= k < j -> match_at events c k = None)
  /\ (AnalyzeStuckPoints.find_tool_result events c i = Ok None
      <-> forall k, i <= k < i + 10 -> match_at events c k = None)
  /\ (forall b,
        match_at events c (i + 9) = Some b ->
        (forall k, k <> i + 9 -> match_at events c k = None) ->
        AnalyzeStuckPoints.find_tool_result events c i = Ok (Some (as_result b)))
  /\ (forall j b,
        i + 10 <= j ->
        match_at events c j = Some b ->
        (forall k, k <> j -> match_at events c k = None) ->
        AnalyzeStuckPoints.find_tool_result events c i = Ok None).
Proof.
  intros Hok. rewrite (find_tool_result_ok events c i Hok).
  assert (HNone :
    Ok (option_map as_result (first_from events c i 10)) = Ok None
    <-> forall k, i <= k < i + 10 -> match_at events c k = None).
  { rewrite <- first_from_None. split.
    - intros H. destruct (first_from events c i 10); [discriminate H|reflexivity].
    - intros ->. reflexivity. }
  assert (HSome : forall r,
    Ok (option_map as_result (first_from events c i 10)) = Ok (Some r)
    <-> exists j b,
          i <= j < i + 10
          /\ match_at events c j = Some b
          /\ r = as_result b
          /\ forall k, i <= k < j -> match_at events c k = None).
  { intros r. split.
    - intros H. destruct (first_from events c i 10) as [b|] eqn:Hf;
        [|discriminate H].
      injection H as <-. apply first_from_Some in Hf.
      destruct Hf as (j & Hj & Hm & Hbefore). exists j, b. auto.
    - intros (j & b & Hj & Hm & -> & Hbefore).
      assert (Hf : first_from events c i 10 = Some b)
        by (apply first_from_Some; exists j; auto).
      rewrite Hf. reflexivity. }
  split; [exact HSome|]. split; [exact HNone|]. split.
  - intros b Hm Hsole. apply HSome. exists (i + 9), b.
    split; [lia|]. split; [exact Hm|]. split; [reflexivity|].
    intros k Hk. apply Hsole. lia.
  - intros j b Hj Hm Hsole. apply HNone. intros k Hk. apply Hsole. lia.
Qed.

Lemma find_tool_result_horizon_witness :
  transcript_ok (LookupSample.answered_after 9) = true
  /\ transcript_ok (LookupSample.answered_after 10) = true
  /\ AnalyzeStuckPoints.find_tool_result
       (LookupSample.answered_after 9) (JStr "t1") 0
     = Ok (Some (as_result (LookupSample.answer_block "t1")))
  /\ AnalyzeStuckPoints.find_tool_result
       (LookupSample.answered_after 10) (JStr "t1") 0
     = Ok None.
Proof.
  split; [reflexivity|]. split; [reflexivity|]. split.
  - destruct (find_tool_result_horizon
                (LookupSample.answered_after 9) (JStr "t1") 0 eq_refl)
      as (_ & _ & Hlast & _).
    apply Hlast; [reflexivity|].
    intros k Hk.
    do 9 (destruct k as [|k]; [reflexivity|]).
    destruct k as [|k]; [lia|]. destruct k; reflexivity.
  - destruct (find_tool_result_horizon
                (LookupSample.answered_after 10) (JStr "t1") 0 eq_refl)
      as (_ & _ & _ & Hbeyond).
    apply (Hbeyond 10 (LookupSample.answer_block "t1"));
      [lia|reflexivity|].
    intros k Hk.
    do 10 (destruct k as [|k]; [reflexivity|]).
    destruct k as [|k]; [lia|]. destruct k; reflexivity.
Defined.

(** ** Tool invocations *)

Section ToolFacts.

Import AnalyzeStuckPoints.

(** A loop that only appends to its accumulator. *)
Lemma for_each_append {A B : Type} (f : A -> list B)
  (body : list B -> A -> py (list B)) (P : A -> Prop) (l : list A) :
  (forall acc x, P x -> body acc x = Ok (acc ++ f x)) ->
  Forall P l ->
  forall acc, for_each l body acc = Ok (acc ++ flat_map f l).
Proof.
  intros Hbody Hall. induction Hall as [|x l Hx _ IH]; intros acc; simpl.
  - rewrite app_nil_r. reflexivity.
  - rewrite (Hbody acc x Hx). cbn [bind]. rewrite IH, app_assoc. reflexivity.
Qed.

Lemma flat_map_filter_map {A B : Type} (p : A -> bool) (f : A -> B)
  (l : list A) :
  flat_map (fun x => if p x then [f x] else []) l = map f (filter p l).
Proof.
  induction l as [|x l IH]; simpl; [reflexivity|].
  destruct (p x); simpl; rewrite IH; reflexivity.
Qed.

Lemma flat_map_singleton {A B : Type} (f : A -> B) (l : list A) :
  flat_map (fun x => [f x]) l = map f l.
Proof.
  induction l as [|x l IH]; simpl; [reflexivity|]. rewrite IH. reflexivity.
Qed.

Lemma find_tool_uses_ok (e : json) :
  event_ok e = true -> find_tool_uses e = Ok (tool_uses e).
Proof.
  intros He. unfold find_tool_uses, tool_uses.
  rewrite (py_get_dict e "type" JNull (event_ok_dict e He)). cbn [bind].
  destruct (is_str (field e "type" JNull) "assistant"); cbn [negb];
    [|reflexivity].
  rewrite (py_get_dict e "message" (JDict []) (event_ok_dict e He)).
  cbn [bind].
  rewrite (py_get_dict _ "content" (JList []) (event_ok_message e He)).
  cbn [bind]. rewrite (event_ok_content e He).
  rewrite (for_each_append
             (fun b => if is_tool_use b then [as_tool b] else [])
             _ (fun b => is_dict b = true)).
  - rewrite flat_map_filter_map. reflexivity.
  - intros acc b Hb. rewrite (py_get_dict b "type" JNull Hb). cbn [bind].
    unfold is_tool_use.
    destruct (is_str (field b "type" JNull) "tool_use").
    + rewrite (py_get_dict b "name" JNull Hb). cbn [bind].
      rewrite (py_get_dict b "input" (JDict []) Hb). cbn [bind].
      rewrite (py_get_dict b "id" JNull Hb). reflexivity.
    + rewrite app_nil_r. reflexivity.
  - exact (Forall_block_dict _ (event_ok_blocks e He)).
Qed.

Lemma as_tool_ok (b : json) : block_ok b = true -> tool_ok (as_tool b) = true.
Proof.
  unfold block_ok, tool_ok, command_of, as_tool. cbn [input].
  intros H. repeat (apply andb_prop in H; destruct H as [H ?]).
  apply andb_true_intro. split; assumption.
Qed.

Lemma tool_uses_ok (e : json) :
  event_ok e = true -> Forall (fun t => tool_ok t = true) (tool_uses e).
Proof.
  intros He. unfold tool_uses.
  destruct (is_str (field e "type" JNull) "assistant"); [|constructor].
  apply Forall_map. apply Forall_forall. intros b Hb.
  apply filter_In in Hb. destruct Hb as [Hb _].
  apply as_tool_ok.
  pose proof (event_ok_blocks e He) as Hall. rewrite Forall_forall in Hall.
  auto.
Qed.

Lemma environment_issue_step_ok (events : list json) (i : nat)
  (issues : list issue) (t : tool) :
  transcript_ok events = true ->
  tool_ok t = true ->
  environment_issue_step events i issues t
  = Ok (issues ++ (if is_bash t then issue_of events i t else [])).
Proof.
  intros Hok Ht. unfold environment_issue_step, issue_of, matched_result.
  destruct (is_bash t); [|rewrite app_nil_r; reflexivity].
  apply andb_prop in Ht. destruct Ht as [Hin Hcmd].
  rewrite (py_get_dict _ "command" (JStr "") Hin). cbn [bind].
  rewrite (find_tool_result_ok events (id t) i Hok). cbn [bind].
  fold (command_of t).
  destruct (first_from events (id t) i 10) as [b|]; cbn [option_map];
    [|rewrite app_nil_r; reflexivity].
  destruct (command_of t) as [| | |cmd| |]; try discriminate.
  cbn [as_result content is_error].
  destruct (field b "content" (JStr "")); try (rewrite app_nil_r; reflexivity).
  destruct (truthy (field b "is_error" (JBool false))); [reflexivity|].
  match goal with
  | |- (if ?c then _ else _) = _ => destruct c
  end; [reflexivity|rewrite app_nil_r; reflexivity].
Qed.

Lemma find_environment_issues_ok (events : list json) :
  transcript_ok events = true ->
  find_environment_issues events
  = Ok (flat_map
          (fun ie =>
             flat_map (issue_of events (fst ie))
               (filter is_bash (tool_uses (snd ie))))
          (enumerate events)).
Proof.
  intros Hok. unfold find_environment_issues.
  rewrite (for_each_append
             (fun ie =>
                flat_map (issue_of events (fst ie))
                  (filter is_bash (tool_uses (snd ie))))
             _ (fun ie => event_ok (snd ie) = true)).
  - reflexivity.
  - intros acc [i e] He. cbn [fst snd].
    rewrite (find_tool_uses_ok e He). cbn [bind].
    rewrite (for_each_append
               (fun t => if is_bash t then issue_of events i t else [])
               _ (fun t => tool_ok t = true)).
    + f_equal. f_equal.
      induction (tool_uses e) as [|t ts IH]; simpl; [reflexivity|].
      destruct (is_bash t); simpl; rewrite IH; reflexivity.
    + intros acc' t Ht. apply environment_issue_step_ok; assumption.
    + apply tool_uses_ok. exact He.
  - exact (enumerate_from_Forall (fun e => event_ok e = true) 0 events
             (transcript_ok_Forall events Hok)).
Qed.

End ToolFacts.

Lemma enumerate_from_In {A : Type} (l : list A) (n i : nat) (x : A) :
  In (i, x) (enumerate_from n l) <-> n <= i /\ nth_error l (i - n) = Some x.
Proof.
  revert n. induction l as [|y l IH]; intros n; simpl.
  - split; [intros []|]. intros [_ H]. destruct (i - n); discriminate.
  - rewrite IH. split.
    + intros [[= <- <-]|[Hle Hn]].
      * split; [lia|]. rewrite Nat.sub_diag. reflexivity.
      * split; [lia|]. replace (i - n) with (S (i - S n)) by lia. exact Hn.
    + intros [Hle Hn]. destruct (Nat.eq_dec i n) as [->|Hne].
      * left. rewrite Nat.sub_diag in Hn. injection Hn as <-. reflexivity.
      * right. split; [lia|].
        replace (i - n) with (S (i - S n)) in Hn by lia. exact Hn.
Qed.

Lemma enumerate_In {A : Type} (l : list A) (i : nat) (x : A) :
  In (i, x) (enumerate l) <-> nth_error l i = Some x.
Proof.
  unfold enumerate. rewrite enumerate_from_In, Nat.sub_0_r.
  split; [intros [_ H]; exact H|intros H; split; [lia|exact H]].
Qed.

(** C6, as amended.  On a well-shaped transcript the scanner returns, and
    it reports a finding for a Bash invocation exactly when its result is
    matched within the horizon and the result's content is a string: the
    kind is [error] if [is_error] is truthy, and otherwise [warning],
    reported only if the lowercased content holds one of the eight
    phrases.  A matched result whose content is not a string gives no
    finding, whatever its [is_error]. *)
Theorem environment_issue_classification (events : list json) :
  transcript_ok events = true ->
  exists issues,
    AnalyzeStuckPoints.find_environment_issues events = Ok issues
    /\ forall x,
         In x issues
         <-> exists t r text cmd,
               In t (bash_uses_at events (AnalyzeStuckPoints.issue_index x))
               /\ matched_result events (AnalyzeStuckPoints.issue_index x) t
                  = Some r
               /\ AnalyzeStuckPoints.content r = JStr text
               /\ command_of t = JStr cmd
               /\ AnalyzeStuckPoints.issue_command x = JStr (Str.take 80 cmd)
               /\ AnalyzeStuckPoints.detail x = Str.take 200 text
               /\ (if truthy (AnalyzeStuckPoints.is_error r)
                   then AnalyzeStuckPoints.kind x = AnalyzeStuckPoints.error
                   else AnalyzeStuckPoints.kind x = AnalyzeStuckPoints.warning
                        /\ existsb (fun p => Str.contains p (Str.lower text))
                             AnalyzeStuckPoints.error_patterns = true).
Proof.
  intros Hok. eexists. split; [apply find_environment_issues_ok; exact Hok|].
  intros x. rewrite in_flat_map. split.
  - intros ([i e] & Hie & Hx). cbn [fst snd] in Hx.
    apply enumerate_In in Hie. apply in_flat_map in Hx.
    destruct Hx as (t & Ht & Hx). unfold issue_of in Hx.
    destruct (matched_result events i t) as [r|] eqn:Hr; [|destruct Hx].
    destruct (AnalyzeStuckPoints.content r) as [| | |text| |] eqn:Hc;
      try destruct Hx.
    destruct (command_of t) as [| | |cmd| |] eqn:Hcmd; try destruct Hx.
    destruct (truthy (AnalyzeStuckPoints.is_error r)) eqn:He.
    + destruct Hx as [<-|[]]. cbn. exists t, r, text, cmd.
      unfold bash_uses_at. rewrite Hie, He. auto 10.
    + destruct (existsb _ AnalyzeStuckPoints.error_patterns) eqn:Hp;
        [|destruct Hx].
      destruct Hx as [<-|[]]. cbn. exists t, r, text, cmd.
      unfold bash_uses_at. rewrite Hie, He. auto 10.
  - intros (t & r & text & cmd & Ht & Hr & Hc & Hcmd & Hxc & Hxd & Hk).
    unfold bash_uses_at in Ht.
    destruct (nth_error events (AnalyzeStuckPoints.issue_index x))
      as [e|] eqn:Hie; [|destruct Ht].
    exists (AnalyzeStuckPoints.issue_index x, e).
    split; [apply enumerate_In; exact Hie|]. cbn [fst snd].
    apply in_flat_map. exists t. split; [exact Ht|].
    unfold issue_of. rewrite Hr, Hc, Hcmd.
    destruct x as [xi xc xk xd]. cbn in *. subst xc xd.
    destruct (truthy (AnalyzeStuckPoints.is_error r)).
    + subst xk. left. reflexivity.
    + destruct Hk as [-> Hp]. rewrite Hp. left. reflexivity.
Qed.

Lemma environment_issue_classification_witness :
  transcript_ok IssueSample.failed_call = true
  /\ exists issues,
       AnalyzeStuckPoints.find_environment_issues IssueSample.failed_call
       = Ok issues
       /\ In (AnalyzeStuckPoints.mk_issue 0 (JStr "make")
                AnalyzeStuckPoints.error "exit status 1") issues.
Proof.
  split; [reflexivity|].
  destruct (environment_issue_classification IssueSample.failed_call eq_refl)
    as (issues & Hrun & Hiff).
  exists issues. split; [exact Hrun|]. apply Hiff. cbn.
  exists (as_tool (JDict [ ("type", JStr "tool_use"); ("name", JStr "Bash");
                           ("input", JDict [("command", JStr "make")]);
                           ("id", JStr "t1") ])).
  eexists. exists "exit status 1", "make".
  split; [left; reflexivity|].
  split; [reflexivity|]. repeat split.
Defined.

(** C6, as stated, fails: the call of event 0 is answered by an error
    result whose content is a list, and nothing is reported. *)
Lemma structured_error_not_reported :
  transcript_ok IssueSample.failed_call_structured = true
  /\ (exists t r,
        In t (bash_uses_at IssueSample.failed_call_structured 0)
        /\ matched_result IssueSample.failed_call_structured 0 t = Some r
        /\ AnalyzeStuckPoints.is_error r = JBool true)
  /\ AnalyzeStuckPoints.find_environment_issues
       IssueSample.failed_call_structured = Ok [].
Proof.
  split; [reflexivity|]. split; [|reflexivity].
  eexists. eexists. split; [left; reflexivity|]. split; reflexivity.
Qed.

(** ** Bash sequences *)

Section SequenceFacts.

Import AnalyzeStuckPoints.

Lemma bash_sequences_step_ok (events : list json) (st : seq_state)
  (i : nat) (e : json) :
  transcript_ok events = true ->
  event_ok e = true ->
  bash_sequences_step events st (i, e) = Ok (seq_step_spec events st (i, e)).
Proof.
  intros Hok He. unfold bash_sequences_step, seq_step_spec. cbn [fst snd].
  rewrite (find_tool_uses_ok e He). cbn [bind].
  assert (Hall : Forall (fun t => tool_ok t = true)
                   (filter is_bash (tool_uses e))).
  { apply Forall_forall. intros t Ht. apply filter_In in Ht.
    pose proof (tool_uses_ok e He) as H. rewrite Forall_forall in H.
    apply H. tauto. }
  destruct (filter is_bash (tool_uses e)) as [|t ts] eqn:Hf.
  - destruct (5 <=? List.length (current_seq st))%nat; reflexivity.
  - rewrite (for_each_append (fun t => [entry_of events i t]) _
               (fun t => tool_ok t = true)).
    + cbn [bind]. rewrite flat_map_singleton. reflexivity.
    + intros acc x Hx. rewrite (find_tool_result_ok events (id x) i Hok).
      cbn [bind]. apply andb_prop in Hx. destruct Hx as [Hin _].
      rewrite (py_get_dict _ "command" (JStr "") Hin). reflexivity.
    + exact Hall.
Qed.

Lemma entries_between_nil (events : list json) (n : nat) :
  entries_between events n n = [].
Proof. unfold entries_between. rewrite Nat.sub_diag. reflexivity. Qed.

Lemma entries_between_snoc (events : list json) (a n : nat) :
  a <= n ->
  entries_between events a (S n)
  = entries_between events a n ++ entries_at events n.
Proof.
  intros Ha. unfold entries_between.
  replace (S n - a) with (S (n - a)) by lia.
  rewrite seq_S, flat_map_app. simpl. rewrite app_nil_r.
  replace (a + (n - a)) with n by lia. reflexivity.
Qed.

Lemma has_bash_false_entries (events : list json) (n : nat) :
  has_bash events n = false -> entries_at events n = [].
Proof.
  unfold has_bash, entries_at.
  destruct (bash_uses_at events n); [reflexivity|discriminate].
Qed.

Lemma has_bash_past_end (events : list json) (n : nat) :
  List.length events <= n -> has_bash events n = false.
Proof.
  intros H. unfold has_bash, bash_uses_at.
  rewrite (proj2 (nth_error_None events n) H). reflexivity.
Qed.

(** A run that ends at [n] has one possible start. *)
Lemma run_start_unique (events : list json) (n a a' : nat) :
  a <= n -> a' <= n ->
  (forall k, a <= k < n -> has_bash events k = true) ->
  (a = 0 \/ has_bash events (a - 1) = false) ->
  (forall k, a' <= k < n -> has_bash events k = true) ->
  (a' = 0 \/ has_bash events (a' - 1) = false) ->
  a = a'.
Proof.
  intros Ha Ha' Hrun Hstart Hrun' Hstart'.
  destruct (Nat.lt_trichotomy a a') as [Hlt|[Heq|Hgt]]; [|exact Heq|].
  - destruct Hstart' as [->|Hf]; [lia|].
    rewrite Hrun in Hf by lia. discriminate.
  - destruct Hstart as [->|Hf]; [lia|].
    rewrite Hrun' in Hf by lia. discriminate.
Qed.

Lemma seq_inv_step (events : list json) (n : nat) (ev : json)
  (st : seq_state) :
  nth_error events n = Some ev ->
  seq_inv events n st ->
  seq_inv events (S n) (seq_step_spec events st (n, ev)).
Proof.
  intros Hev [(a & Ha & Hcur & Hrun & Hstart) Hseqs].
  assert (Hbu : bash_uses_at events n = filter is_bash (tool_uses ev))
    by (unfold bash_uses_at; rewrite Hev; reflexivity).
  unfold seq_step_spec. cbn [fst snd]. rewrite <- Hbu.
  destruct (bash_uses_at events n) as [|t ts] eqn:Hb.
  - (* no Bash invocation: the open sequence is closed *)
    assert (Hnb : has_bash events n = false)
      by (unfold has_bash; rewrite Hb; reflexivity).
    assert (Hin :
      forall s,
        In s (if (5 <=? List.length (current_seq st))%nat
              then sequences st ++ [current_seq st] else sequences st)
        <-> In s (sequences st)
            \/ (5 <= List.length (current_seq st) /\ s = current_seq st)).
    { intros s.
      destruct (Nat.leb_spec 5 (List.length (current_seq st))) as [Hge|Hlt].
      - rewrite in_app_iff. simpl. split.
        + intros [H|[H|[]]]; [left; exact H|right].
          split; [exact Hge|symmetry; exact H].
        + intros [H|[_ ->]]; [left; exact H|right; left; reflexivity].
      - split; [auto|]. intros [H|[H _]]; [exact H|lia]. }
    split.
    + exists (S n). split; [lia|].
      split; [rewrite entries_between_nil; destruct (5 <=? _)%nat;
              reflexivity|].
      split; [intros k Hk; lia|]. right.
      replace (S n - 1) with n by lia. exact Hnb.
    + intros s.
      assert (Hseq' :
        In s (sequences
                (if (5 <=? List.length (current_seq st))%nat
                 then mk_seq_state (sequences st ++ [current_seq st]) []
                 else mk_seq_state (sequences st) []))
        <-> In s (sequences st)
            \/ (5 <= List.length (current_seq st) /\ s = current_seq st)).
      { rewrite <- Hin. destruct (5 <=? _)%nat; reflexivity. }
      rewrite Hseq', Hseqs. split.
      * intros [(a0 & b & Hb0 & Hmax & Hs & Hlen)|[Hlen ->]].
        -- exists a0, b. split; [lia|]. auto.
        -- exists a, n. split; [lia|].
           assert (a < n).
           { destruct (Nat.eq_dec a n) as [->|]; [|lia].
             rewrite Hcur, entries_between_nil in Hlen. simpl in Hlen. lia. }
           split; [|split; [exact Hcur|exact Hlen]].
           split; [assumption|]. split; [exact Hrun|].
           split; [exact Hstart|exact Hnb].
      * intros (a0 & b & Hb0 & Hmax & Hs & Hlen).
        destruct (Nat.eq_dec b n) as [->|Hne].
        -- right. destruct Hmax as (Hlt & Hrun0 & Hstart0 & _).
           assert (a = a0)
             by (apply (run_start_unique events n); auto; lia).
           subst a0. rewrite Hcur. rewrite <- Hs. auto.
        -- left. exists a0, b. split; [lia|]. auto.
  - (* Bash invocations: their entries join the open sequence *)
    assert (Hyb : has_bash events n = true)
      by (unfold has_bash; rewrite Hb; reflexivity).
    cbn [sequences current_seq]. split.
    + exists a. split; [lia|]. split.
      * rewrite (entries_between_snoc events a n Ha), Hcur.
        unfold entries_at. rewrite Hb. reflexivity.
      * split; [|exact Hstart]. intros k Hk.
        destruct (Nat.eq_dec k n) as [->|]; [exact Hyb|apply Hrun; lia].
    + intros s. rewrite Hseqs. split.
      * intros (a0 & b & Hb0 & H). exists a0, b. split; [lia|exact H].
      * intros (a0 & b & Hb0 & Hmax & H). exists a0, b.
        split; [|auto].
        destruct (Nat.eq_dec b n) as [->|]; [|lia].
        destruct Hmax as (_ & _ & _ & Hf). congruence.
Qed.

Lemma seq_inv_run (events : list json) :
  forall rest pre st,
    events = pre ++ rest ->
    seq_inv events (List.length pre) st ->
    seq_inv events (List.length events)
      (fold_left (seq_step_spec events)
         (enumerate_from (List.length pre) rest) st).
Proof.
  induction rest as [|ev rest IH]; intros pre st Hev Hinv.
  - simpl. rewrite app_nil_r in Hev. subst pre. exact Hinv.
  - simpl.
    assert (Hev' : events = (pre ++ [ev]) ++ rest)
      by (rewrite <- app_assoc; exact Hev).
    replace (S (List.length pre)) with (List.length (pre ++ [ev]))
      by (rewrite length_app; simpl; lia).
    apply (IH (pre ++ [ev]) _ Hev').
    rewrite length_app. simpl. rewrite Nat.add_1_r.
    apply seq_inv_step; [|exact Hinv].
    rewrite Hev, nth_error_app2 by lia. rewrite Nat.sub_diag. reflexivity.
Qed.

Lemma seq_inv_init (events : list json) :
  seq_inv events 0 (mk_seq_state [] []).
Proof.
  split.
  - exists 0. split; [lia|]. split; [reflexivity|].
    split; [intros k Hk; lia|left; reflexivity].
  - intros s. simpl. split; [intros []|].
    intros (a & b & Hb & _). lia.
Qed.

Lemma analyze_bash_sequences_ok (events : list json) :
  transcript_ok events = true ->
  analyze_bash_sequences events
  = Ok (let st := fold_left (seq_step_spec events) (enumerate events)
                    (mk_seq_state [] []) in
        if (5 <=? List.length (current_seq st))%nat
        then sequences st ++ [current_seq st] else sequences st).
Proof.
  intros Hok. unfold analyze_bash_sequences.
  rewrite (for_each_pure (seq_step_spec events) (bash_sequences_step events)
             (fun ie => event_ok (snd ie) = true)).
  - cbn [bind]. destruct (5 <=? _)%nat; reflexivity.
  - intros s [i e] He. apply bash_sequences_step_ok; assumption.
  - exact (enumerate_from_Forall (fun e => event_ok e = true) 0 events
             (transcript_ok_Forall events Hok)).
Qed.

End SequenceFacts.

(** C7, as amended.  On a well-shaped transcript the detector returns, and
    it records a finding exactly for each maximal run of consecutive
    events that each hold at least one Bash invocation and whose entries,
    one [{index, command, result}] per Bash invocation, number five or
    more.  An event with no Bash invocation closes the run, and the run
    that is open at the end of the stream is closed there ([b] may be the
    length of the transcript). *)
Theorem bash_sequences_maximal_runs (events : list json) :
  transcript_ok events = true ->
  exists seqs,
    AnalyzeStuckPoints.analyze_bash_sequences events = Ok seqs
    /\ forall s,
         In s seqs
         <-> exists a b,
               maximal_run events a b
               /\ s = entries_between events a b
               /\ 5 <= List.length s.
Proof.
  intros Hok. eexists. split; [apply analyze_bash_sequences_ok; exact Hok|].
  pose proof (seq_inv_run events events [] _ eq_refl (seq_inv_init events))
    as [(a & Ha & Hcur & Hrun & Hstart) Hseqs].
  cbn [List.length] in *. fold (enumerate events) in *.
  set (st := fold_left (seq_step_spec events) (enumerate events)
               (AnalyzeStuckPoints.mk_seq_state [] [])) in *.
  cbv zeta.
  assert (Hend : has_bash events (List.length events) = false)
    by (apply has_bash_past_end; lia).
  intros s. split.
  - intros Hin.
    assert (Hcases :
      In s (AnalyzeStuckPoints.sequences st)
      \/ (5 <= List.length (AnalyzeStuckPoints.current_seq st)
          /\ s = AnalyzeStuckPoints.current_seq st)).
    { destruct (Nat.leb_spec 5
                  (List.length (AnalyzeStuckPoints.current_seq st)))
        as [Hge|Hlt]; [|left; exact Hin].
      apply in_app_iff in Hin. destruct Hin as [H|[H|[]]]; [left; exact H|].
      right. split; [exact Hge|symmetry; exact H]. }
    destruct Hcases as [H|[Hlen ->]].
    + apply Hseqs in H. destruct H as (a0 & b & _ & H). exists a0, b. exact H.
    + exists a, (List.length events).
      assert (a < List.length events).
      { destruct (Nat.eq_dec a (List.length events)) as [Heq|]; [|lia].
        rewrite Hcur, Heq, entries_between_nil in Hlen. simpl in Hlen. lia. }
      split; [|split; [exact Hcur|exact Hlen]].
      split; [assumption|]. split; [exact Hrun|]. split; assumption.
  - intros (a0 & b & Hmax & Hs & Hlen).
    assert (Hb : b <= List.length events).
    { destruct Hmax as (Hlt & Hrun0 & _).
      destruct (Nat.le_gt_cases b (List.length events)) as [|Hgt]; [assumption|].
      specialize (Hrun0 (b - 1) ltac:(lia)).
      rewrite has_bash_past_end in Hrun0 by lia. discriminate. }
    destruct (Nat.eq_dec b (List.length events)) as [->|Hne].
    + destruct Hmax as (Hlt & Hrun0 & Hstart0 & _).
      assert (a = a0)
        by (apply (run_start_unique events (List.length events)); auto; lia).
      subst a0. rewrite <- Hs in Hcur.
      destruct (Nat.leb_spec 5
                  (List.length (AnalyzeStuckPoints.current_seq st)))
        as [Hge|Hlt5].
      * apply in_app_iff. right. left. exact Hcur.
      * rewrite Hcur in Hlt5. lia.
    + assert (Hin : In s (AnalyzeStuckPoints.sequences st)).
      { apply Hseqs. exists a0, b. split; [lia|]. auto. }
      destruct (5 <=? _)%nat; [apply in_app_iff; left|]; exact Hin.
Qed.

Lemma bash_sequences_maximal_runs_witness :
  transcript_ok BashSample.five_calls = true
  /\ exists seqs,
       AnalyzeStuckPoints.analyze_bash_sequences BashSample.five_calls
       = Ok seqs
       /\ In (entries_between BashSample.five_calls 0 5) seqs.
Proof.
  split; [reflexivity|].
  destruct (bash_sequences_maximal_runs BashSample.five_calls eq_refl)
    as (seqs & Hrun & Hiff).
  exists seqs. split; [exact Hrun|]. apply Hiff. exists 0, 5.
  split; [|split; [reflexivity|cbn; lia]].
  split; [lia|]. split.
  - intros k Hk. do 5 (destruct k as [|k]; [reflexivity|]). lia.
  - split; [left; reflexivity|reflexivity].
Defined.

(** C7, as stated, fails: a run of one event that holds five Bash
    invocations is recorded, though it spans fewer than five events. *)
Lemma one_event_run_recorded :
  transcript_ok BashSample.burst = true
  /\ List.length BashSample.burst = 1
  /\ maximal_run BashSample.burst 0 1
  /\ AnalyzeStuckPoints.analyze_bash_sequences BashSample.burst
     = Ok [entries_between BashSample.burst 0 1]
  /\ List.length (entries_between BashSample.burst 0 1) = 5.
Proof.
  split; [reflexivity|]. split; [reflexivity|]. split.
  - split; [lia|]. split.
    + intros k Hk. destruct k as [|k]; [reflexivity|lia].
    + split; [left; reflexivity|reflexivity].
  - split; reflexivity.
Qed.

(** ** Read-before-edit checker *)

Section EditFacts.

Import AnalyzeFlow.

Lemma block_ok_path (b : json) :
  block_ok b = true -> exists p, path_of b = JStr p.
Proof.
  unfold block_ok, path_of. intros H.
  repeat (apply andb_prop in H; destruct H as [H ?]).
  destruct (field (field b "input" (JDict [])) "file_path" (JStr ""));
    try discriminate. eexists. reflexivity.
Qed.

Lemma block_ok_input (b : json) :
  block_ok b = true -> is_dict (field b "input" (JDict [])) = true.
Proof.
  unfold block_ok. intros H.
  repeat (apply andb_prop in H; destruct H as [H ?]). assumption.
Qed.

Lemma edit_block_step_ok (i : nat) (st : edit_state) (b : json) :
  block_ok b = true ->
  edit_block_step i st b
  = Ok (if is_tool_use b then call_step st (i, b) else st).
Proof.
  intros Hb. pose proof (block_ok_dict b Hb) as Hd.
  destruct (block_ok_path b Hb) as (p & Hp).
  unfold edit_block_step, call_step, is_tool_use. cbn [fst snd].
  rewrite (py_get_dict b "type" JNull Hd). cbn [bind].
  destruct (is_str (field b "type" JNull) "tool_use"); [|reflexivity].
  rewrite (py_get_dict b "name" JNull Hd). cbn [bind].
  rewrite (py_get_dict b "input" (JDict []) Hd). cbn [bind].
  unfold is_read, is_edit.
  destruct (is_str (field b "name" JNull) "Read").
  - rewrite (py_get_dict _ "file_path" (JStr "") (block_ok_input b Hb)).
    cbn [bind]. fold (path_of b). rewrite Hp.
    unfold set_add, set_mem. cbn [hashable bind].
    destruct (existsb (py_eq (JStr p)) (reads st)); reflexivity.
  - destruct (is_str (field b "name" JNull) "Edit"); [|reflexivity].
    rewrite (py_get_dict _ "file_path" (JStr "") (block_ok_input b Hb)).
    cbn [bind]. fold (path_of b). rewrite Hp.
    unfold set_mem. cbn [hashable bind]. reflexivity.
Qed.

Lemma edit_blocks_ok (i : nat) (blocks : list json) :
  Forall (fun b => block_ok b = true) blocks ->
  forall st,
    for_each blocks (edit_block_step i) st
    = Ok (fold_left call_step (map (pair i) (filter is_tool_use blocks)) st).
Proof.
  intros Hall. induction Hall as [|b blocks Hb _ IH]; intros st; simpl.
  - reflexivity.
  - rewrite (edit_block_step_ok i st b Hb). cbn [bind].
    destruct (is_tool_use b); simpl; apply IH.
Qed.

Lemma edit_step_ok (st : edit_state) (i : nat) (e : json) :
  event_ok e = true ->
  edit_step st (i, e) = Ok (fold_left call_step (calls_of (i, e)) st).
Proof.
  intros He. unfold edit_step, calls_of. cbn [fst snd].
  rewrite (py_get_dict e "type" JNull (event_ok_dict e He)). cbn [bind].
  destruct (is_str (field e "type" JNull) "assistant"); cbn [negb];
    [|reflexivity].
  rewrite (py_get_dict e "message" (JDict []) (event_ok_dict e He)).
  cbn [bind].
  rewrite (py_get_dict _ "content" (JList []) (event_ok_message e He)).
  cbn [bind]. rewrite (event_ok_content e He). cbn [py_iter bind].
  apply edit_blocks_ok. exact (event_ok_blocks e He).
Qed.

Lemma fold_left_flat_map {A B S : Type} (f : S -> B -> S) (g : A -> list B)
  (l : list A) (s : S) :
  fold_left f (flat_map g l) s
  = fold_left (fun s x => fold_left f (g x) s) l s.
Proof.
  revert s. induction l as [|x l IH]; intros s; simpl; [reflexivity|].
  rewrite fold_left_app. apply IH.
Qed.

Lemma read_before_edit_ok (events : list json) :
  transcript_ok events = true ->
  read_before_edit events
  = Ok (edits (fold_left call_step (tool_calls events) (mk_edit_state [] []))).
Proof.
  intros Hok. unfold read_before_edit, tool_calls.
  rewrite (for_each_pure (fun st ie => fold_left call_step (calls_of ie) st)
             edit_step (fun ie => event_ok (snd ie) = true)).
  - cbn [bind]. rewrite fold_left_flat_map. reflexivity.
  - intros s [i e] He. apply edit_step_ok. exact He.
  - exact (enumerate_from_Forall (fun e => event_ok e = true) 0 events
             (transcript_ok_Forall events Hok)).
Qed.

(** Every invocation of a well-shaped transcript is a well-shaped block. *)
Lemma tool_calls_ok (events : list json) :
  transcript_ok events = true ->
  Forall (fun c => block_ok (snd c) = true) (tool_calls events).
Proof.
  intros Hok. apply Forall_forall. intros [i b] Hin.
  unfold tool_calls in Hin. apply in_flat_map in Hin.
  destruct Hin as ([j e] & Hje & Hc). apply enumerate_In in Hje.
  unfold calls_of in Hc. cbn [fst snd] in Hc.
  destruct (is_str (field e "type" JNull) "assistant"); [|destruct Hc].
  apply in_map_iff in Hc. destruct Hc as (b' & [= <- <-] & Hb').
  apply filter_In in Hb'. destruct Hb' as [Hb' _].
  pose proof (transcript_ok_Forall events Hok) as Hall.
  rewrite Forall_forall in Hall.
  pose proof (event_ok_blocks e (Hall e (nth_error_In _ _ Hje))) as Hbs.
  rewrite Forall_forall in Hbs. cbn. auto.
Qed.

(** The ways to split a list that ends in [c] around one of its items. *)
Lemma split_snoc {A : Type} (l before after : list A) (c x : A) :
  l ++ [c] = before ++ x :: after ->
  (after = [] /\ before = l /\ x = c)
  \/ exists after', after = after' ++ [c] /\ l = before ++ x :: after'.
Proof.
  intros H. destruct (exists_last (l := x :: after)) as (after' & y & Hy);
    [discriminate|].
  rewrite Hy, app_assoc in H. apply app_inj_tail in H. destruct H as [Hl <-].
  destruct after' as [|z after'].
  - left. simpl in Hy. destruct after as [|? ?]; [|destruct after; discriminate].
    injection Hy as ->. rewrite app_nil_r in Hl. auto.
  - right. simpl in Hy. injection Hy as <- ->.
    exists after'. split; [reflexivity|exact Hl].
Qed.

Lemma is_read_not_edit (b : json) : is_read b = true -> is_edit b = false.
Proof.
  unfold is_read, is_edit. intros H. rewrite (is_str_eq _ _ H). reflexivity.
Qed.

Lemma edit_inv_step (seen : list (nat * json)) (st : edit_state)
  (c : nat * json) :
  block_ok (snd c) = true ->
  edit_inv seen st ->
  edit_inv (seen ++ [c]) (call_step st c).
Proof.
  intros Hb [Hreads Hedits]. destruct c as [i b]. cbn [snd] in Hb.
  destruct (block_ok_path b Hb) as (p & Hp).
  assert (Hold :
    forall x,
      (exists before j b0 after,
         seen = before ++ (j, b0) :: after /\ is_edit b0 = true
         /\ x = mk_edit j (path_of b0) (covered before b0))
      -> exists before j b0 after,
           seen ++ [(i, b)] = before ++ (j, b0) :: after /\ is_edit b0 = true
           /\ x = mk_edit j (path_of b0) (covered before b0)).
  { intros x (before & j & b0 & after & -> & He & ->).
    exists before, j, b0, (after ++ [(i, b)]).
    rewrite <- app_assoc. auto. }
  unfold call_step. cbn [fst snd].
  destruct (is_read b) eqn:Hr.
  - (* a Read: its path joins the set *)
    split; cbn [reads edits].
    + intros q. rewrite existsb_app. cbn [existsb snd]. rewrite Hr, orb_false_r.
      cbn [andb]. rewrite <- Hreads, Hp.
      destruct (existsb (py_eq (JStr p)) (reads st)) eqn:Hmem.
      * destruct (py_eq (JStr q) (JStr p)) eqn:Hq; [|rewrite orb_false_r; reflexivity].
        cbn in Hq. apply String.eqb_eq in Hq. subst q.
        rewrite Hmem. reflexivity.
      * rewrite existsb_app. cbn [existsb]. rewrite orb_false_r. reflexivity.
    + intros x. rewrite Hedits. split; [apply Hold|].
      intros (before & j & b0 & after & Hsplit & He & ->).
      apply split_snoc in Hsplit.
      destruct Hsplit as [(_ & _ & [= -> ->])|(after' & -> & ->)].
      * rewrite (is_read_not_edit b Hr) in He. discriminate.
      * exists before, j, b0, after'. auto.
  - destruct (is_edit b) eqn:He.
    + (* an Edit: one more record, flagged by the set as it stands *)
      split; cbn [reads edits].
      * intros q. rewrite existsb_app. cbn [existsb snd]. rewrite Hr.
        cbn [andb]. rewrite !orb_false_r. apply Hreads.
      * intros x. rewrite in_app_iff, Hedits. cbn [In]. split.
        -- intros [H|[<-|[]]]; [apply Hold; exact H|].
           exists seen, i, b, []. split; [reflexivity|]. split; [exact He|].
           f_equal. unfold covered. rewrite Hp. apply Hreads.
        -- intros (before & j & b0 & after & Hsplit & He0 & ->).
           apply split_snoc in Hsplit.
           destruct Hsplit as [(_ & -> & [= -> ->])|(after' & -> & ->)].
           ++ right. left. f_equal. unfold covered. rewrite Hp. apply Hreads.
           ++ left. exists before, j, b0, after'. auto.
    + (* another tool *)
      split.
      * intros q. rewrite existsb_app. cbn [existsb snd]. rewrite Hr.
        cbn [andb]. rewrite !orb_false_r. apply Hreads.
      * intros x. rewrite Hedits. split; [apply Hold|].
        intros (before & j & b0 & after & Hsplit & He0 & ->).
        apply split_snoc in Hsplit.
        destruct Hsplit as [(_ & _ & [= -> ->])|(after' & -> & ->)].
        -- congruence.
        -- exists before, j, b0, after'. auto.
Qed.

Lemma edit_inv_run (calls : list (nat * json)) :
  Forall (fun c => block_ok (snd c) = true) calls ->
  edit_inv calls (fold_left call_step calls (mk_edit_state [] [])).
Proof.
  induction calls as [|c calls IH] using rev_ind; intros Hall.
  - split; [reflexivity|]. intros x. simpl. split; [intros []|].
    intros (before & j & b0 & after & H & _). destruct before; discriminate.
  - apply Forall_app in Hall. destruct Hall as [Hcalls Hc].
    rewrite fold_left_app. simpl. apply edit_inv_step; [|apply IH; exact Hcalls].
    inversion Hc; assumption.
Qed.

End EditFacts.

Lemma py_eq_str_l (p : string) (v : json) :
  py_eq (JStr p) v = true <-> v = JStr p.
Proof.
  destruct v; simpl; split; intros H; try discriminate.
  - apply String.eqb_eq in H. congruence.
  - injection H as ->. apply String.eqb_refl.
Qed.

Lemma path_of_missing (b : json) :
  file_path_key b = None -> path_of b = JStr "".
Proof.
  unfold file_path_key, path_of.
  destruct (field b "input" (JDict [])); simpl; try reflexivity.
  intros ->. reflexivity.
Qed.

(** The defaulted path is empty iff the key is absent or holds the empty
    string. *)
Lemma path_of_empty (b : json) :
  path_of b = JStr ""
  <-> file_path_key b = None \/ file_path_key b = Some (JStr "").
Proof.
  unfold file_path_key, path_of.
  destruct (field b "input" (JDict [])); simpl;
    try (split; [left; reflexivity|reflexivity]).
  destruct (dict_lookup "file_path" d) as [v|].
  - split; [intros ->; right; reflexivity|].
    intros [H|H]; [discriminate|]. injection H as ->. reflexivity.
  - split; [left; reflexivity|reflexivity].
Qed.

(** C10.  On a well-shaped transcript the checker returns one record per
    Edit invocation, in scan order; the record of an Edit says that it had
    a prior read exactly when an earlier Read invocation has the same
    path, where the path of an input with no [file_path] is the empty
    string.  So an Edit with no [file_path] counts as read before iff an
    earlier Read has no [file_path] either, or has the empty string. *)
Theorem read_before_edit_missing_path (events : list json) :
  transcript_ok events = true ->
  exists es,
    AnalyzeFlow.read_before_edit events = Ok es
    /\ (forall x,
          In x es
          <-> exists before i b after,
                tool_calls events = before ++ (i, b) :: after
                /\ is_edit b = true
                /\ x = AnalyzeFlow.mk_edit i (path_of b) (covered before b))
    /\ (forall before i b after,
          tool_calls events = before ++ (i, b) :: after ->
          (covered before b = true
           <-> exists j r,
                 In (j, r) before /\ is_read r = true
                 /\ path_of r = path_of b))
    /\ (forall before i b after,
          tool_calls events = before ++ (i, b) :: after ->
          is_edit b = true ->
          file_path_key b = None ->
          path_of b = JStr ""
          /\ (covered before b = true
              <-> exists j r,
                    In (j, r) before /\ is_read r = true
                    /\ (file_path_key r = None
                        \/ file_path_key r = Some (JStr "")))).
Proof.
  intros Hok. eexists. split; [apply read_before_edit_ok; exact Hok|].
  pose proof (tool_calls_ok events Hok) as Hcalls.
  destruct (edit_inv_run (tool_calls events) Hcalls) as [_ Hedits].
  assert (Hcov :
    forall before i b after,
      tool_calls events = before ++ (i, b) :: after ->
      (covered before b = true
       <-> exists j r,
             In (j, r) before /\ is_read r = true /\ path_of r = path_of b)).
  { intros before i b after Hsplit.
    rewrite Forall_forall in Hcalls.
    destruct (block_ok_path b) as (p & Hp).
    { apply (Hcalls (i, b)). rewrite Hsplit. apply in_elt. }
    unfold covered. rewrite existsb_exists, Hp. split.
    - intros ([j r] & Hin & Hc). cbn [snd] in Hc.
      apply andb_prop in Hc. destruct Hc as [Hr Heq].
      apply py_eq_str_l in Heq. exists j, r. auto.
    - intros (j & r & Hin & Hr & Heq). exists (j, r). split; [exact Hin|].
      cbn [snd]. rewrite Hr, Heq. cbn [andb]. apply py_eq_str_l. reflexivity. }
  split; [exact Hedits|]. split; [exact Hcov|].
  intros before i b after Hsplit He Hkey.
  pose proof (path_of_missing b Hkey) as Hp. split; [exact Hp|].
  rewrite (Hcov before i b after Hsplit), Hp. split.
  - intros (j & r & Hin & Hr & Heq). exists j, r.
    split; [exact Hin|]. split; [exact Hr|]. apply path_of_empty. exact Heq.
  - intros (j & r & Hin & Hr & Heq). exists j, r.
    split; [exact Hin|]. split; [exact Hr|]. apply path_of_empty. exact Heq.
Qed.

Lemma read_before_edit_missing_path_witness :
  transcript_ok EditSample.bare_read_then_edit = true
  /\ exists es,
       AnalyzeFlow.read_before_edit EditSample.bare_read_then_edit = Ok es
       /\ In (AnalyzeFlow.mk_edit 1 (JStr "") true) es.
Proof.
  split; [reflexivity|].
  destruct (read_before_edit_missing_path EditSample.bare_read_then_edit
              eq_refl) as (es & Hrun & Hiff & _).
  exists es. split; [exact Hrun|]. apply Hiff.
  exists [(0, EditSample.bare_block "Read")], 1,
    (EditSample.bare_block "Edit"), [].
  repeat split.
Defined.

(** [Read(a.py)@1, Edit(a.py)@2, Edit(b.py)@3]: one of two edits had a
    prior read. *)
Example read_then_edits_half_covered :
  AnalyzeFlow.read_before_edit EditSample.read_then_edits
  = Ok [ AnalyzeFlow.mk_edit 2 (JStr "a.py") true;
         AnalyzeFlow.mk_edit 3 (JStr "b.py") false ]
  /\ AnalyzeFlow.edits_with_read
       [ AnalyzeFlow.mk_edit 2 (JStr "a.py") true;
         AnalyzeFlow.mk_edit 3 (JStr "b.py") false ] = 1.
Proof. split; reflexivity. Qed.

(** ** Event indices *)

Section IndexFacts.

Variable json_loads : string -> option json.

Lemma extract_events_filter (lines : list string) :
  map Some (AnalyzeStuckPoints.extract_events json_loads lines)
  = map (AnalyzeStuckPoints.parse_event json_loads)
      (filter (keeps (AnalyzeStuckPoints.parse_event json_loads)) lines).
Proof.
  induction lines as [|line lines IH]; simpl; [reflexivity|].
  unfold keeps at 1.
  destruct (AnalyzeStuckPoints.parse_event json_loads line) as [e|] eqn:He;
    [|exact IH].
  destruct (truthy e); [|exact IH]. simpl. rewrite He, IH. reflexivity.
Qed.

(** Reading the kept positions back gives the kept lines, in order. *)
Lemma kept_from_decoded (parse : string -> option json)
  (lines pre : list string) :
  map (decoded parse (pre ++ lines))
    (map fst
       (filter (fun il => keeps parse (snd il))
          (enumerate_from (List.length pre) lines)))
  = map parse (filter (keeps parse) lines).
Proof.
  revert pre. induction lines as [|line lines IH]; intros pre; simpl;
    [reflexivity|].
  specialize (IH (pre ++ [line])).
  rewrite <- app_assoc, length_app in IH. simpl in IH.
  rewrite Nat.add_1_r in IH.
  destruct (keeps parse line); simpl; [|exact IH].
  rewrite IH. f_equal. unfold decoded.
  rewrite nth_error_app2 by lia. rewrite Nat.sub_diag. reflexivity.
Qed.

Lemma kept_positions_decoded (parse : string -> option json)
  (lines : list string) :
  map (decoded parse lines) (kept_positions parse lines)
  = map parse (filter (keeps parse) lines).
Proof. exact (kept_from_decoded parse lines []). Qed.

Lemma kept_from_sorted (parse : string -> option json) (lines : list string)
  (n : nat) :
  let ps :=
    map fst
      (filter (fun il => keeps parse (snd il)) (enumerate_from n lines)) in
  StronglySorted lt ps
  /\ Forall (fun p => n <= p < n + List.length lines) ps.
Proof.
  revert n. induction lines as [|line lines IH]; intros n; simpl.
  - split; constructor.
  - destruct (IH (S n)) as [Hs Hb]. simpl in Hs, Hb.
    assert (Hb' :
      Forall (fun p => n <= p < n + S (List.length lines))
        (map fst
           (filter (fun il => keeps parse (snd il))
              (enumerate_from (S n) lines)))).
    { eapply Forall_impl; [|exact Hb]. simpl. intros p Hp. lia. }
    destruct (keeps parse line); simpl.
    + split.
      * constructor; [exact Hs|].
        eapply Forall_impl; [|exact Hb]. simpl. intros p Hp. lia.
      * constructor; [lia|exact Hb'].
    + split; [exact Hs|exact Hb'].
Qed.

Lemma kept_positions_length (lines : list string) :
  List.length (AnalyzeStuckPoints.extract_events json_loads lines)
  = List.length
      (kept_positions (AnalyzeStuckPoints.parse_event json_loads) lines).
Proof.
  rewrite <- (length_map Some), extract_events_filter.
  rewrite <- (kept_positions_decoded _ lines). rewrite !length_map.
  reflexivity.
Qed.

End IndexFacts.

Section CollectFacts.

Import SummarizeSession.

Variable json_loads : string -> option json.

(** A loop over [enumerate(l)] keeps an invariant that follows the
    position. *)
Lemma for_each_enumerate_invariant {A St : Type} (I : nat -> St -> Prop)
  (body : St -> nat * A -> py St) (l : list A) :
  (forall n x s s',
     nth_error l n = Some x -> I n s -> body s (n, x) = Ok s' -> I (S n) s') ->
  forall s s',
    I 0 s -> for_each (enumerate l) body s = Ok s' -> I (List.length l) s'.
Proof.
  intros Hstep.
  assert (Haux :
    forall rest pre s s',
      l = pre ++ rest ->
      I (List.length pre) s ->
      for_each (enumerate_from (List.length pre) rest) body s = Ok s' ->
      I (List.length l) s').
  { induction rest as [|x rest IH]; intros pre s s' Hl Hs Hrun.
    - simpl in Hrun. injection Hrun as <-.
      rewrite app_nil_r in Hl. subst pre. exact Hs.
    - simpl in Hrun. step_bind Hrun.
      apply (IH (pre ++ [x]) a s').
      + rewrite <- app_assoc. exact Hl.
      + rewrite length_app. simpl. rewrite Nat.add_1_r.
        apply (Hstep (List.length pre) x s a); [|exact Hs|exact E].
        rewrite Hl, nth_error_app2 by lia. rewrite Nat.sub_diag. reflexivity.
      + rewrite length_app. simpl. rewrite Nat.add_1_r. exact Hrun. }
  intros s s' Hs Hrun. exact (Haux l [] s s' eq_refl Hs Hrun).
Qed.

(** What one block of an assistant event adds to the recorded lists. *)
Lemma assistant_block_shape (idx : nat) (c c' : collected) (b : json) :
  assistant_block idx c b = Ok c' ->
  (tool_events c' = tool_events c
   \/ (is_tool_use b = true
       /\ tool_events c' = tool_events c ++ [as_tool_event idx b]))
  /\ (thoughts c' = thoughts c
      \/ exists t, thoughts c' = thoughts c ++ [mk_note idx t])
  /\ (thinking_blocks c' = thinking_blocks c
      \/ exists t, thinking_blocks c' = thinking_blocks c ++ [mk_note idx t]).
Proof.
  unfold assistant_block. intros H. step_bind H.
  apply py_get_ok in E. destruct E as [Hd ->].
  destruct (is_str (field b "type" JNull) "thinking").
  { do 2 step_bind H. injection H as <-. cbn.
    split; [left; reflexivity|]. split; [left; reflexivity|].
    right. eexists. reflexivity. }
  destruct (is_str (field b "type" JNull) "text").
  { step_bind H. injection H as <-. cbn.
    split; [left; reflexivity|]. split; [|left; reflexivity].
    right. eexists. reflexivity. }
  destruct (is_str (field b "type" JNull) "tool_use") eqn:Htu.
  - do 5 step_bind H. injection H as <-. cbn.
    apply py_get_ok in E. destruct E as [_ ->].
    apply py_get_ok in E0. destruct E0 as [_ ->].
    apply py_get_ok in E2. destruct E2 as [_ ->].
    split; [right; split; [exact Htu|reflexivity]|]. auto.
  - injection H as <-. auto.
Qed.

Lemma assistant_blocks_shape (idx : nat) (blocks : list json) :
  forall c c',
    for_each blocks (assistant_block idx) c = Ok c' ->
    exists te th tk,
      tool_events c' = tool_events c ++ te
      /\ thoughts c' = thoughts c ++ th
      /\ thinking_blocks c' = thinking_blocks c ++ tk
      /\ Forall (fun ev =>
                   exists b, In b blocks /\ is_tool_use b = true
                             /\ ev = as_tool_event idx b) te
      /\ Forall (fun x => note_index x = idx) th
      /\ Forall (fun x => note_index x = idx) tk.
Proof.
  induction blocks as [|b blocks IH]; intros c c' H; simpl in H.
  - injection H as <-. exists [], [], []. rewrite !app_nil_r.
    repeat split; constructor.
  - step_bind H.
    destruct (IH a c' H) as (te & th & tk & Hte & Hth & Htk & Fte & Fth & Ftk).
    destruct (assistant_block_shape idx c a b E) as (He & Ht & Hk).
    assert (Fte' :
      Forall (fun ev =>
                exists b0, In b0 (b :: blocks) /\ is_tool_use b0 = true
                           /\ ev = as_tool_event idx b0) te).
    { eapply Forall_impl; [|exact Fte]. simpl.
      intros ev (b0 & Hin & Hrest). exists b0. auto. }
    assert (Hte' :
      exists te',
        tool_events c' = tool_events c ++ te'
        /\ Forall (fun ev =>
                     exists b0, In b0 (b :: blocks) /\ is_tool_use b0 = true
                                /\ ev = as_tool_event idx b0) te').
    { destruct He as [He|[Htu He]]; rewrite Hte, He.
      - exists te. auto.
      - exists (as_tool_event idx b :: te). rewrite <- app_assoc.
        split; [reflexivity|]. constructor; [|exact Fte'].
        exists b. simpl. auto. }
    assert (Hth' :
      exists th',
        thoughts c' = thoughts c ++ th'
        /\ Forall (fun x => note_index x = idx) th').
    { destruct Ht as [Ht|(t & Ht)]; rewrite Hth, Ht.
      - exists th. auto.
      - exists (mk_note idx t :: th). rewrite <- app_assoc.
        split; [reflexivity|]. constructor; [reflexivity|exact Fth]. }
    assert (Htk' :
      exists tk',
        thinking_blocks c' = thinking_blocks c ++ tk'
        /\ Forall (fun x => note_index x = idx) tk').
    { destruct Hk as [Hk|(t & Hk)]; rewrite Htk, Hk.
      - exists tk. auto.
      - exists (mk_note idx t :: tk). rewrite <- app_assoc.
        split; [reflexivity|]. constructor; [reflexivity|exact Ftk]. }
    destruct Hte' as (te' & ? & ?). destruct Hth' as (th' & ? & ?).
    destruct Htk' as (tk' & ? & ?). exists te', th', tk'. auto 10.
Qed.

(** User events add nothing to the recorded lists. *)
Lemma user_blocks_shape (blocks : list json) (c c' : collected) :
  for_each blocks user_block c = Ok c' ->
  tool_events c' = tool_events c
  /\ thoughts c' = thoughts c
  /\ thinking_blocks c' = thinking_blocks c.
Proof.
  apply (for_each_invariant
           (fun s => tool_events s = tool_events c
                     /\ thoughts s = thoughts c
                     /\ thinking_blocks s = thinking_blocks c)
           user_block blocks); [|auto].
  intros s b s' Hs H. unfold user_block in H. step_bind H.
  destruct (is_str a "tool_result"); [|injection H as <-; exact Hs].
  step_bind H. destruct (truthy a0); injection H as <-; exact Hs.
Qed.

End CollectFacts.

Section CollectIndex.

Import SummarizeSession.

Variable json_loads : string -> option json.

(** What one line adds to the recorded lists. *)
Lemma collect_line_shape (c c' : collected) (idx : nat) (line : string) :
  collect_line json_loads c (idx, line) = Ok c' ->
  exists te th tk,
    tool_events c' = tool_events c ++ te
    /\ thoughts c' = thoughts c ++ th
    /\ thinking_blocks c' = thinking_blocks c ++ tk
    /\ (te = [] /\ th = [] /\ tk = []
        \/ exists e,
             parse_event json_loads line = Some e
             /\ truthy e = true
             /\ Forall (fun ev =>
                          exists b, In b (blocks_of e)
                                    /\ is_tool_use b = true
                                    /\ ev = as_tool_event idx b) te
             /\ Forall (fun x => note_index x = idx) th
             /\ Forall (fun x => note_index x = idx) tk).
Proof.
  assert (Hsame :
    forall c0 : collected,
      tool_events c0 = tool_events c ->
      thoughts c0 = thoughts c ->
      thinking_blocks c0 = thinking_blocks c ->
      exists te th tk,
        tool_events c0 = tool_events c ++ te
        /\ thoughts c0 = thoughts c ++ th
        /\ thinking_blocks c0 = thinking_blocks c ++ tk
        /\ (te = [] /\ th = [] /\ tk = []
            \/ exists e,
                 parse_event json_loads line = Some e
                 /\ truthy e = true
                 /\ Forall (fun ev =>
                              exists b, In b (blocks_of e)
                                        /\ is_tool_use b = true
                                        /\ ev = as_tool_event idx b) te
                 /\ Forall (fun x => note_index x = idx) th
                 /\ Forall (fun x => note_index x = idx) tk)).
  { intros c0 H1 H2 H3. exists [], [], []. rewrite !app_nil_r. auto 10. }
  unfold collect_line. intros H.
  destruct (parse_event json_loads line) as [e|] eqn:Hp;
    [|injection H as <-; apply Hsame; reflexivity].
  destruct (truthy e) eqn:Ht; cbn [negb] in H;
    [|injection H as <-; apply Hsame; reflexivity].
  step_bind H.
  destruct (is_str a "loop_meta").
  { do 2 step_bind H. injection H as <-. apply Hsame; reflexivity. }
  destruct (is_str a "system");
    [injection H as <-; apply Hsame; reflexivity|].
  destruct (is_str a "assistant").
  - do 2 step_bind H.
    apply py_get_ok in E0. destruct E0 as [_ ->].
    apply py_get_ok in E1. destruct E1 as [_ ->].
    destruct (field (field e "message" (JDict [])) "content" (JList []))
      as [| | | |blocks|] eqn:Hc;
      try (injection H as <-; apply Hsame; reflexivity).
    destruct (assistant_blocks_shape idx blocks c c' H)
      as (te & th & tk & Hte & Hth & Htk & Fte & Fth & Ftk).
    exists te, th, tk. split; [exact Hte|]. split; [exact Hth|].
    split; [exact Htk|]. right. exists e.
    assert (Hb : blocks_of e = blocks) by (unfold blocks_of; rewrite Hc; reflexivity).
    rewrite Hb. auto.
  - destruct (is_str a "user"); [|injection H as <-; apply Hsame; reflexivity].
    do 2 step_bind H.
    destruct a1; try (injection H as <-; apply Hsame; reflexivity).
    destruct (user_blocks_shape l c c' H) as (H1 & H2 & H3).
    apply Hsame; assumption.
Qed.

(** Appending items equal to [n] to a sorted list of smaller items. *)
Lemma sorted_app_const (l l' : list nat) (n : nat) :
  Sorted le l ->
  Forall (fun x => x < n) l ->
  Forall (fun x => x = n) l' ->
  Sorted le (l ++ l').
Proof.
  intros Hs Hl Hl'. induction l as [|a l IH]; simpl.
  - clear Hs Hl. induction Hl' as [|x l' Hx Hl' IH]; constructor.
    + exact IH.
    + destruct Hl' as [|y l' Hy _]; constructor. lia.
  - inversion Hs as [|? ? Hs' Hhd]; subst. inversion Hl as [|? ? Ha Hl1]; subst.
    constructor; [apply IH; assumption|].
    destruct l as [|b l]; simpl.
    + destruct Hl' as [|y l' Hy _]; constructor. lia.
    + inversion Hhd; subst. constructor. assumption.
Qed.

Lemma Forall_index_app {A : Type} (P : A -> Prop) (f : A -> nat)
  (l l' : list A) (n : nat) :
  Forall (fun x => f x < n /\ P x) l ->
  Forall (fun x => f x = n /\ P x) l' ->
  Forall (fun x => f x < S n /\ P x) (l ++ l').
Proof.
  intros Hl Hl'. apply Forall_app. split.
  - eapply Forall_impl; [|exact Hl]. simpl. intros x [Hx HP]. split; [lia|auto].
  - eapply Forall_impl; [|exact Hl']. simpl. intros x [Hx HP]. split; [lia|auto].
Qed.

Lemma sorted_index_app {A : Type} (P : A -> Prop) (f : A -> nat)
  (l l' : list A) (n : nat) :
  Sorted le (map f l) ->
  Forall (fun x => f x < n /\ P x) l ->
  Forall (fun x => f x = n) l' ->
  Sorted le (map f (l ++ l')).
Proof.
  intros Hs Hl Hl'. rewrite map_app. apply (sorted_app_const _ _ n Hs).
  - apply Forall_map. eapply Forall_impl; [|exact Hl]. simpl. tauto.
  - apply Forall_map. exact Hl'.
Qed.

Lemma index_inv_step (lines : list string) (n : nat) (line : string)
  (c c' : collected) :
  nth_error lines n = Some line ->
  index_inv (parse_event json_loads) lines n c ->
  collect_line json_loads c (n, line) = Ok c' ->
  index_inv (parse_event json_loads) lines (S n) c'.
Proof.
  intros Hline ((Hse & Hfe) & (Hst & Hft) & (Hsk & Hfk)) Hrun.
  unfold index_inv.
  destruct (collect_line_shape c c' n line Hrun)
    as (te & th & tk & -> & -> & -> & Hnew).
  assert (Hdec :
    forall e, parse_event json_loads line = Some e ->
              decoded (parse_event json_loads) lines n = Some e)
    by (intros e He; unfold decoded; rewrite Hline; exact He).
  assert (Hte :
    Forall (fun ev => index ev = n /\ from_line (parse_event json_loads) lines ev)
      te).
  { destruct Hnew as [(-> & _)|(e & He & Ht & Fte & _)]; [constructor|].
    eapply Forall_impl; [|exact Fte]. simpl.
    intros ev (b & Hin & Htu & ->). split; [reflexivity|].
    exists e, b. cbn. auto. }
  assert (Hth :
    Forall (fun x => note_index x = n
                     /\ note_from_line (parse_event json_loads) lines x) th).
  { destruct Hnew as [(_ & -> & _)|(e & He & Ht & _ & Fth & _)]; [constructor|].
    eapply Forall_impl; [|exact Fth]. simpl.
    intros x Hx. split; [exact Hx|]. exists e. rewrite Hx. auto. }
  assert (Htk :
    Forall (fun x => note_index x = n
                     /\ note_from_line (parse_event json_loads) lines x) tk).
  { destruct Hnew as [(_ & _ & ->)|(e & He & Ht & _ & _ & Ftk)]; [constructor|].
    eapply Forall_impl; [|exact Ftk]. simpl.
    intros x Hx. split; [exact Hx|]. exists e. rewrite Hx. auto. }
  split; [|split]; split.
  - apply (sorted_index_app _ index _ _ n Hse Hfe).
    eapply Forall_impl; [|exact Hte]. simpl. tauto.
  - apply Forall_index_app; assumption.
  - apply (sorted_index_app _ note_index _ _ n Hst Hft).
    eapply Forall_impl; [|exact Hth]. simpl. tauto.
  - apply Forall_index_app; assumption.
  - apply (sorted_index_app _ note_index _ _ n Hsk Hfk).
    eapply Forall_impl; [|exact Htk]. simpl. tauto.
  - apply Forall_index_app; assumption.
Qed.

Lemma collect_index_inv (lines : list string) (c : collected) :
  collect json_loads lines = Ok c ->
  index_inv (parse_event json_loads) lines (List.length lines) c.
Proof.
  unfold collect.
  apply (for_each_enumerate_invariant
           (index_inv (parse_event json_loads) lines)
           (collect_line json_loads) lines).
  - intros n x s s'. apply index_inv_step.
  - repeat split; constructor.
Qed.

Lemma kept_positions_In (parse : string -> option json)
  (lines : list string) (p : nat) :
  In p (kept_positions parse lines)
  <-> exists e, decoded parse lines p = Some e /\ truthy e = true.
Proof.
  unfold kept_positions, decoded, keeps. rewrite in_map_iff. split.
  - intros ([i line] & <- & Hin). apply filter_In in Hin.
    destruct Hin as [Hin Hk]. apply enumerate_In in Hin. cbn [fst snd] in *.
    rewrite Hin. destruct (parse line) as [e|]; [|discriminate]. eauto.
  - intros (e & Hd & Ht).
    destruct (nth_error lines p) as [line|] eqn:Hl; [|discriminate].
    exists (p, line). split; [reflexivity|]. apply filter_In.
    split; [apply enumerate_In; exact Hl|]. cbn [snd]. rewrite Hd. exact Ht.
Qed.

End CollectIndex.

Section CollectTotal.

Import SummarizeSession.

Variable json_loads : string -> option json.

(** A loop whose body returns on the items it meets returns. *)
Lemma for_each_total {A St : Type} (body : St -> A -> py St) (P : A -> Prop)
  (l : list A) :
  (forall s x, P x -> exists s', body s x = Ok s') ->
  Forall P l ->
  forall s, exists s', for_each l body s = Ok s'.
Proof.
  intros Hbody Hall. induction Hall as [|x l Hx _ IH]; intros s; simpl.
  - eexists. reflexivity.
  - destruct (Hbody s x Hx) as (s1 & ->). cbn [bind]. apply IH.
Qed.

(** A field that is a string when present is hashable when defaulted to
    [None]. *)
Lemma str_field_hashable (b : json) (k : string) :
  isinstance_str (field b k (JStr "")) = true ->
  hashable (field b k JNull) = true.
Proof.
  unfold field. destruct b; try reflexivity.
  destruct (dict_lookup k d) as [v|]; [|reflexivity].
  destruct v; simpl; intros H; try discriminate; reflexivity.
Qed.

Lemma assistant_block_total (idx : nat) (c : collected) (b : json) :
  block_ok b = true -> exists c', assistant_block idx c b = Ok c'.
Proof.
  intros Hb. pose proof (block_ok_dict b Hb) as Hd.
  pose proof (block_ok_input b Hb) as Hin.
  unfold block_ok in Hb.
  repeat (apply andb_prop in Hb; destruct Hb as [Hb ?]).
  unfold assistant_block.
  rewrite (py_get_dict b "type" JNull Hd). cbn [bind].
  destruct (is_str (field b "type" JNull) "thinking").
  { rewrite (py_get_dict b "thinking" (JStr "") Hd). cbn [bind].
    destruct (field b "thinking" (JStr "")); try discriminate.
    cbn. eexists. reflexivity. }
  destruct (is_str (field b "type" JNull) "text").
  { rewrite (py_get_dict b "text" (JStr "") Hd). cbn [bind].
    eexists. reflexivity. }
  destruct (is_str (field b "type" JNull) "tool_use");
    [|eexists; reflexivity].
  rewrite (py_get_dict b "name" JNull Hd). cbn [bind].
  rewrite (py_get_dict b "input" (JDict []) Hd). cbn [bind].
  unfold count_tool. rewrite (str_field_hashable b "name") by assumption.
  cbn [bind]. rewrite (py_get_dict b "id" JNull Hd). cbn [bind].
  destruct (is_str (field b "name" JNull) "Bash"); cbn [bind];
    [|eexists; reflexivity].
  rewrite (py_get_dict _ "command" (JStr "") Hin). cbn [bind].
  destruct (field (field b "input" (JDict [])) "command" (JStr ""));
    try discriminate.
  cbn [py_startswith bind].
  destruct (Str.startswith "bd " s); cbn [bind py_in].
  - eexists. reflexivity.
  - destruct (Str.contains " bd " s); eexists; reflexivity.
Qed.

Lemma user_block_total (c : collected) (b : json) :
  is_dict b = true -> exists c', user_block c b = Ok c'.
Proof.
  intros Hd. unfold user_block.
  rewrite (py_get_dict b "type" JNull Hd). cbn [bind].
  destruct (is_str (field b "type" JNull) "tool_result");
    [|eexists; reflexivity].
  rewrite (py_get_dict b "is_error" (JBool false) Hd). cbn [bind].
  destruct (truthy _); eexists; reflexivity.
Qed.

Lemma collect_line_total (c : collected) (idx : nat) (line : string) :
  (forall e, parse_event json_loads line = Some e ->
             truthy e = true -> event_ok e = true) ->
  exists c', collect_line json_loads c (idx, line) = Ok c'.
Proof.
  intros Hok. unfold collect_line.
  destruct (parse_event json_loads line) as [e|]; [|eexists; reflexivity].
  destruct (truthy e) eqn:Ht; cbn [negb]; [|eexists; reflexivity].
  specialize (Hok e eq_refl Ht).
  pose proof (event_ok_dict e Hok) as Hd.
  pose proof (event_ok_message e Hok) as Hm.
  pose proof (event_ok_content e Hok) as Hc.
  pose proof (event_ok_blocks e Hok) as Hb.
  rewrite (py_get_dict e "type" JNull Hd). cbn [bind].
  destruct (is_str (field e "type" JNull) "loop_meta").
  { rewrite (py_get_dict e "event" JNull Hd). cbn [bind].
    destruct (is_str (field e "event" JNull) "iteration_start");
      cbn [bind]; [|eexists; reflexivity].
    unfold event_ok in Hok.
    apply andb_prop in Hok. destruct Hok as [Hok Hissue].
    apply andb_prop in Hok. destruct Hok as [_ Hdata].
    rewrite (py_get_dict e "data" (JDict []) Hd). cbn [bind].
    rewrite (py_get_dict _ "issue_id" JNull Hdata). cbn [bind].
    destruct (truthy (field (field e "data" (JDict [])) "issue_id" JNull));
      cbn [bind]; [|eexists; reflexivity].
    unfold add_issue. rewrite (str_field_hashable _ _ Hissue).
    cbn [bind]. eexists. reflexivity. }
  destruct (is_str (field e "type" JNull) "system"); [eexists; reflexivity|].
  destruct (is_str (field e "type" JNull) "assistant").
  - rewrite (py_get_dict e "message" (JDict []) Hd). cbn [bind].
    rewrite (py_get_dict _ "content" (JList []) Hm). cbn [bind]. rewrite Hc.
    apply (for_each_total (assistant_block idx)
             (fun b => block_ok b = true)); [|exact Hb].
    intros s b Hbk. apply assistant_block_total. exact Hbk.
  - destruct (is_str (field e "type" JNull) "user"); [|eexists; reflexivity].
    rewrite (py_get_dict e "message" (JDict []) Hd). cbn [bind].
    rewrite (py_get_dict _ "content" (JList []) Hm). cbn [bind]. rewrite Hc.
    apply (for_each_total user_block (fun b => is_dict b = true));
      [|exact (Forall_block_dict _ Hb)].
    intros s b Hbd. apply user_block_total. exact Hbd.
Qed.

(** The collecting loop returns when every kept line is a well-shaped
    record. *)
Lemma collect_total (lines : list string) :
  (forall line e,
     In line lines -> parse_event json_loads line = Some e ->
     truthy e = true -> event_ok e = true) ->
  exists c, collect json_loads lines = Ok c.
Proof.
  intros Hok. unfold collect.
  apply (for_each_total (collect_line json_loads)
           (fun il => forall e,
              parse_event json_loads (snd il) = Some e ->
              truthy e = true -> event_ok e = true)).
  - intros s [idx line] H. apply collect_line_total. exact H.
  - apply Forall_forall. intros [idx line] Hin e He Ht.
    apply enumerate_In in Hin. apply (Hok line e); auto.
    eapply nth_error_In. exact Hin.
Qed.

End CollectTotal.

Section CollectLists.

Import SummarizeSession.

Variable json_loads : string -> option json.

(** What one block of an assistant event adds, exactly. *)
Lemma assistant_block_adds (idx : nat) (c c' : collected) (b : json) :
  assistant_block idx c b = Ok c' ->
  tool_events c'
  = tool_events c ++ (if is_tool_use b then [as_tool_event idx b] else [])
  /\ thoughts c'
     = thoughts c ++ (if is_text b then [thought_of idx b] else [])
  /\ thinking_blocks c'
     = thinking_blocks c ++ (if is_thinking b then [thinking_of idx b] else []).
Proof.
  unfold assistant_block, is_tool_use, is_text, is_thinking. intros H.
  step_bind H. apply py_get_ok in E. destruct E as [Hd ->].
  destruct (is_str (field b "type" JNull) "thinking") eqn:Hk.
  { apply is_str_eq in Hk. rewrite Hk. do 2 step_bind H.
    apply py_get_ok in E. destruct E as [_ ->].
    injection H as <-. cbn [tool_events thoughts thinking_blocks].
    change (is_str (JStr "thinking") "tool_use") with false.
    change (is_str (JStr "thinking") "text") with false. cbn iota.
    rewrite !app_nil_r. split; [reflexivity|]. split; [reflexivity|].
    unfold thinking_of, first200.
    destruct (field b "thinking" (JStr "")); try discriminate;
      cbn [py_slice_to] in E0; injection E0 as <-; reflexivity. }
  destruct (is_str (field b "type" JNull) "text") eqn:Ht.
  { apply is_str_eq in Ht. rewrite Ht. step_bind H.
    apply py_get_ok in E. destruct E as [_ ->].
    injection H as <-. cbn [tool_events thoughts thinking_blocks].
    change (is_str (JStr "text") "tool_use") with false. cbn iota.
    rewrite !app_nil_r. auto. }
  destruct (is_str (field b "type" JNull) "tool_use").
  - do 5 step_bind H. injection H as <-.
    cbn [tool_events thoughts thinking_blocks].
    apply py_get_ok in E. destruct E as [_ ->].
    apply py_get_ok in E0. destruct E0 as [_ ->].
    apply py_get_ok in E2. destruct E2 as [_ ->].
    rewrite !app_nil_r. auto.
  - injection H as <-. rewrite !app_nil_r. auto.
Qed.

Lemma assistant_blocks_add (idx : nat) (blocks : list json)
  (c c' : collected) :
  for_each blocks (assistant_block idx) c = Ok c' ->
  tool_events c'
  = tool_events c ++ map (as_tool_event idx) (filter is_tool_use blocks)
  /\ thoughts c' = thoughts c ++ map (thought_of idx) (filter is_text blocks)
  /\ thinking_blocks c'
     = thinking_blocks c ++ map (thinking_of idx) (filter is_thinking blocks).
Proof.
  revert c. induction blocks as [|b blocks IH]; intros c H; simpl in H.
  - injection H as <-. cbn. rewrite !app_nil_r. auto.
  - step_bind H. destruct (IH a H) as (H1 & H2 & H3).
    destruct (assistant_block_adds idx c a b E) as (A1 & A2 & A3).
    rewrite H1, H2, H3, A1, A2, A3. cbn [filter].
    destruct (is_tool_use b), (is_text b), (is_thinking b);
      cbn [map]; rewrite <- !app_assoc; cbn [app]; auto.
Qed.

Lemma collect_line_adds (c c' : collected) (idx : nat) (line : string) :
  collect_line json_loads c (idx, line) = Ok c' ->
  tool_events c'
  = tool_events c ++ line_tool_events (parse_event json_loads) (idx, line)
  /\ thoughts c'
     = thoughts c ++ line_thoughts (parse_event json_loads) (idx, line)
  /\ thinking_blocks c'
     = thinking_blocks c ++ line_thinking (parse_event json_loads) (idx, line).
Proof.
  unfold collect_line, line_tool_events, line_thoughts, line_thinking,
    assistant_blocks. cbn [fst snd]. intros H.
  assert (Hsame :
    forall c0 : collected,
      tool_events c0 = tool_events c ->
      thoughts c0 = thoughts c ->
      thinking_blocks c0 = thinking_blocks c ->
      tool_events c0 = tool_events c ++ []
      /\ thoughts c0 = thoughts c ++ []
      /\ thinking_blocks c0 = thinking_blocks c ++ []).
  { intros c0 H1 H2 H3. rewrite !app_nil_r. auto. }
  destruct (parse_event json_loads line) as [e|];
    [|injection H as <-; apply Hsame; reflexivity].
  destruct (truthy e); cbn [negb andb] in *;
    [|injection H as <-; apply Hsame; reflexivity].
  step_bind H. apply py_get_ok in E. destruct E as [Hd ->].
  destruct (is_str (field e "type" JNull) "loop_meta") eqn:Hl.
  { apply is_str_eq in Hl. rewrite Hl. do 2 step_bind H.
    injection H as <-. apply Hsame; reflexivity. }
  destruct (is_str (field e "type" JNull) "system") eqn:Hs.
  { apply is_str_eq in Hs. rewrite Hs. injection H as <-.
    apply Hsame; reflexivity. }
  destruct (is_str (field e "type" JNull) "assistant").
  - do 2 step_bind H.
    apply py_get_ok in E. destruct E as [_ ->].
    apply py_get_ok in E0. destruct E0 as [_ ->].
    unfold blocks_of.
    destruct (field (field e "message" (JDict [])) "content" (JList []));
      try (injection H as <-; apply Hsame; reflexivity).
    exact (assistant_blocks_add idx l c c' H).
  - destruct (is_str (field e "type" JNull) "user");
      [|injection H as <-; apply Hsame; reflexivity].
    do 2 step_bind H.
    destruct a0; try (injection H as <-; apply Hsame; reflexivity).
    destruct (user_blocks_shape l c c' H) as (H1 & H2 & H3).
    apply Hsame; assumption.
Qed.

Lemma collect_adds_from (lines : list string) (n : nat) (c c' : collected) :
  for_each (enumerate_from n lines) (collect_line json_loads) c = Ok c' ->
  tool_events c'
  = tool_events c
    ++ flat_map (line_tool_events (parse_event json_loads))
         (enumerate_from n lines)
  /\ thoughts c'
     = thoughts c
       ++ flat_map (line_thoughts (parse_event json_loads))
            (enumerate_from n lines)
  /\ thinking_blocks c'
     = thinking_blocks c
       ++ flat_map (line_thinking (parse_event json_loads))
            (enumerate_from n lines).
Proof.
  revert n c. induction lines as [|line lines IH]; intros n c H;
    cbn [enumerate_from for_each flat_map] in *.
  - injection H as <-. rewrite !app_nil_r. auto.
  - step_bind H. destruct (IH _ _ H) as (H1 & H2 & H3).
    destruct (collect_line_adds c a n line E) as (A1 & A2 & A3).
    rewrite H1, H2, H3, A1, A2, A3, <- !app_assoc. auto.
Qed.

End CollectLists.

(** C2, as amended.  In [analyze_stuck_points.py] the events are the kept
    lines in file order, and the index a detector sees for an event
    ([enumerate(events)]) is its rank among the kept lines: 0, 1, 2, ...
    with no gap.  In [summarize_session.py] the index recorded with a tool
    event or a thought is the position of its line in the file (dropped
    lines are counted, so gaps appear): the recorded tool events, thoughts
    and thinking blocks are, line after line in file order, the ones of
    the blocks of that line, each stamped with the position of the line.
    So the recorded indices never decrease, and every one is the position
    of a kept line.  The collecting loop returns whenever the kept lines
    are well-shaped records. *)
Theorem event_indices (json_loads : string -> option json)
  (lines : list string) :
  let stuck := AnalyzeStuckPoints.parse_event json_loads in
  let summ := SummarizeSession.parse_event json_loads in
  let events := AnalyzeStuckPoints.extract_events json_loads lines in
  map Some events = map (decoded stuck lines) (kept_positions stuck lines)
  /\ map fst (enumerate events)
     = seq 0 (List.length (kept_positions stuck lines))
  /\ StronglySorted lt (kept_positions stuck lines)
  /\ (forall c,
        SummarizeSession.collect json_loads lines = Ok c ->
        (Sorted le (map SummarizeSession.index (SummarizeSession.tool_events c))
         /\ Forall (fun ev =>
                      In (SummarizeSession.index ev) (kept_positions summ lines)
                      /\ from_line summ lines ev)
              (SummarizeSession.tool_events c))
        /\ (Sorted le
              (map SummarizeSession.note_index (SummarizeSession.thoughts c))
            /\ Forall (fun x =>
                         In (SummarizeSession.note_index x)
                           (kept_positions summ lines))
                 (SummarizeSession.thoughts c))
        /\ (Sorted le
              (map SummarizeSession.note_index
                 (SummarizeSession.thinking_blocks c))
            /\ Forall (fun x =>
                         In (SummarizeSession.note_index x)
                           (kept_positions summ lines))
                 (SummarizeSession.thinking_blocks c))
        /\ (SummarizeSession.tool_events c
            = flat_map (line_tool_events summ) (enumerate lines)
            /\ SummarizeSession.thoughts c
               = flat_map (line_thoughts summ) (enumerate lines)
            /\ SummarizeSession.thinking_blocks c
               = flat_map (line_thinking summ) (enumerate lines)))
  /\ ((forall line e,
         In line lines -> summ line = Some e -> truthy e = true ->
         event_ok e = true) ->
      exists c, SummarizeSession.collect json_loads lines = Ok c).
Proof.
  intros stuck summ events. split; [|split; [|split; [|split]]].
  - unfold events, stuck. rewrite extract_events_filter.
    symmetry. apply kept_positions_decoded.
  - unfold enumerate. rewrite enumerate_from_fst. f_equal.
    apply kept_positions_length.
  - exact (proj1 (kept_from_sorted stuck lines 0)).
  - intros c Hc.
    destruct (collect_index_inv json_loads lines c Hc)
      as ((Hse & Hfe) & (Hst & Hft) & (Hsk & Hfk)).
    split; [split; [exact Hse|]|split; [split; [exact Hst|]|
                                        split; [split; [exact Hsk|]|]]].
    + eapply Forall_impl; [|exact Hfe]. simpl.
      intros ev [_ Hfrom]. split; [|exact Hfrom].
      destruct Hfrom as (e & b & Hd & Ht & _).
      apply kept_positions_In. eauto.
    + eapply Forall_impl; [|exact Hft]. simpl.
      intros x [_ Hfrom]. apply kept_positions_In. exact Hfrom.
    + eapply Forall_impl; [|exact Hfk]. simpl.
      intros x [_ Hfrom]. apply kept_positions_In. exact Hfrom.
    + exact (collect_adds_from json_loads lines 0 SummarizeSession.empty c Hc).
  - apply collect_total.
Qed.

(** C2, as stated, fails: of the two lines only the second decodes, so it
    is the first non-dropped line (position 0 in [extract_events]), yet
    [summarize_session] records its tool event with index 1. *)
Lemma summarize_index_is_line_number :
  AnalyzeStuckPoints.extract_events Json.loads IndexSample.lines
  = [LookupSample.call "t1" "ls"]
  /\ map fst
       (enumerate (AnalyzeStuckPoints.extract_events Json.loads IndexSample.lines))
     = [0]
  /\ kept_positions (SummarizeSession.parse_event Json.loads) IndexSample.lines
     = [1]
  /\ exists c,
       SummarizeSession.collect Json.loads IndexSample.lines = Ok c
       /\ map SummarizeSession.index (SummarizeSession.tool_events c) = [1].
Proof.
  split; [vm_compute; reflexivity|]. split; [vm_compute; reflexivity|].
  split; [vm_compute; reflexivity|].
  eexists. split; vm_compute; reflexivity.
Qed.

(** * Further properties of the scripts *)

(** ** The repair loop of [parse_event] *)

Section RepairFacts.

Variable json_loads : string -> option json.

Lemma drop_lasts_S (k : nat) (s : string) :
  drop_lasts (S k) s = Str.drop_last (drop_lasts k s).
Proof.
  revert s. induction k as [|k IH]; intros s; [reflexivity|].
  change (drop_lasts (S (S k)) s) with (drop_lasts (S k) (Str.drop_last s)).
  rewrite IH. reflexivity.
Qed.

(** What the repair loop returns is a decoding of the line without some
    of its trailing braces, at most [budget] of them. *)
Lemma strip_braces_sound (budget : nat) :
  forall (s : string) (v : json),
    AnalyzeStuckPoints.strip_braces json_loads budget s = Some v ->
    exists k,
      1 <= k <= budget
      /\ json_loads (drop_lasts k s) = Some v
      /\ (forall j, j < k -> Str.endswith "}" (drop_lasts j s) = true)
      /\ (forall j, 1 <= j < k -> json_loads (drop_lasts j s) = None).
Proof.
  induction budget as [|budget IH]; intros s v H;
    cbn [AnalyzeStuckPoints.strip_braces] in H; [discriminate|].
  destruct (Str.endswith "}" s) eqn:He.
  - destruct (json_loads (Str.drop_last s)) as [w|] eqn:Hw.
    + injection H as <-. exists 1. split; [lia|]. split; [exact Hw|].
      split.
      * intros j Hj. assert (j = 0) as -> by lia. exact He.
      * intros j Hj. lia.
    + destruct (IH _ _ H) as (k & Hk & Hv & Hends & Hnone).
      exists (S k). split; [lia|]. split; [exact Hv|]. split.
      * intros [|j] Hj; [exact He|]. apply Hends. lia.
      * intros [|j] Hj; [lia|]. destruct j as [|j]; [exact Hw|].
        apply (Hnone (S j)). lia.
  - destruct (IH _ _ H) as (k & Hk & _ & Hends & _).
    specialize (Hends 0 ltac:(lia)). simpl in Hends. congruence.
Qed.

(** The loop finds the first decodable line among the ones with one, two,
    ... trailing braces removed. *)
Lemma strip_braces_complete (budget : nat) :
  forall (s : string) (v : json) (k : nat),
    1 <= k <= budget ->
    json_loads (drop_lasts k s) = Some v ->
    (forall j, j < k -> Str.endswith "}" (drop_lasts j s) = true) ->
    (forall j, 1 <= j < k -> json_loads (drop_lasts j s) = None) ->
    AnalyzeStuckPoints.strip_braces json_loads budget s = Some v.
Proof.
  induction budget as [|budget IH]; intros s v k Hk Hv Hends Hnone; [lia|].
  cbn [AnalyzeStuckPoints.strip_braces].
  pose proof (Hends 0 ltac:(lia)) as H0.
  change (drop_lasts 0 s) with s in H0. rewrite H0.
  destruct (Nat.eq_dec k 1) as [->|Hne].
  - change (drop_lasts 1 s) with (Str.drop_last s) in Hv.
    rewrite Hv. reflexivity.
  - pose proof (Hnone 1 ltac:(lia)) as H1.
    change (drop_lasts 1 s) with (Str.drop_last s) in H1. rewrite H1.
    destruct k as [|k]; [lia|].
    apply (IH _ v k); [lia|exact Hv| |].
    + intros j Hj. apply (Hends (S j)). lia.
    + intros j Hj. apply (Hnone (S j)). lia.
Qed.

End RepairFacts.

(** X1.  Whatever the decoder of [analyze_stuck_points.py] returns for a
    line is what [json.loads] returns for the stripped line with its last
    [k] characters removed, for some [k] of at most three; the removed
    characters are closing braces, and no shorter removal decodes. *)
Theorem parse_event_repair_sound (json_loads : string -> option json)
  (line : string) (v : json) :
  AnalyzeStuckPoints.parse_event json_loads line = Some v ->
  exists k,
    k <= 3
    /\ json_loads (drop_lasts k (Str.strip line)) = Some v
    /\ (forall j, j < k ->
          Str.endswith "}" (drop_lasts j (Str.strip line)) = true
          /\ json_loads (drop_lasts j (Str.strip line)) = None).
Proof.
  unfold AnalyzeStuckPoints.parse_event. intros H.
  destruct (Str.is_empty (Str.strip line)); [discriminate|].
  destruct (json_loads (Str.strip line)) as [w|] eqn:Hw.
  - injection H as <-. exists 0. split; [lia|]. split; [exact Hw|].
    intros j Hj. lia.
  - destruct (strip_braces_sound json_loads 3 _ _ H)
      as (k & Hk & Hv & Hends & Hnone).
    exists k. split; [lia|]. split; [exact Hv|].
    intros j Hj. split; [apply Hends; exact Hj|].
    destruct j as [|j]; [exact Hw|apply Hnone; lia].
Qed.

Lemma parse_event_repair_sound_witness :
  AnalyzeStuckPoints.parse_event Json.loads RepairSample.one_extra
  = Some FlowSample.system_init
  /\ exists k,
       k <= 3
       /\ Json.loads (drop_lasts k (Str.strip RepairSample.one_extra))
          = Some FlowSample.system_init.
Proof.
  assert (H : AnalyzeStuckPoints.parse_event Json.loads RepairSample.one_extra
              = Some FlowSample.system_init) by (vm_compute; reflexivity).
  split; [exact H|].
  destruct (parse_event_repair_sound Json.loads RepairSample.one_extra
              FlowSample.system_init H) as (k & Hk & Hv & _).
  exists k. split; [exact Hk|exact Hv].
Defined.

(** X2.  The repair budget is three braces.  When the stripped line does
    not decode, but does after its last [k] closing braces are removed
    ([k] from 1 to 3, and no fewer will do), the decoder returns that
    value; when none of the four candidates decodes, the line is
    dropped. *)
Theorem parse_event_repair_budget (json_loads : string -> option json)
  (line : string) :
  Str.is_empty (Str.strip line) = false ->
  (forall v k,
     1 <= k <= 3 ->
     json_loads (drop_lasts k (Str.strip line)) = Some v ->
     (forall j, j < k ->
        Str.endswith "}" (drop_lasts j (Str.strip line)) = true
        /\ json_loads (drop_lasts j (Str.strip line)) = None) ->
     AnalyzeStuckPoints.parse_event json_loads line = Some v)
  /\ ((forall k, k <= 3 ->
         json_loads (drop_lasts k (Str.strip line)) = None) ->
      AnalyzeStuckPoints.parse_event json_loads line = None).
Proof.
  intros Hne. unfold AnalyzeStuckPoints.parse_event. rewrite Hne. split.
  - intros v k Hk Hv Hbefore.
    pose proof (proj2 (Hbefore 0 ltac:(lia))) as H0.
    change (drop_lasts 0 (Str.strip line)) with (Str.strip line) in H0.
    rewrite H0.
    apply (strip_braces_complete json_loads 3 _ v k Hk Hv).
    + intros j Hj. apply Hbefore. exact Hj.
    + intros j Hj. apply Hbefore. lia.
  - intros Hnone. pose proof (Hnone 0 ltac:(lia)) as H0.
    change (drop_lasts 0 (Str.strip line)) with (Str.strip line) in H0.
    rewrite H0.
    destruct (AnalyzeStuckPoints.strip_braces json_loads 3 (Str.strip line))
      as [v|] eqn:Hs; [|reflexivity].
    destruct (strip_braces_sound json_loads 3 _ _ Hs) as (k & Hk & Hv & _).
    rewrite Hnone in Hv by lia. discriminate.
Qed.

Lemma parse_event_repair_budget_witness :
  Str.is_empty (Str.strip RepairSample.four_extra) = false
  /\ Json.loads (drop_lasts 4 (Str.strip RepairSample.four_extra))
     = Some FlowSample.system_init
  /\ AnalyzeStuckPoints.parse_event Json.loads RepairSample.four_extra = None.
Proof.
  split; [reflexivity|]. split; [vm_compute; reflexivity|].
  apply (parse_event_repair_budget Json.loads RepairSample.four_extra eq_refl).
  intros k Hk.
  do 4 (destruct k as [|k]; [vm_compute; reflexivity|]). lia.
Defined.

(** ** The decoders side by side *)

Lemma endswith_two_braces (s : string) :
  Str.endswith "}}" s = true -> Str.endswith "}" s = true.
Proof.
  unfold Str.endswith.
  change (Str.rev "}}") with "}}". change (Str.rev "}") with "}".
  destruct (Str.rev s) as [|c r]; cbn [Str.startswith]; [auto|].
  destruct (Ascii.eqb "}" c); cbn [andb]; [reflexivity|auto].
Qed.

(** X3.  The decoder of [analyze_stuck_points.py] keeps every line that
    the decoder of [summarize_session.py] (the same code as in
    [analyze_flow.py]) keeps; when the line does not decode as it is, the
    two return the same value. *)
Theorem stuck_points_decoder_keeps_more (json_loads : string -> option json)
  (line : string) (v : json) :
  SummarizeSession.parse_event json_loads line = Some v ->
  AnalyzeFlow.parse_event json_loads line = Some v
  /\ exists w,
       AnalyzeStuckPoints.parse_event json_loads line = Some w
       /\ (json_loads (Str.strip line) = None -> w = v).
Proof.
  intros H. split; [exact H|].
  unfold SummarizeSession.parse_event in H.
  unfold AnalyzeStuckPoints.parse_event.
  destruct (Str.is_empty (Str.strip line)); [discriminate|].
  destruct (json_loads (Str.strip line)) as [w|] eqn:Hw.
  - exists w. split; [reflexivity|discriminate].
  - exists v. split; [|reflexivity].
    destruct (Str.endswith "}}" (Str.strip line)
              && Str.contains (Str.dq "loop_meta") (Str.strip line)) eqn:Hc;
      [|congruence].
    apply andb_prop in Hc. destruct Hc as [He _].
    cbn [AnalyzeStuckPoints.strip_braces].
    rewrite (endswith_two_braces _ He), H. reflexivity.
Qed.

Lemma stuck_points_decoder_keeps_more_witness :
  let line := (Sample.iteration_start_line ++ "}")%string in
  SummarizeSession.parse_event Json.loads line = Some Sample.iteration_start
  /\ exists w, AnalyzeStuckPoints.parse_event Json.loads line = Some w.
Proof.
  intros line.
  assert (H : SummarizeSession.parse_event Json.loads line
              = Some Sample.iteration_start) by (vm_compute; reflexivity).
  split; [exact H|].
  destruct (stuck_points_decoder_keeps_more Json.loads line
              Sample.iteration_start H) as (_ & w & Hw & _).
  exists w. exact Hw.
Defined.

(** ** Blank lines *)

Lemma lstrip_all_space (s : string) :
  all_space s = true -> Str.lstrip s = EmptyString.
Proof.
  induction s as [|c s IH]; simpl; [reflexivity|].
  destruct (Str.is_space c); [exact IH|discriminate].
Qed.

Lemma lstrip_not_all_space (s : string) :
  all_space s = false ->
  exists c r, Str.lstrip s = String c r /\ Str.is_space c = false.
Proof.
  induction s as [|c s IH]; simpl; [discriminate|].
  destruct (Str.is_space c) eqn:Hc; [exact IH|].
  intros _. exists c, s. auto.
Qed.

Lemma all_space_rev_onto (s acc : string) :
  all_space (Str.rev_onto s acc) = all_space s && all_space acc.
Proof.
  revert acc. induction s as [|c s IH]; intros acc; simpl; [reflexivity|].
  rewrite IH. simpl.
  destruct (Str.is_space c), (all_space s), (all_space acc); reflexivity.
Qed.

Lemma is_empty_rev_onto (s acc : string) :
  Str.is_empty (Str.rev_onto s acc) = Str.is_empty s && Str.is_empty acc.
Proof.
  revert acc. induction s as [|c s IH]; intros acc; simpl; [reflexivity|].
  rewrite IH. simpl. apply andb_false_r.
Qed.

(** Stripping leaves nothing exactly when the line is whitespace only. *)
Lemma strip_empty (s : string) :
  Str.is_empty (Str.strip s) = all_space s.
Proof.
  unfold Str.strip, Str.rev.
  destruct (all_space s) eqn:Hs.
  - rewrite (lstrip_all_space s Hs). reflexivity.
  - destruct (lstrip_not_all_space s Hs) as (c & r & -> & Hc).
    assert (Hr : all_space (Str.rev_onto (String c r) "") = false).
    { rewrite all_space_rev_onto. simpl. rewrite Hc.
      destruct (all_space r); reflexivity. }
    destruct (lstrip_not_all_space _ Hr) as (c' & r' & -> & _).
    rewrite is_empty_rev_onto. reflexivity.
Qed.

(** X4.  A line of whitespace only (an empty line, a lone line feed) is
    dropped by each decoder before [json.loads] is called: the result is
    [None] whatever the decoder would say. *)
Theorem blank_line_dropped (json_loads : string -> option json)
  (line : string) :
  all_space line = true ->
  AnalyzeStuckPoints.parse_event json_loads line = None
  /\ SummarizeSession.parse_event json_loads line = None
  /\ AnalyzeFlow.parse_event json_loads line = None.
Proof.
  intros H.
  unfold AnalyzeStuckPoints.parse_event, SummarizeSession.parse_event,
    AnalyzeFlow.parse_event.
  rewrite strip_empty, H. auto.
Qed.

Lemma blank_line_dropped_witness :
  let line := String "032" (String "009" (String "010" "")) in
  all_space line = true
  /\ AnalyzeStuckPoints.parse_event (fun _ => Some (JInt 1)) line = None.
Proof.
  intros line. split; [reflexivity|].
  exact (proj1 (blank_line_dropped (fun _ => Some (JInt 1)) line eq_refl)).
Defined.

(** ** Loading the events *)

(** X5.  [extract_events] works line by line: the events of two files
    read one after the other are the events of the first followed by the
    events of the second.  Every event it yields is truthy, so a line that
    decodes to [null], [0], [false], an empty string, list or object is
    dropped, and there are never more events than lines. *)
Theorem extract_events_concat (json_loads : string -> option json)
  (lines1 lines2 : list string) :
  AnalyzeStuckPoints.extract_events json_loads (lines1 ++ lines2)
  = AnalyzeStuckPoints.extract_events json_loads lines1
    ++ AnalyzeStuckPoints.extract_events json_loads lines2
  /\ Forall (fun e => truthy e = true)
       (AnalyzeStuckPoints.extract_events json_loads lines1)
  /\ List.length (AnalyzeStuckPoints.extract_events json_loads lines1)
     <= List.length lines1.
Proof.
  split; [|split].
  - induction lines1 as [|line lines1 IH]; simpl; [reflexivity|].
    destruct (AnalyzeStuckPoints.parse_event json_loads line) as [e|];
      [|exact IH].
    destruct (truthy e); [|exact IH]. simpl. rewrite IH. reflexivity.
  - induction lines1 as [|line lines1 IH]; simpl; [constructor|].
    destruct (AnalyzeStuckPoints.parse_event json_loads line) as [e|];
      [|exact IH].
    destruct (truthy e) eqn:Ht; [|exact IH]. constructor; assumption.
  - induction lines1 as [|line lines1 IH]; simpl; [lia|].
    destruct (AnalyzeStuckPoints.parse_event json_loads line) as [e|];
      [|lia].
    destruct (truthy e); simpl; lia.
Qed.

(** ** What the detectors of [analyze_stuck_points.py] can raise *)

Section RaiseFacts.

Import AnalyzeStuckPoints.

(** Destructs the first computation of a sequence that raised. *)
Ltac raise_bind H :=
  match type of H with
  | bind ?m _ = Raise _ =>
      let E := fresh "E" in
      destruct m eqn:E; cbn [bind] in H;
      [|injection H as <-]
  end.

Lemma py_get_raise (v : json) (k : string) (default : json) (e : pyexc) :
  py_get v k default = Raise e -> e = AttributeError.
Proof. destruct v; simpl; intros H; try discriminate; congruence. Qed.

Lemma py_get_not_dict (v : json) (k : string) (default : json) :
  is_dict v = false -> py_get v k default = Raise AttributeError.
Proof. destruct v; simpl; intros H; try discriminate; reflexivity. Qed.

(** A loop raises what one of its iterations raises. *)
Lemma for_each_raise {A St : Type} (P : pyexc -> Prop)
  (body : St -> A -> py St) (l : list A) :
  (forall s x e, body s x = Raise e -> P e) ->
  forall s e, for_each l body s = Raise e -> P e.
Proof.
  intros Hbody. induction l as [|x l IH]; intros s e H; simpl in H.
  - discriminate.
  - destruct (body s x) as [s1|e1] eqn:Hb; cbn [bind] in H.
    + exact (IH s1 e H).
    + injection H as <-. exact (Hbody s x e1 Hb).
Qed.

(** A loop that returns ran every iteration to its end. *)
Lemma for_each_ok_each {A St : Type} (body : St -> A -> py St) (l : list A) :
  forall s s',
    for_each l body s = Ok s' ->
    forall x, In x l -> exists s1 s2, body s1 x = Ok s2.
Proof.
  induction l as [|y l IH]; intros s s' H x Hin; [destruct Hin|].
  simpl in H. destruct (body s y) as [s1|] eqn:Hb; cbn [bind] in H;
    [|discriminate].
  destruct Hin as [<-|Hin]; [eauto|exact (IH s1 s' H x Hin)].
Qed.

Lemma match_blocks_raise (blocks : list json) (call_id : json) (e : pyexc) :
  match_blocks blocks call_id = Raise e -> e = AttributeError.
Proof.
  induction blocks as [|b blocks IH]; simpl; intros H; [discriminate|].
  raise_bind H; [|exact (py_get_raise _ _ _ _ E)].
  raise_bind H.
  - destruct a0.
    + raise_bind H; [|exact (py_get_raise _ _ _ _ E1)].
      raise_bind H; [discriminate|exact (py_get_raise _ _ _ _ E2)].
    + exact (IH H).
  - destruct (is_str a "tool_result"); [|discriminate].
    raise_bind E0; [discriminate|exact (py_get_raise _ _ _ _ E1)].
Qed.

Lemma scan_range_raise (events : list json) (call_id : json) (e : pyexc) :
  forall n k,
    (n <> 0 -> k + n <= List.length events) ->
    scan_range events call_id (seq k n) = Raise e -> e = AttributeError.
Proof.
  induction n as [|n IH]; intros k Hk H; simpl in H; [discriminate|].
  assert (Hnext : n <> 0 -> S k + n <= List.length events) by lia.
  unfold py_index in H.
  destruct (nth_error events k) as [ev|] eqn:Hev.
  2:{ apply nth_error_None in Hev. specialize (Hk ltac:(discriminate)). lia. }
  cbn [bind] in H.
  raise_bind H; [|exact (py_get_raise _ _ _ _ E)].
  destruct (negb (is_str a "user")); [exact (IH _ Hnext H)|].
  raise_bind H; [|exact (py_get_raise _ _ _ _ E0)].
  raise_bind H; [|exact (py_get_raise _ _ _ _ E1)].
  destruct a1; try exact (IH _ Hnext H).
  raise_bind H; [|exact (match_blocks_raise _ _ _ E2)].
  destruct a1; [discriminate|exact (IH _ Hnext H)].
Qed.

Lemma find_tool_result_raise (events : list json) (call_id : json)
  (start_idx : nat) (e : pyexc) :
  find_tool_result events call_id start_idx = Raise e -> e = AttributeError.
Proof.
  unfold find_tool_result, range. apply scan_range_raise. lia.
Qed.

Lemma find_tool_uses_raise (event : json) (e : pyexc) :
  find_tool_uses event = Raise e -> e = AttributeError.
Proof.
  unfold find_tool_uses. intros H.
  raise_bind H; [|exact (py_get_raise _ _ _ _ E)].
  destruct (negb (is_str a "assistant")); [discriminate|].
  raise_bind H; [|exact (py_get_raise _ _ _ _ E0)].
  raise_bind H; [|exact (py_get_raise _ _ _ _ E1)].
  destruct a1; try discriminate.
  revert H. apply (for_each_raise (fun x => x = AttributeError)). intros s b e0 Hb.
  raise_bind Hb; [|exact (py_get_raise _ _ _ _ E2)].
  destruct (is_str a1 "tool_use"); [|discriminate].
  raise_bind Hb; [|exact (py_get_raise _ _ _ _ E3)].
  raise_bind Hb; [|exact (py_get_raise _ _ _ _ E4)].
  raise_bind Hb; [discriminate|exact (py_get_raise _ _ _ _ E5)].
Qed.

Lemma bash_sequences_step_raise (events : list json) (st : seq_state)
  (ie : nat * json) (e : pyexc) :
  bash_sequences_step events st ie = Raise e -> e = AttributeError.
Proof.
  destruct ie as [i event]. unfold bash_sequences_step. intros H.
  raise_bind H; [|exact (find_tool_uses_raise _ _ E)].
  destruct (filter is_bash a) as [|t ts].
  - destruct (5 <=? List.length (current_seq st))%nat; discriminate.
  - raise_bind H; [discriminate|].
    revert E0. apply (for_each_raise (fun x => x = AttributeError)). intros s x err Hx.
    raise_bind Hx; [|exact (find_tool_result_raise _ _ _ _ E0)].
    raise_bind Hx; [discriminate|exact (py_get_raise _ _ _ _ E1)].
Qed.

Lemma analyze_bash_sequences_raise (events : list json) (e : pyexc) :
  analyze_bash_sequences events = Raise e -> e = AttributeError.
Proof.
  unfold analyze_bash_sequences. intros H.
  raise_bind H.
  - destruct (5 <=? List.length (current_seq a))%nat; discriminate.
  - revert E. apply (for_each_raise (fun x => x = AttributeError)). intros s x err.
    apply bash_sequences_step_raise.
Qed.

Lemma extract_events_In (json_loads : string -> option json)
  (lines : list string) (line : string) (v : json) :
  In line lines ->
  parse_event json_loads line = Some v ->
  truthy v = true ->
  In v (extract_events json_loads lines).
Proof.
  intros Hin Hp Ht. induction lines as [|l lines IH]; [destruct Hin|].
  simpl. destruct Hin as [->|Hin].
  - rewrite Hp, Ht. left. reflexivity.
  - specialize (IH Hin).
    destruct (parse_event json_loads l) as [e|]; [|exact IH].
    destruct (truthy e); [right|]; exact IH.
Qed.

End RaiseFacts.

(** X6.  [find_tool_result] never indexes past the end of the transcript:
    the only exception it can raise is the [AttributeError] of [.get] on a
    record that is not an object, and a start index at or past the end
    gives [None]. *)
Theorem find_tool_result_in_bounds (events : list json) (call_id : json)
  (start_idx : nat) :
  (forall e,
     AnalyzeStuckPoints.find_tool_result events call_id start_idx = Raise e ->
     e = AttributeError)
  /\ (List.length events <= start_idx ->
      AnalyzeStuckPoints.find_tool_result events call_id start_idx = Ok None).
Proof.
  split; [intros e; apply find_tool_result_raise|].
  intros Hlen. unfold AnalyzeStuckPoints.find_tool_result, range.
  replace (Nat.min (start_idx + 10) (List.length events) - start_idx)
    with 0 by lia.
  reflexivity.
Qed.

(** X7.  A line that decodes to a truthy value that is not an object (a
    number, a non-empty string or list) is kept by [extract_events], and
    [analyze_bash_sequences] then raises [AttributeError] on the
    transcript; it raises nothing else on any transcript. *)
Theorem non_object_line_raises (json_loads : string -> option json)
  (lines : list string) (line : string) (v : json) :
  In line lines ->
  AnalyzeStuckPoints.parse_event json_loads line = Some v ->
  truthy v = true ->
  is_dict v = false ->
  AnalyzeStuckPoints.analyze_bash_sequences
    (AnalyzeStuckPoints.extract_events json_loads lines)
  = Raise AttributeError
  /\ forall events e,
       AnalyzeStuckPoints.analyze_bash_sequences events = Raise e ->
       e = AttributeError.
Proof.
  intros Hin Hp Ht Hd. split; [|exact analyze_bash_sequences_raise].
  pose proof (extract_events_In json_loads lines line v Hin Hp Ht) as Hv.
  destruct (AnalyzeStuckPoints.analyze_bash_sequences
              (AnalyzeStuckPoints.extract_events json_loads lines))
    as [seqs|e] eqn:Hrun.
  - exfalso. unfold AnalyzeStuckPoints.analyze_bash_sequences in Hrun.
    step_bind Hrun.
    apply In_nth_error in Hv. destruct Hv as (i & Hi).
    apply enumerate_In in Hi.
    destruct (for_each_ok_each _ _ _ _ E (i, v) Hi) as (s1 & s2 & Hstep).
    unfold AnalyzeStuckPoints.bash_sequences_step,
      AnalyzeStuckPoints.find_tool_uses in Hstep.
    rewrite (py_get_not_dict v "type" JNull Hd) in Hstep. discriminate.
  - rewrite (analyze_bash_sequences_raise _ e Hrun). reflexivity.
Qed.

Lemma non_object_line_raises_witness :
  let lines := [IndexSample.call_line; "5"] in
  Json.loads "5" = Some (JInt 5)
  /\ AnalyzeStuckPoints.analyze_bash_sequences
       (AnalyzeStuckPoints.extract_events Json.loads lines)
     = Raise AttributeError.
Proof.
  intros lines. split; [reflexivity|].
  apply (non_object_line_raises Json.loads lines "5" (JInt 5)).
  - right. left. reflexivity.
  - vm_compute. reflexivity.
  - reflexivity.
  - reflexivity.
Defined.

(** ** Thresholds *)

Section ThresholdFacts.

Lemma bash_sequences_step_long (events : list json)
  (st st' : AnalyzeStuckPoints.seq_state) (ie : nat * json) :
  Forall (fun s => 5 <= List.length s) (AnalyzeStuckPoints.sequences st) ->
  AnalyzeStuckPoints.bash_sequences_step events st ie = Ok st' ->
  Forall (fun s => 5 <= List.length s) (AnalyzeStuckPoints.sequences st').
Proof.
  destruct ie as [i event]. unfold AnalyzeStuckPoints.bash_sequences_step.
  intros Hall H. step_bind H.
  destruct (filter AnalyzeStuckPoints.is_bash a) as [|t ts].
  - destruct (Nat.leb_spec 5
                (List.length (AnalyzeStuckPoints.current_seq st)));
      injection H as <-; cbn; [|exact Hall].
    apply Forall_app. split; [exact Hall|]. constructor; [assumption|constructor].
  - step_bind H. injection H as <-. exact Hall.
Qed.

Lemma list_sum_snoc (l : list nat) (n : nat) :
  list_sum (l ++ [n]) = list_sum l + n.
Proof. rewrite list_sum_app. simpl. lia. Qed.

Lemma run_step_long (events : list SummarizeSession.tool_event) :
  forall st,
    Forall (fun f => 5 <= SummarizeSession.run_length f)
      (SummarizeSession.found st) ->
    let st' := fold_left SummarizeSession.run_step events st in
    Forall (fun f => 5 <= SummarizeSession.run_length f)
      (SummarizeSession.found st')
    /\ list_sum (map SummarizeSession.run_length (SummarizeSession.found st'))
       + SummarizeSession.consecutive_count st'
       <= list_sum (map SummarizeSession.run_length (SummarizeSession.found st))
          + SummarizeSession.consecutive_count st + List.length events.
Proof.
  induction events as [|ev events IH]; intros st Hall; simpl.
  - split; [exact Hall|lia].
  - set (st1 := SummarizeSession.run_step st ev).
    assert (H1 :
      Forall (fun f => 5 <= SummarizeSession.run_length f)
        (SummarizeSession.found st1)
      /\ list_sum (map SummarizeSession.run_length (SummarizeSession.found st1))
         + SummarizeSession.consecutive_count st1
         <= list_sum (map SummarizeSession.run_length (SummarizeSession.found st))
            + SummarizeSession.consecutive_count st + 1).
    { unfold st1, SummarizeSession.run_step.
      destruct (py_eq (SummarizeSession.name ev)
                  (SummarizeSession.consecutive_tool st));
        cbn [SummarizeSession.found SummarizeSession.consecutive_count].
      - split; [exact Hall|lia].
      - destruct (Nat.leb_spec 5 (SummarizeSession.consecutive_count st)).
        + split.
          * apply Forall_app. split; [exact Hall|].
            constructor; [assumption|constructor].
          * rewrite map_app. cbn [map]. rewrite list_sum_snoc.
            cbn [SummarizeSession.run_length]. lia.
        + split; [exact Hall|lia]. }
    destruct H1 as [Hall1 Hsum1].
    destruct (IH st1 Hall1) as [Hall' Hsum']. split; [exact Hall'|].
    cbv zeta in Hsum'. cbn [List.length]. lia.
Qed.

End ThresholdFacts.

(** X8.  Whatever the transcript, [analyze_bash_sequences] never returns
    a sequence of fewer than five entries. *)
Theorem bash_sequences_at_least_five (events : list json)
  (seqs : list (list AnalyzeStuckPoints.entry)) :
  AnalyzeStuckPoints.analyze_bash_sequences events = Ok seqs ->
  Forall (fun s => 5 <= List.length s) seqs.
Proof.
  unfold AnalyzeStuckPoints.analyze_bash_sequences. intros H. step_bind H.
  assert (Hall : Forall (fun s => 5 <= List.length s)
                   (AnalyzeStuckPoints.sequences a)).
  { refine (for_each_invariant
              (fun st => Forall (fun s => 5 <= List.length s)
                           (AnalyzeStuckPoints.sequences st))
              (AnalyzeStuckPoints.bash_sequences_step events)
              (enumerate events) _ _ a _ E).
    - intros s x s' Hs Hstep.
      exact (bash_sequences_step_long events s s' x Hs Hstep).
    - constructor. }
  destruct (Nat.leb_spec 5 (List.length (AnalyzeStuckPoints.current_seq a)));
    injection H as <-; [|exact Hall].
  apply Forall_app. split; [exact Hall|]. constructor; [assumption|constructor].
Qed.

Lemma bash_sequences_at_least_five_witness :
  AnalyzeStuckPoints.analyze_bash_sequences BashSample.burst
  = Ok [entries_between BashSample.burst 0 1]
  /\ Forall (fun s => 5 <= List.length s) [entries_between BashSample.burst 0 1].
Proof.
  assert (H : AnalyzeStuckPoints.analyze_bash_sequences BashSample.burst
              = Ok [entries_between BashSample.burst 0 1]) by reflexivity.
  split; [exact H|].
  exact (bash_sequences_at_least_five BashSample.burst _ H).
Defined.

Section RunFacts.

Import SummarizeSession.

Lemma py_eq_null_true (x : json) : py_eq x JNull = true -> x = JNull.
Proof. destruct x; simpl; intros H; try discriminate; reflexivity. Qed.

Lemma runs_between_bound (events : list tool_event) (ps : list nat)
  (fs : list loop_finding) :
  forall lo hi, runs_between events lo hi ps fs -> lo <= hi.
Proof.
  revert fs. induction ps as [|p ps IH]; intros [|f fs] lo hi H;
    cbn [runs_between] in H; try contradiction; [exact H|].
  destruct H as (Hlo & _ & Hrest). specialize (IH fs _ _ Hrest). lia.
Qed.

Lemma run_at_extend (seen more : list tool_event) (p : nat)
  (f : loop_finding) :
  run_at seen p f -> p + run_length f < List.length seen ->
  run_at (seen ++ more) p f.
Proof.
  intros (H5 & (first & Hfirst & Hname & Hstart) & Hmem & Hnext) Hlt.
  split; [exact H5|]. split; [|split].
  - exists first. rewrite nth_error_app1 by lia. auto.
  - intros j Hj. destruct (Hmem j Hj) as (ev & Hev & Heq).
    exists ev. rewrite nth_error_app1 by lia. auto.
  - rewrite nth_error_app1 by lia. exact Hnext.
Qed.

Lemma runs_between_extend (seen more : list tool_event) (ps : list nat)
  (fs : list loop_finding) :
  forall lo hi,
    runs_between seen lo hi ps fs -> hi < List.length seen ->
    runs_between (seen ++ more) lo hi ps fs.
Proof.
  revert fs. induction ps as [|p ps IH]; intros [|f fs] lo hi H Hhi;
    cbn [runs_between] in *; try contradiction; [exact H|].
  destruct H as (Hlo & Hrun & Hrest).
  pose proof (runs_between_bound _ _ _ _ _ Hrest) as Hb.
  split; [exact Hlo|]. split; [apply run_at_extend; [exact Hrun|lia]|].
  apply IH; assumption.
Qed.

Lemma runs_between_weaken (events : list tool_event) (ps : list nat)
  (fs : list loop_finding) :
  forall lo hi hi',
    runs_between events lo hi ps fs -> hi <= hi' ->
    runs_between events lo hi' ps fs.
Proof.
  revert fs. induction ps as [|p ps IH]; intros [|f fs] lo hi hi' H Hle;
    cbn [runs_between] in *; try contradiction; [lia|].
  destruct H as (Hlo & Hrun & Hrest). eauto.
Qed.

Lemma runs_between_snoc (events : list tool_event) (ps : list nat)
  (fs : list loop_finding) (p : nat) (f : loop_finding) :
  forall lo hi hi',
    runs_between events lo hi ps fs ->
    hi <= p -> run_at events p f -> p + run_length f <= hi' ->
    runs_between events lo hi' (ps ++ [p]) (fs ++ [f]).
Proof.
  revert fs. induction ps as [|q ps IH]; intros [|g fs] lo hi hi' H Hp Hr Hhi;
    cbn [runs_between app] in *; try contradiction.
  - split; [lia|]. split; [exact Hr|exact Hhi].
  - destruct H as (Hlo & Hrun & Hrest).
    split; [exact Hlo|]. split; [exact Hrun|]. eapply IH; eassumption.
Qed.

Lemma run_inv_init : run_inv [] (mk_run_state JNull 0 0 []).
Proof.
  unfold run_inv. cbn. split; [lia|]. split; [auto|].
  split; [intros H; lia|]. split; [intros j Hj; lia|].
  exists []. cbn. lia.
Qed.

Lemma nth_error_last {A : Type} (l : list A) (x : A) :
  nth_error (l ++ [x]) (List.length l) = Some x.
Proof.
  rewrite nth_error_app2 by lia. rewrite Nat.sub_diag. reflexivity.
Qed.

Lemma run_inv_step (seen : list tool_event) (st : run_state)
  (ev : tool_event) :
  run_inv seen st -> run_inv (seen ++ [ev]) (run_step st ev).
Proof.
  unfold run_inv. cbv zeta. rewrite length_app. cbn [List.length].
  set (n := List.length seen). set (k := consecutive_count st).
  intros (Hk & H0 & Hfirst & Hmem & (ps & Hruns)).
  unfold run_step.
  destruct (py_eq (name ev) (consecutive_tool st)) eqn:Heq;
    cbn [consecutive_count consecutive_tool start_index found].
  - (* the run goes on *)
    fold k. split; [lia|]. split; [intros H; lia|].
    destruct (Nat.eq_dec k 0) as [Hz|Hz].
    + destruct (H0 Hz) as (Hn & Htool & Hstart & Hfound).
      rewrite Htool in Heq. apply py_eq_null_true in Heq.
      split; [|split].
      * intros _. exists ev. replace (n + 1 - S k) with 0 by lia.
        assert (Hs : seen = []) by (destruct seen; [reflexivity|cbn in n; lia]).
        rewrite Hs. cbn [app nth_error]. rewrite Heq. cbn.
        split; [reflexivity|]. split; assumption.
      * intros j Hj. lia.
      * rewrite Hfound. exists []. cbn. lia.
    + destruct (Hfirst ltac:(lia)) as (first & Hf & Htool & Hstart).
      replace (n + 1 - S k) with (n - k) by lia.
      split; [|split].
      * intros _. exists first. rewrite nth_error_app1 by lia. auto.
      * intros j Hj. destruct (Nat.eq_dec j n) as [->|Hjn].
        -- exists ev. unfold n. rewrite nth_error_last.
           split; [reflexivity|exact Heq].
        -- destruct (Hmem j ltac:(lia)) as (x & Hx & Hxe).
           exists x. rewrite nth_error_app1 by lia. auto.
      * exists ps. apply runs_between_extend; [exact Hruns|lia].
  - (* the name changes *)
    replace (n + 1 - 1) with n by lia.
    split; [lia|]. split; [intros H; lia|]. split; [|split].
    + intros _. exists ev. unfold n at 1. rewrite nth_error_last.
      split; [reflexivity|].
      split; [reflexivity|].
      destruct (Nat.eqb_spec n 0) as [Hn|Hn]; [|reflexivity].
      assert (Hz : k = 0) by lia.
      destruct (H0 Hz) as (_ & Htool & _). rewrite Htool in Heq.
      rewrite Heq. reflexivity.
    + intros j Hj. lia.
    + fold k. destruct (Nat.leb_spec 5 k) as [H5|H5].
      * destruct (Hfirst ltac:(lia)) as (first & Hf & Htool & Hstart).
        exists (ps ++ [n - k]).
        apply (runs_between_snoc _ ps (found st) (n - k) _ 0 (n - k) n).
        -- apply runs_between_extend; [exact Hruns|lia].
        -- lia.
        -- split; [exact H5|]. cbn [run_length tool_name start].
           split; [|split].
           ++ exists first. rewrite nth_error_app1 by lia. auto.
           ++ intros j Hj. destruct (Hmem j ltac:(lia)) as (x & Hx & Hxe).
              exists x. rewrite nth_error_app1 by lia. auto.
           ++ replace (n - k + k) with n by lia.
              unfold n at 1. rewrite nth_error_last. exact Heq.
        -- cbn [run_length]. lia.
      * destruct (Nat.eq_dec k 0) as [Hz|Hz].
        -- destruct (H0 Hz) as (Hn & _ & _ & Hfound). rewrite Hfound.
           exists []. cbn. lia.
        -- exists ps.
           apply (runs_between_weaken _ ps (found st) 0 (n - k) n); [|lia].
           apply runs_between_extend; [exact Hruns|lia].
Qed.

Lemma run_inv_run (more : list tool_event) :
  forall seen st,
    run_inv seen st -> run_inv (seen ++ more) (fold_left run_step more st).
Proof.
  induction more as [|ev more IH]; intros seen st H; cbn [fold_left].
  - rewrite app_nil_r. exact H.
  - replace (seen ++ ev :: more) with ((seen ++ [ev]) ++ more)
      by (rewrite <- app_assoc; reflexivity).
    apply IH. apply run_inv_step. exact H.
Qed.

End RunFacts.

(** X9.  The findings of the consecutive-run pass are runs of five calls
    or more that do not overlap: they can be placed, in the order they
    are reported, at positions of the list of tool events such that each
    finding is the run of events at its position (named after the first
    event of the run, every later event comparing equal to that name, the
    next event, if any, not), and each run begins at or after the end of
    the one before.  So every finding has a length of at least five, and
    the lengths add up to no more than the number of tool events. *)
Theorem potential_loops_disjoint_runs
  (events : list SummarizeSession.tool_event) :
  (exists ps,
     runs_between events 0 (List.length events) ps
       (SummarizeSession.potential_loops events))
  /\ Forall (fun f => 5 <= SummarizeSession.run_length f)
       (SummarizeSession.potential_loops events)
  /\ list_sum (map SummarizeSession.run_length
                 (SummarizeSession.potential_loops events))
     <= List.length events.
Proof.
  split.
  { pose proof (run_inv_run events [] _ run_inv_init) as Hinv.
    cbn [app] in Hinv. unfold SummarizeSession.potential_loops.
    set (st := fold_left SummarizeSession.run_step events
                 (SummarizeSession.mk_run_state JNull 0 0 [])) in *.
    unfold run_inv in Hinv. cbv zeta in Hinv.
    set (n := List.length events) in *.
    set (k := SummarizeSession.consecutive_count st) in *.
    destruct Hinv as (Hk & H0 & Hfirst & Hmem & (ps & Hruns)).
    cbv zeta.
    destruct (Nat.leb_spec 5 k) as [H5|H5].
    - destruct (Hfirst ltac:(lia)) as (first & Hf & Htool & Hstart).
      exists (ps ++ [n - k]).
      apply (runs_between_snoc _ ps _ (n - k) _ 0 (n - k) n).
      + exact Hruns.
      + lia.
      + split; [exact H5|].
        cbn [SummarizeSession.run_length SummarizeSession.tool_name
             SummarizeSession.start].
        split; [exists first; auto|].
        split; [intros j Hj; apply Hmem; lia|].
        replace (n - k + k) with n by lia.
        assert (Hnone : nth_error events n = None)
          by (apply nth_error_None; unfold n; lia).
        rewrite Hnone. exact I.
      + cbn [SummarizeSession.run_length]. lia.
    - exists ps.
      apply (runs_between_weaken _ ps _ 0 (n - k) n); [exact Hruns|lia]. }
  unfold SummarizeSession.potential_loops.
  destruct (run_step_long events (SummarizeSession.mk_run_state JNull 0 0 [])
              ltac:(constructor)) as [Hall Hsum].
  cbv zeta in Hall, Hsum. cbn [SummarizeSession.found
    SummarizeSession.consecutive_count map] in Hsum.
  change (list_sum []) with 0 in Hsum.
  set (st := fold_left SummarizeSession.run_step events
               (SummarizeSession.mk_run_state JNull 0 0 [])) in *.
  cbv zeta.
  destruct (Nat.leb_spec 5 (SummarizeSession.consecutive_count st)).
  - split.
    + apply Forall_app. split; [exact Hall|].
      constructor; [assumption|constructor].
    + rewrite map_app. cbn [map]. rewrite list_sum_snoc.
      cbn [SummarizeSession.run_length]. lia.
  - split; [exact Hall|lia].
Qed.

(** X10.  Tool invocations with no [name] compare equal to the initial
    [consecutive_tool = None], so a stream that consists of such
    invocations is one run that the pass reports, from five invocations
    on, as starting at index 0, whatever the index of its first event. *)
Theorem nameless_run_starts_at_zero
  (events : list SummarizeSession.tool_event) :
  Forall (fun ev => SummarizeSession.name ev = JNull) events ->
  SummarizeSession.potential_loops events
  = if (5 <=? List.length events)%nat
    then [SummarizeSession.mk_loop_finding JNull (List.length events) 0]
    else [].
Proof.
  intros Hall. unfold SummarizeSession.potential_loops.
  rewrite (run_step_same JNull events eq_refl Hall 0 0 []).
  cbn [SummarizeSession.consecutive_count SummarizeSession.consecutive_tool
       SummarizeSession.start_index SummarizeSession.found app].
  rewrite Nat.add_0_r. reflexivity.
Qed.

Lemma nameless_run_starts_at_zero_witness :
  let anon i := SummarizeSession.mk_tool_event i JNull JNull (JDict []) in
  let events := [anon 7; anon 8; anon 9; anon 11; anon 12] in
  Forall (fun ev => SummarizeSession.name ev = JNull) events
  /\ SummarizeSession.potential_loops events
     = [SummarizeSession.mk_loop_finding JNull 5 0].
Proof.
  intros anon events.
  assert (Hall : Forall (fun ev => SummarizeSession.name ev = JNull) events)
    by (repeat constructor).
  split; [exact Hall|].
  exact (nameless_run_starts_at_zero events Hall).
Defined.

(** ** Workflow escapes and test attempts *)

Section AttemptFacts.

Import AnalyzeStuckPoints.

Lemma analyze_workflow_escapes_ok (events : list json) :
  transcript_ok events = true ->
  analyze_workflow_escapes events
  = Ok (flat_map
          (fun ie => map (escape_of (fst ie)) (filter is_todo (tool_uses (snd ie))))
          (enumerate events)).
Proof.
  intros Hok. unfold analyze_workflow_escapes.
  rewrite (for_each_append
             (fun ie => map (escape_of (fst ie))
                          (filter is_todo (tool_uses (snd ie))))
             _ (fun ie => event_ok (snd ie) = true)).
  - reflexivity.
  - intros acc [i e] He. cbn [fst snd].
    rewrite (find_tool_uses_ok e He). cbn [bind].
    rewrite (for_each_append
               (fun t => if is_todo t then [escape_of i t] else [])
               _ (fun _ => True)).
    + rewrite flat_map_filter_map. reflexivity.
    + intros acc' t _. unfold is_todo, escape_of.
      destruct (is_str (name t) "TodoWrite");
        [reflexivity|rewrite app_nil_r; reflexivity].
    + apply Forall_forall. auto.
  - exact (enumerate_from_Forall (fun e => event_ok e = true) 0 events
             (transcript_ok_Forall events Hok)).
Qed.

Lemma test_attempt_step_ok (events : list json) (i : nat)
  (attempts : list attempt) (t : tool) :
  transcript_ok events = true ->
  tool_ok t = true ->
  test_attempt_step events i attempts t
  = Ok (attempts ++ (if is_test_call t then [attempt_of events i t] else [])).
Proof.
  intros Hok Ht. unfold test_attempt_step, is_test_call, attempt_of,
    matched_result.
  destruct (is_bash t); cbn [andb]; [|rewrite app_nil_r; reflexivity].
  apply andb_prop in Ht. destruct Ht as [Hin Hcmd].
  rewrite (py_get_dict _ "command" (JStr "") Hin). cbn [bind].
  fold (command_of t).
  destruct (command_of t) as [| | |cmd| |]; try discriminate.
  rewrite py_any_in_str. cbn [bind].
  destruct (existsb (fun p => Str.contains p cmd) test_patterns);
    [|rewrite app_nil_r; reflexivity].
  rewrite (find_tool_result_ok events (id t) i Hok). cbn [bind py_slice_to].
  destruct (first_from events (id t) i 10); reflexivity.
Qed.

Lemma analyze_test_attempts_ok (events : list json) :
  transcript_ok events = true ->
  analyze_test_attempts events
  = Ok (flat_map
          (fun ie => map (attempt_of events (fst ie))
                       (filter is_test_call (tool_uses (snd ie))))
          (enumerate events)).
Proof.
  intros Hok. unfold analyze_test_attempts.
  rewrite (for_each_append
             (fun ie => map (attempt_of events (fst ie))
                          (filter is_test_call (tool_uses (snd ie))))
             _ (fun ie => event_ok (snd ie) = true)).
  - reflexivity.
  - intros acc [i e] He. cbn [fst snd].
    rewrite (find_tool_uses_ok e He). cbn [bind].
    rewrite (for_each_append
               (fun t => if is_test_call t then [attempt_of events i t] else [])
               _ (fun t => tool_ok t = true)).
    + rewrite flat_map_filter_map. reflexivity.
    + intros acc' t Ht. apply test_attempt_step_ok; assumption.
    + apply tool_uses_ok. exact He.
  - exact (enumerate_from_Forall (fun e => event_ok e = true) 0 events
             (transcript_ok_Forall events Hok)).
Qed.



Lemma flat_map_enumerate_length {A B C : Type} (h : A -> list B)
  (g : nat -> B -> C) (l : list A) (n : nat) :
  List.length (flat_map (fun ie => map (g (fst ie)) (h (snd ie)))
                 (enumerate_from n l))
  = List.length (flat_map h l).
Proof.
  revert n. induction l as [|x l IH]; intros n; simpl; [reflexivity|].
  rewrite !length_app, length_map, IH. reflexivity.
Qed.

End AttemptFacts.

(** X11.  On a well-shaped transcript [analyze_workflow_escapes] returns
    one record per TodoWrite invocation, in transcript order (event after
    event, and in block order within an event), with the index of its
    event and its input as it is; no other tool is recorded. *)
Theorem workflow_escapes_are_todo_calls (events : list json) :
  transcript_ok events = true ->
  exists escapes,
    AnalyzeStuckPoints.analyze_workflow_escapes events = Ok escapes
    /\ escapes = flat_map escapes_at (enumerate events)
    /\ (forall x,
          In x escapes
          <-> exists e t,
                nth_error events (AnalyzeStuckPoints.escape_index x) = Some e
                /\ In t (tool_uses e)
                /\ is_todo t = true
                /\ x = escape_of (AnalyzeStuckPoints.escape_index x) t)
    /\ List.length escapes
       = List.length (flat_map (fun e => filter is_todo (tool_uses e)) events).
Proof.
  intros Hok. eexists. split; [apply analyze_workflow_escapes_ok; exact Hok|].
  split; [reflexivity|]. split.
  - intros x. rewrite in_flat_map. split.
    + intros ([i e] & Hie & Hx). cbn [fst snd] in Hx.
      apply enumerate_In in Hie. apply in_map_iff in Hx.
      destruct Hx as (t & <- & Ht). apply filter_In in Ht.
      exists e, t. cbn. tauto.
    + intros (e & t & He & Ht & Htodo & Hx).
      exists (AnalyzeStuckPoints.escape_index x, e).
      split; [apply enumerate_In; exact He|]. cbn [fst snd].
      rewrite Hx. cbn. apply in_map. apply filter_In. auto.
  - apply (flat_map_enumerate_length
             (fun e => filter is_todo (tool_uses e)) escape_of events 0).
Qed.

Lemma workflow_escapes_are_todo_calls_witness :
  let events := [FlowSample.system_init; AttemptSample.todo_call] in
  transcript_ok events = true
  /\ exists escapes,
       AnalyzeStuckPoints.analyze_workflow_escapes events = Ok escapes
       /\ List.length escapes = 1.
Proof.
  intros events. split; [reflexivity|].
  destruct (workflow_escapes_are_todo_calls events eq_refl)
    as (escapes & Hrun & _ & _ & Hlen).
  exists escapes. split; [exact Hrun|]. rewrite Hlen. reflexivity.
Defined.



(** X13.  The two detectors agree on failures that left a message: on a
    well-shaped transcript, every test attempt recorded as failed with a
    non-empty output preview is also reported by
    [find_environment_issues] as an issue of kind [error] at the same
    event index. *)
Theorem failed_attempt_is_environment_error (events : list json)
  (attempts : list AnalyzeStuckPoints.attempt)
  (issues : list AnalyzeStuckPoints.issue) (a : AnalyzeStuckPoints.attempt)
  (out : string) :
  transcript_ok events = true ->
  AnalyzeStuckPoints.analyze_test_attempts events = Ok attempts ->
  AnalyzeStuckPoints.find_environment_issues events = Ok issues ->
  In a attempts ->
  truthy (AnalyzeStuckPoints.attempt_is_error a) = true ->
  AnalyzeStuckPoints.output_preview a = JStr out ->
  out <> "" ->
  exists x,
    In x issues
    /\ AnalyzeStuckPoints.issue_index x = AnalyzeStuckPoints.attempt_index a
    /\ AnalyzeStuckPoints.kind x = AnalyzeStuckPoints.error.
Proof.
  intros Hok Hatt Hiss Hin Herr Hout Hne.
  rewrite (analyze_test_attempts_ok events Hok) in Hatt. injection Hatt as <-.
  rewrite (find_environment_issues_ok events Hok) in Hiss. injection Hiss as <-.
  apply in_flat_map in Hin. destruct Hin as ([i e] & Hie & Ha).
  cbn [fst snd] in Ha. apply in_map_iff in Ha. destruct Ha as (t & <- & Ht).
  apply filter_In in Ht. destruct Ht as [Ht Htest].
  unfold is_test_call in Htest. apply andb_prop in Htest.
  destruct Htest as [Hbash Hpat].
  cbn in Herr, Hout. cbn [AnalyzeStuckPoints.attempt_index attempt_of].
  destruct (matched_result events i t) as [r|] eqn:Hr;
    [|injection Hout as <-; congruence].
  destruct (AnalyzeStuckPoints.content r) as [| | |text| |] eqn:Hc;
    try (injection Hout as <-; congruence).
  destruct (command_of t) as [| | |cmd| |] eqn:Hcmd; try discriminate.
  exists (AnalyzeStuckPoints.mk_issue i (JStr (Str.take 80 cmd))
            AnalyzeStuckPoints.error (Str.take 200 text)).
  split; [|split; reflexivity].
  apply in_flat_map. exists (i, e). split; [exact Hie|]. cbn [fst snd].
  apply in_flat_map. exists t. split; [apply filter_In; auto|].
  unfold issue_of. rewrite Hr, Hc, Hcmd, Herr. left. reflexivity.
Qed.

Lemma failed_attempt_is_environment_error_witness :
  transcript_ok AttemptSample.failing = true
  /\ exists x,
       In x [AnalyzeStuckPoints.mk_issue 0 (JStr "cargo test")
               AnalyzeStuckPoints.error "exit status 1"]
       /\ AnalyzeStuckPoints.issue_index x = 0
       /\ AnalyzeStuckPoints.kind x = AnalyzeStuckPoints.error.
Proof.
  split; [reflexivity|].
  exact (failed_attempt_is_environment_error AttemptSample.failing
           [AnalyzeStuckPoints.mk_attempt 0 (JStr "cargo test") (JBool true)
              (JStr "exit status 1")]
           [AnalyzeStuckPoints.mk_issue 0 (JStr "cargo test")
              AnalyzeStuckPoints.error "exit status 1"]
           (AnalyzeStuckPoints.mk_attempt 0 (JStr "cargo test") (JBool true)
              (JStr "exit status 1"))
           "exit status 1" eq_refl eq_refl eq_refl
           (or_introl eq_refl) eq_refl eq_refl
           ltac:(discriminate)).
Defined.

(** ** Category counts *)

Section CountFacts.

Import AnalyzeEfficiency.

Lemma increment_keys (cat : string) (counts : list (string * nat)) :
  map fst (increment cat counts) = map fst counts.
Proof.
  induction counts as [|[k n] counts IH]; simpl; [reflexivity|].
  destruct (String.eqb cat k); simpl; [reflexivity|rewrite IH; reflexivity].
Qed.

Lemma increment_sum (cat : string) (counts : list (string * nat)) :
  In cat (map fst counts) ->
  list_sum (map snd (increment cat counts)) = S (list_sum (map snd counts)).
Proof.
  induction counts as [|[k n] counts IH]; simpl; [intros []|].
  intros Hin. destruct (String.eqb cat k) eqn:Hk; simpl; [reflexivity|].
  destruct Hin as [->|Hin]; [rewrite String.eqb_refl in Hk; discriminate|].
  rewrite (IH Hin). lia.
Qed.

Lemma count_of_increment (cat cat' : string) (counts : list (string * nat))
  (n : nat) :
  count_of cat counts = Ok n ->
  count_of cat (increment cat' counts)
  = Ok (if String.eqb (cat') cat then S n else n).
Proof.
  induction counts as [|[k m] counts IH]; simpl; [discriminate|].
  intros H. destruct (String.eqb cat' k) eqn:Hk'; simpl.
  - apply String.eqb_eq in Hk'. subst k.
    destruct (String.eqb cat cat') eqn:Hc.
    + apply String.eqb_eq in Hc. subst cat'. rewrite String.eqb_refl.
      injection H as <-. reflexivity.
    + rewrite String.eqb_sym, Hc. exact H.
  - destruct (String.eqb cat k) eqn:Hc.
    + apply String.eqb_eq in Hc. subst k. rewrite Hk'. exact H.
    + exact (IH H).
Qed.

Lemma category_of_key (b : json) :
  In (category_of b) (map fst initial_counts).
Proof.
  unfold category_of, matching, initial_counts.
  rewrite map_app, map_map. cbn [fst map].
  apply in_or_app.
  destruct (filter _ tool_categories) as [|cp l] eqn:Hf.
  - right. left. reflexivity.
  - left. cbn [map hd].
    assert (Hin : In cp (filter
                           (fun cp => existsb
                                        (fun p => Str.contains p (target_of b))
                                        (snd cp)) tool_categories))
      by (rewrite Hf; left; reflexivity).
    apply filter_In in Hin. apply in_map. exact (proj1 Hin).
Qed.

Lemma count_block_ok (counts : list (string * nat)) (b : json) :
  block_ok b = true ->
  count_block counts b
  = Ok (if is_tool_use b then increment (category_of b) counts else counts).
Proof.
  intros Hb. pose proof (block_ok_dict b Hb) as Hd.
  unfold block_ok in Hb.
  repeat (apply andb_prop in Hb; destruct Hb as [Hb ?]).
  unfold count_block, match_target, is_tool_use, category_of, target_of.
  rewrite !(py_get_dict b _ _ Hd). cbn [bind].
  destruct (is_str (field b "type" JNull) "tool_use"); cbn [negb];
    [|reflexivity].
  destruct (is_str (field b "name" (JStr "")) "Bash").
  - rewrite (py_get_dict (field b "input" (JDict [])) _ _) by assumption.
    destruct (field (field b "input" (JDict [])) "command" (JStr ""));
      try discriminate.
    cbn [bind]. rewrite categorize_str. reflexivity.
  - destruct (field b "name" (JStr "")); try discriminate.
    cbn [bind]. rewrite categorize_str. reflexivity.
Qed.

(** A loop whose body folds over the parts of each item. *)
Lemma for_each_fold_parts {A B St : Type} (f : St -> B -> St)
  (g : A -> list B) (body : St -> A -> py St) (P : A -> Prop) (l : list A) :
  (forall s x, P x -> body s x = Ok (fold_left f (g x) s)) ->
  Forall P l ->
  forall s, for_each l body s = Ok (fold_left f (flat_map g l) s).
Proof.
  intros Hbody Hall. induction Hall as [|x l Hx _ IH]; intros s; simpl.
  - reflexivity.
  - rewrite (Hbody s x Hx). cbn [bind]. rewrite fold_left_app. apply IH.
Qed.

Lemma fold_left_filter {A St : Type} (f : St -> A -> St) (p : A -> bool)
  (l : list A) (s : St) :
  fold_left (fun s x => if p x then f s x else s) l s
  = fold_left f (filter p l) s.
Proof.
  revert s. induction l as [|x l IH]; intros s; simpl; [reflexivity|].
  destruct (p x); simpl; apply IH.
Qed.

Lemma count_event_ok (counts : list (string * nat)) (e : json) :
  event_ok e = true ->
  count_event counts e
  = Ok (fold_left (fun c b => increment (category_of b) c)
          (call_blocks e) counts).
Proof.
  intros He. unfold count_event, call_blocks.
  rewrite (py_get_dict e _ _ (event_ok_dict e He)). cbn [bind].
  destruct (is_str (field e "type" JNull) "assistant"); cbn [negb];
    [|reflexivity].
  rewrite (py_get_dict e _ _ (event_ok_dict e He)). cbn [bind].
  rewrite (py_get_dict _ _ _ (event_ok_message e He)). cbn [bind].
  rewrite (event_ok_content e He). cbn [py_iter bind].
  rewrite (for_each_pure
             (fun c b => if is_tool_use b
                         then increment (category_of b) c else c)
             count_block (fun b => block_ok b = true)).
  - rewrite (fold_left_filter (fun c b => increment (category_of b) c)).
    reflexivity.
  - intros s b Hb. apply count_block_ok. exact Hb.
  - apply Forall_forall. apply forallb_forall.
    unfold event_ok in He.
    repeat (apply andb_prop in He; destruct He as [He ?]). assumption.
Qed.

Lemma analyze_ok (events : list json) :
  transcript_ok events = true ->
  analyze events
  = Ok (fold_left (fun c b => increment (category_of b) c)
          (flat_map call_blocks events) initial_counts).
Proof.
  intros Hok. unfold analyze.
  apply (for_each_fold_parts _ call_blocks count_event
           (fun e => event_ok e = true)).
  - intros s e He. apply count_event_ok. exact He.
  - apply transcript_ok_Forall. exact Hok.
Qed.

(** What the counts are after the invocations [bs]. *)
Lemma counts_after (bs : list json) (counts : list (string * nat)) :
  map fst counts = map fst initial_counts ->
  let counts' :=
    fold_left (fun c b => increment (category_of b) c) bs counts in
  map fst counts' = map fst initial_counts
  /\ list_sum (map snd counts')
     = list_sum (map snd counts) + List.length bs
  /\ forall cat n,
       count_of cat counts = Ok n ->
       count_of cat counts'
       = Ok (n + List.length
                   (filter (fun b => String.eqb (category_of b) cat) bs)).
Proof.
  revert counts. induction bs as [|b bs IH]; intros counts Hk; cbn zeta.
  - cbn [fold_left List.length filter]. split; [exact Hk|].
    split; [lia|]. intros cat n H. rewrite Nat.add_0_r. exact H.
  - cbn [fold_left].
    assert (Hk' : map fst (increment (category_of b) counts)
                  = map fst initial_counts)
      by (rewrite increment_keys; exact Hk).
    destruct (IH _ Hk') as (Hkeys & Hsum & Hcount).
    split; [exact Hkeys|]. split.
    + rewrite Hsum, increment_sum.
      * cbn [List.length]. lia.
      * rewrite Hk. apply category_of_key.
    + intros cat n H.
      rewrite (Hcount cat _ (count_of_increment cat _ counts n H)).
      cbn [filter]. destruct (String.eqb (category_of b) cat);
        cbn [List.length]; f_equal; lia.
Qed.

Lemma count_of_initial (cat : string) :
  In cat (map fst initial_counts) -> count_of cat initial_counts = Ok 0.
Proof.
  intros Hin. cbn in Hin.
  repeat (destruct Hin as [<-|Hin]; [reflexivity|]). destruct Hin.
Qed.

Lemma tool_calls_blocks (events : list json) :
  map snd (tool_calls events) = flat_map call_blocks events.
Proof.
  unfold tool_calls.
  assert (H : forall n,
             map snd (flat_map calls_of (enumerate_from n events))
             = flat_map call_blocks events).
  { induction events as [|e events IH]; intros n; simpl; [reflexivity|].
    rewrite map_app, IH. f_equal. unfold calls_of, call_blocks. cbn [fst snd].
    destruct (is_str (field e "type" JNull) "assistant"); [|reflexivity].
    rewrite map_map. cbn [snd]. apply map_id. }
  apply H.
Qed.

End CountFacts.

(** X14.  On a well-shaped transcript [analyze] counts every tool
    invocation exactly once: the keys of [category_counts] stay the nine
    categories in declared order, the count of each category is the
    number of invocations that fall in it, and the counts add up to the
    number of [tool_use] blocks of the assistant events. *)
Theorem every_call_counted_once (events : list json) :
  transcript_ok events = true ->
  exists counts,
    AnalyzeEfficiency.analyze events = Ok counts
    /\ map fst counts = map fst AnalyzeEfficiency.initial_counts
    /\ (forall cat,
          In cat (map fst AnalyzeEfficiency.initial_counts) ->
          AnalyzeEfficiency.count_of cat counts = Ok (calls_in cat events))
    /\ list_sum (map snd counts) = List.length (tool_calls events).
Proof.
  intros Hok. eexists. split; [apply analyze_ok; exact Hok|].
  destruct (counts_after (flat_map call_blocks events)
              AnalyzeEfficiency.initial_counts eq_refl)
    as (Hkeys & Hsum & Hcount).
  split; [exact Hkeys|]. split.
  - intros cat Hin. rewrite (Hcount cat 0 (count_of_initial cat Hin)).
    reflexivity.
  - rewrite Hsum, <- tool_calls_blocks, length_map. reflexivity.
Qed.

Lemma every_call_counted_once_witness :
  transcript_ok EditSample.read_then_edits = true
  /\ exists counts,
       AnalyzeEfficiency.analyze EditSample.read_then_edits = Ok counts
       /\ list_sum (map snd counts)
          = List.length (tool_calls EditSample.read_then_edits).
Proof.
  split; [reflexivity|].
  destruct (every_call_counted_once EditSample.read_then_edits eq_refl)
    as (counts & Hrun & _ & _ & Hsum).
  exists counts. split; assumption.
Defined.

Section ReportFacts.

Import AnalyzeEfficiency.

(** The counts of a dict with the nine keys of [category_counts]. *)
Lemma closing_lines_keys (counts : list (string * nat)) :
  map fst counts = map fst initial_counts ->
  exists f,
    (closing_lines counts
     = if Nat.eqb (list_sum (map snd counts)) 0
       then ZeroDivisionError else Printed f)
    /\ total f = list_sum (map snd counts)
    /\ productive f + overhead f + workflow f <= total f.
Proof.
  intros Hk.
  do 9 (destruct counts as [|[? ?] counts]; [discriminate Hk|]).
  destruct counts; [|discriminate Hk].
  cbn in Hk. injection Hk as -> -> -> -> -> -> -> -> ->.
  eexists. split; [unfold closing_lines; cbn; reflexivity|].
  cbn. split; [reflexivity|lia].
Qed.

End ReportFacts.

(** X15.  The closing lines of [analyze] divide by the number of counted
    invocations without testing it: on a well-shaped transcript with no
    tool invocation in an assistant event the function ends in
    [ZeroDivisionError] (after the table, whose percentages are guarded);
    with at least one invocation it prints the three figures, whose total
    is the number of invocations and which never add up to more than that
    total. *)
Theorem report_divides_by_total (events : list json) :
  transcript_ok events = true ->
  (tool_calls events = [] ->
   AnalyzeEfficiency.report events = AnalyzeEfficiency.ZeroDivisionError)
  /\ (tool_calls events <> [] ->
      exists f,
        AnalyzeEfficiency.report events = AnalyzeEfficiency.Printed f
        /\ AnalyzeEfficiency.total f = List.length (tool_calls events)
        /\ AnalyzeEfficiency.productive f + AnalyzeEfficiency.overhead f
           + AnalyzeEfficiency.workflow f
           <= AnalyzeEfficiency.total f).
Proof.
  intros Hok. unfold AnalyzeEfficiency.report.
  rewrite (analyze_ok events Hok).
  destruct (counts_after (flat_map call_blocks events)
              AnalyzeEfficiency.initial_counts eq_refl)
    as (Hkeys & Hsum & _).
  destruct (closing_lines_keys _ Hkeys) as (f & Hrun & Htot & Hle).
  assert (Hlen : List.length (flat_map call_blocks events)
                 = List.length (tool_calls events))
    by (rewrite <- tool_calls_blocks, length_map; reflexivity).
  rewrite Hrun, Hsum. rewrite Hsum in Htot. rewrite Hlen in *.
  change (list_sum (map snd AnalyzeEfficiency.initial_counts)) with 0
    in *.
  cbn [Nat.add] in *. split.
  - intros ->. reflexivity.
  - intros Hne. exists f. split; [|split].
    + destruct (tool_calls events); [congruence|reflexivity].
    + exact Htot.
    + exact Hle.
Qed.

Lemma report_divides_by_total_witness :
  transcript_ok [FlowSample.system_init; FlowSample.says "done"] = true
  /\ AnalyzeEfficiency.report [FlowSample.system_init; FlowSample.says "done"]
     = AnalyzeEfficiency.ZeroDivisionError.
Proof.
  split; [reflexivity|].
  exact (proj1 (report_divides_by_total
                  [FlowSample.system_init; FlowSample.says "done"] eq_refl)
           eq_refl).
Defined.

(** X16.  A [tool_use] block with no [name] key is classified by the
    empty string and so counted under [other], whatever its input holds;
    a block whose [name] is [null] makes the pattern test
    [p in None] raise [TypeError]. *)
Theorem unnamed_tool_counts_as_other (block : json)
  (counts : list (string * nat)) :
  is_dict block = true ->
  field block "type" JNull = JStr "tool_use" ->
  (field block "name" (JStr "") = JStr "" ->
   AnalyzeEfficiency.count_block counts block
   = Ok (AnalyzeEfficiency.increment "other" counts))
  /\ (field block "name" (JStr "") = JNull ->
      AnalyzeEfficiency.count_block counts block = Raise TypeError).
Proof.
  intros Hd Hty.
  unfold AnalyzeEfficiency.count_block, AnalyzeEfficiency.match_target.
  rewrite !(py_get_dict block _ _ Hd), Hty. cbn [bind is_str negb].
  change (is_str (JStr "tool_use") "tool_use") with true. cbn [negb].
  split; intros ->; reflexivity.
Qed.

Lemma unnamed_tool_counts_as_other_witness :
  AnalyzeEfficiency.count_block AnalyzeEfficiency.initial_counts
    EfficiencySample.nameless_block
  = Ok (AnalyzeEfficiency.increment "other" AnalyzeEfficiency.initial_counts)
  /\ AnalyzeEfficiency.count_block AnalyzeEfficiency.initial_counts
       EfficiencySample.null_name_block
     = Raise TypeError.
Proof.
  split.
  - exact (proj1 (unnamed_tool_counts_as_other
                    EfficiencySample.nameless_block
                    AnalyzeEfficiency.initial_counts eq_refl eq_refl)
             eq_refl).
  - exact (proj2 (unnamed_tool_counts_as_other
                    EfficiencySample.null_name_block
                    AnalyzeEfficiency.initial_counts eq_refl eq_refl)
             eq_refl).
Defined.

(** ** Tool usage totals of the session summary *)

Section UsageFacts.

Import SummarizeSession.

Variable json_loads : string -> option json.

Lemma bump_sum (k : json) (counts : list (json * nat)) :
  list_sum (map snd (bump k counts)) = S (list_sum (map snd counts)).
Proof.
  induction counts as [|[k' n] counts IH]; simpl; [reflexivity|].
  destruct (py_eq k k'); simpl; [reflexivity|rewrite IH; lia].
Qed.

Lemma bump_positive (k : json) (counts : list (json * nat)) :
  Forall (fun kn => 0 < snd kn) counts ->
  Forall (fun kn => 0 < snd kn) (bump k counts).
Proof.
  induction 1 as [|[k' n] counts Hn Hall IH]; simpl.
  - constructor; [simpl; lia|constructor].
  - destruct (py_eq k k'); constructor; simpl in *; auto; lia.
Qed.

Lemma assistant_block_usage (idx : nat) (c c' : collected) (b : json) :
  usage_inv c -> assistant_block idx c b = Ok c' -> usage_inv c'.
Proof.
  unfold assistant_block, usage_inv, bash_events.
  intros (Hsum & Hpos & Hbd) H. step_bind H.
  destruct (is_str a "thinking").
  { do 2 step_bind H. injection H as <-. cbn. auto. }
  destruct (is_str a "text").
  { step_bind H. injection H as <-. cbn. auto. }
  destruct (is_str a "tool_use"); [|injection H as <-; auto].
  do 3 step_bind H. unfold count_tool in E2.
  destruct (hashable a0); [|discriminate]. injection E2 as <-.
  do 2 step_bind H. injection H as <-.
  assert (Hlen : List.length a3
                 <= List.length (bd_commands c)
                    + (if is_str a0 "Bash" then 1 else 0)).
  { destruct (is_str a0 "Bash").
    - do 3 step_bind E3.
      destruct a6; injection E3 as <-;
        [rewrite length_app; cbn [List.length]|]; lia.
    - injection E3 as <-. lia. }
  cbn [tool_counts tool_events bd_commands].
  rewrite bump_sum, length_app, filter_app, length_app, Hsum.
  cbn [filter name List.length].
  split; [lia|]. split; [apply bump_positive; exact Hpos|].
  destruct (is_str a0 "Bash"); cbn [List.length]; lia.
Qed.

Lemma user_block_usage (c c' : collected) (b : json) :
  usage_inv c -> user_block c b = Ok c' -> usage_inv c'.
Proof.
  unfold user_block. intros Hinv H. step_bind H.
  destruct (is_str a "tool_result"); [|injection H as <-; exact Hinv].
  step_bind H. destruct (truthy a0); injection H as <-; exact Hinv.
Qed.

Lemma collect_line_usage (c c' : collected) (il : nat * string) :
  usage_inv c -> collect_line json_loads c il = Ok c' -> usage_inv c'.
Proof.
  destruct il as [idx line]. unfold collect_line. intros Hinv H.
  destruct (parse_event json_loads line) as [e|];
    [|injection H as <-; exact Hinv].
  destruct (truthy e); cbn [negb] in H; [|injection H as <-; exact Hinv].
  step_bind H.
  destruct (is_str a "loop_meta").
  { do 2 step_bind H. injection H as <-. exact Hinv. }
  destruct (is_str a "system"); [injection H as <-; exact Hinv|].
  destruct (is_str a "assistant").
  - do 2 step_bind H.
    destruct a1; try (injection H as <-; exact Hinv).
    exact (for_each_invariant usage_inv (assistant_block idx) l
             (fun s x s' => assistant_block_usage idx s s' x) c c' Hinv H).
  - destruct (is_str a "user"); [|injection H as <-; exact Hinv].
    do 2 step_bind H.
    destruct a1; try (injection H as <-; exact Hinv).
    exact (for_each_invariant usage_inv user_block l
             (fun s x s' => user_block_usage s s' x) c c' Hinv H).
Qed.

End UsageFacts.

(** X17.  Whatever the lines hold and whatever the decoder returns, when
    the collecting loop of [summarize_session] returns, the printed total
    [sum(tool_counts.values())] is the number of recorded tool events, no
    tool is listed with a count of 0, and there are at most as many
    recorded [bd] commands as recorded Bash events. *)
Theorem tool_usage_total (json_loads : string -> option json)
  (lines : list string) (c : SummarizeSession.collected) :
  SummarizeSession.collect json_loads lines = Ok c ->
  list_sum (map snd (SummarizeSession.tool_counts c))
  = List.length (SummarizeSession.tool_events c)
  /\ Forall (fun kn => 0 < snd kn) (SummarizeSession.tool_counts c)
  /\ List.length (SummarizeSession.bd_commands c)
     <= List.length
          (filter (fun ev => is_str (SummarizeSession.name ev) "Bash")
             (SummarizeSession.tool_events c)).
Proof.
  intros H.
  refine (for_each_invariant usage_inv
            (SummarizeSession.collect_line json_loads) (enumerate lines)
            (fun s x s' => collect_line_usage json_loads s s' x)
            SummarizeSession.empty c _ H).
  repeat split; [constructor|cbn; lia].
Qed.

Lemma tool_usage_total_witness :
  exists c,
    SummarizeSession.collect Json.loads IndexSample.lines = Ok c
    /\ list_sum (map snd (SummarizeSession.tool_counts c))
       = List.length (SummarizeSession.tool_events c)
    /\ List.length (SummarizeSession.tool_events c) = 1.
Proof.
  eexists. split; [vm_compute; reflexivity|]. split.
  - apply (tool_usage_total Json.loads IndexSample.lines).
    vm_compute. reflexivity.
  - reflexivity.
Defined.

(** ** Events whose content is a string *)

Section StringContentFacts.

Lemma field_not_default_dict (v : json) (k : string) (default x : json) :
  field v k default = x -> x <> default -> is_dict v = true.
Proof.
  destruct v; simpl; intros H Hne; try (symmetry in H; contradiction).
  reflexivity.
Qed.

Lemma typed_dict_truthy (e : json) (ty : string) :
  field e "type" JNull = JStr ty -> truthy e = true.
Proof.
  destruct e as [| | | | |d]; simpl; try discriminate.
  destruct d; simpl; [discriminate|reflexivity].
Qed.

Lemma for_each_first_raise {A St : Type} (body : St -> A -> py St)
  (x : A) (l : list A) (s : St) (e : pyexc) :
  body s x = Raise e -> for_each (x :: l) body s = Raise e.
Proof. intros H. simpl. rewrite H. reflexivity. Qed.

Lemma recovery_step_string_content (st : AnalyzeFlow.recovery_state)
  (i : nat) (ev : json) (s : string) :
  is_dict ev = true ->
  field ev "type" JNull = JStr "user" ->
  field (field ev "message" (JDict [])) "content" (JList []) = JStr s ->
  s <> "" ->
  AnalyzeFlow.recovery_step st (i, ev) = Raise AttributeError.
Proof.
  intros Hd Hty Hc Hs.
  assert (Hm : is_dict (field ev "message" (JDict [])) = true)
    by (apply (field_not_default_dict _ _ _ _ Hc); discriminate).
  unfold AnalyzeFlow.recovery_step.
  rewrite (py_get_dict ev "type" JNull Hd), Hty. cbn [bind].
  change (is_str (JStr "user") "user") with true. cbn iota.
  rewrite (py_get_dict ev "message" _ Hd). cbn [bind].
  rewrite (py_get_dict _ "content" _ Hm), Hc. cbn [bind py_iter].
  destruct s as [|c r]; [congruence|]. reflexivity.
Qed.

End StringContentFacts.

(** X18.  A user event whose content is a non-empty string rather than
    a list of blocks stops the error -> recovery pass of [analyze_flow]:
    the pass iterates the string and calls [.get] on its first character,
    so it raises [AttributeError] whatever comes before (well-shaped) or
    after.  [find_tool_result] and the collecting loop of
    [summarize_session], which test [isinstance(content, list)], pass
    over the same event. *)
Theorem string_content_stops_recovery_scan (pre post : list json)
  (ev : json) (s : string) :
  transcript_ok pre = true ->
  is_dict ev = true ->
  field ev "type" JNull = JStr "user" ->
  field (field ev "message" (JDict [])) "content" (JList []) = JStr s ->
  s <> "" ->
  AnalyzeFlow.error_recovery_scan (pre ++ ev :: post) = Raise AttributeError
  /\ (forall call_id,
        AnalyzeStuckPoints.find_tool_result [ev] call_id 0 = Ok None)
  /\ (forall json_loads c idx line,
        SummarizeSession.parse_event json_loads line = Some ev ->
        SummarizeSession.collect_line json_loads c (idx, line) = Ok c).
Proof.
  intros Hok Hd Hty Hc Hs.
  assert (Hm : is_dict (field ev "message" (JDict [])) = true)
    by (apply (field_not_default_dict _ _ _ _ Hc); discriminate).
  split; [|split].
  - unfold AnalyzeFlow.error_recovery_scan, enumerate.
    rewrite enumerate_from_app, for_each_app.
    rewrite (for_each_pure recovery_step_spec AnalyzeFlow.recovery_step
               (fun ie => event_ok (snd ie) = true)).
    + cbn [bind enumerate_from].
      rewrite (for_each_first_raise _ _ _ _ AttributeError); [reflexivity|].
      apply (recovery_step_string_content _ _ ev s); assumption.
    + intros st [i e] He. apply recovery_step_ok. exact He.
    + exact (enumerate_from_Forall (fun e => event_ok e = true) 0 pre
               (transcript_ok_Forall pre Hok)).
  - intros call_id. unfold AnalyzeStuckPoints.find_tool_result.
    change (range 0 (Nat.min (0 + 10) (List.length [ev]))) with [0].
    unfold AnalyzeStuckPoints.scan_range, py_index. cbn [nth_error bind].
    rewrite (py_get_dict ev "type" JNull Hd), Hty. cbn [bind].
    change (is_str (JStr "user") "user") with true. cbn [negb].
    rewrite (py_get_dict ev "message" _ Hd). cbn [bind].
    rewrite (py_get_dict _ "content" _ Hm), Hc. reflexivity.
  - intros json_loads c idx line Hp.
    unfold SummarizeSession.collect_line. rewrite Hp.
    rewrite (typed_dict_truthy ev "user" Hty). cbn [negb].
    rewrite (py_get_dict ev "type" JNull Hd), Hty. cbn [bind].
    change (is_str (JStr "user") "loop_meta") with false.
    change (is_str (JStr "user") "system") with false.
    change (is_str (JStr "user") "assistant") with false.
    change (is_str (JStr "user") "user") with true. cbn iota.
    rewrite (py_get_dict ev "message" _ Hd). cbn [bind].
    rewrite (py_get_dict _ "content" _ Hm), Hc. reflexivity.
Qed.

Lemma string_content_stops_recovery_scan_witness :
  let events :=
    [FlowSample.system_init] ++ PromptSample.prompt
      :: [FlowSample.tool_error "t1"; FlowSample.says "let me fix it"] in
  transcript_ok [FlowSample.system_init] = true
  /\ AnalyzeFlow.error_recovery_scan events = Raise AttributeError.
Proof.
  intros events. split; [reflexivity|].
  apply (string_content_stops_recovery_scan [FlowSample.system_init]
           [FlowSample.tool_error "t1"; FlowSample.says "let me fix it"]
           PromptSample.prompt "Fix the failing test");
    [reflexivity|reflexivity|reflexivity|reflexivity|discriminate].
Defined.

(** ** Task timeline *)

Section TimelineFacts.

Import AnalyzeFlow.

Lemma task_id_of_str (c : string) :
  task_id_of (JStr c) = Ok (third_word c).
Proof.
  unfold task_id_of, third_word. cbn [py_split bind].
  destruct (Str.split c) as [|a [|b [|w l]]]; reflexivity.
Qed.

Lemma timeline_block_ok (i : nat) (timeline : list transition) (b : json) :
  block_ok b = true ->
  timeline_block i timeline b
  = Ok (timeline
        ++ (if is_tool_use b && AnalyzeStuckPoints.is_bash (as_tool b)
            then transition_of i (as_tool b) else [])).
Proof.
  intros Hb. pose proof (block_ok_dict b Hb) as Hd.
  pose proof (as_tool_ok b Hb) as Ht.
  apply andb_prop in Ht. destruct Ht as [Hin Hcmd].
  unfold timeline_block, is_tool_use, AnalyzeStuckPoints.is_bash,
    transition_of.
  rewrite (py_get_dict b "type" JNull Hd). cbn [bind].
  destruct (is_str (field b "type" JNull) "tool_use"); cbn [andb bind];
    [|rewrite app_nil_r; reflexivity].
  rewrite (py_get_dict b "name" JNull Hd). cbn [bind].
  change (field b "name" JNull) with (AnalyzeStuckPoints.name (as_tool b)).
  destruct (is_str (AnalyzeStuckPoints.name (as_tool b)) "Bash");
    [|rewrite app_nil_r; reflexivity].
  rewrite (py_get_dict b "input" (JDict []) Hd). cbn [bind].
  change (field b "input" (JDict []))
    with (AnalyzeStuckPoints.input (as_tool b)).
  rewrite (py_get_dict _ "command" (JStr "") Hin). cbn [bind].
  fold (command_of (as_tool b)).
  destruct (command_of (as_tool b)) as [| | |c| |]; try discriminate.
  cbn [py_in bind].
  destruct (Str.contains "bd update" c); cbn [andb bind py_in].
  - destruct (Str.contains "in_progress" c); cbn [bind].
    + rewrite task_id_of_str. reflexivity.
    + destruct (Str.contains "bd close" c); cbn [bind];
        [rewrite task_id_of_str|rewrite app_nil_r]; reflexivity.
  - destruct (Str.contains "bd close" c); cbn [bind];
      [rewrite task_id_of_str|rewrite app_nil_r]; reflexivity.
Qed.

Lemma flat_map_guarded {A B C : Type} (p : A -> bool) (g : A -> B)
  (q : B -> bool) (h : B -> list C) (l : list A) :
  flat_map (fun x => if p x && q (g x) then h (g x) else []) l
  = flat_map h (filter q (map g (filter p l))).
Proof.
  induction l as [|x l IH]; simpl; [reflexivity|].
  destruct (p x); simpl; [|exact IH].
  destruct (q (g x)); simpl; rewrite IH; reflexivity.
Qed.

Lemma timeline_step_ok (timeline : list transition) (i : nat) (e : json) :
  event_ok e = true ->
  timeline_step timeline (i, e) = Ok (timeline ++ transitions_at (i, e)).
Proof.
  intros He. unfold timeline_step, transitions_at, tool_uses. cbn [fst snd].
  rewrite (py_get_dict e _ _ (event_ok_dict e He)). cbn [bind].
  destruct (is_str (field e "type" JNull) "assistant"); cbn [negb];
    [|rewrite app_nil_r; reflexivity].
  rewrite (py_get_dict e _ _ (event_ok_dict e He)). cbn [bind].
  rewrite (py_get_dict _ _ _ (event_ok_message e He)). cbn [bind].
  rewrite (event_ok_content e He). cbn [py_iter bind].
  rewrite (for_each_append
             (fun b => if is_tool_use b
                          && AnalyzeStuckPoints.is_bash (as_tool b)
                       then transition_of i (as_tool b) else [])
             _ (fun b => block_ok b = true)).
  - rewrite flat_map_guarded. reflexivity.
  - intros acc b Hb. apply timeline_block_ok. exact Hb.
  - apply Forall_forall. apply forallb_forall.
    unfold event_ok in He.
    repeat (apply andb_prop in He; destruct He as [He ?]). assumption.
Qed.

Lemma task_timeline_ok (events : list json) :
  transcript_ok events = true ->
  task_timeline events = Ok (flat_map transitions_at (enumerate events)).
Proof.
  intros Hok. unfold task_timeline.
  rewrite (for_each_append transitions_at _
             (fun ie => event_ok (snd ie) = true)).
  - reflexivity.
  - intros acc [i e] He. apply timeline_step_ok. exact He.
  - exact (enumerate_from_Forall (fun e => event_ok e = true) 0 events
             (transcript_ok_Forall events Hok)).
Qed.

Lemma transition_of_index (i : nat) (t : AnalyzeStuckPoints.tool)
  (x : transition) :
  In x (transition_of i t) -> at_index x = i.
Proof.
  unfold transition_of.
  destruct (command_of t) as [| | |c| |]; try (intros []).
  destruct (Str.contains "bd update" c && Str.contains "in_progress" c).
  - intros [<-|[]]. reflexivity.
  - destruct (Str.contains "bd close" c); [|intros []].
    intros [<-|[]]. reflexivity.
Qed.

Lemma transitions_at_index (ie : nat * json) :
  Forall (fun x => at_index x = fst ie) (transitions_at ie).
Proof.
  apply Forall_forall. intros x Hx. unfold transitions_at in Hx.
  apply in_flat_map in Hx. destruct Hx as (t & _ & Hx).
  exact (transition_of_index _ t x Hx).
Qed.

Lemma last_index_cons (prev : nat) (t : transition) (a : list transition) :
  last_index prev (t :: a) = last_index (at_index t) a.
Proof.
  unfold last_index. cbn [map].
  generalize (at_index t). generalize (map at_index a). clear.
  intros l. induction l as [|j l IH]; intros i; [reflexivity|].
  change (last (i :: j :: l) prev) with (last (j :: l) prev).
  rewrite (IH j). destruct l as [|k l]; [reflexivity|].
  change (last (j :: k :: l) i) with (last (k :: l) i).
  change (last (j :: k :: l) j) with (last (k :: l) j).
  clear. revert k. induction l as [|m l IH]; intros k; [reflexivity|].
  change (last (k :: m :: l) i) with (last (m :: l) i).
  change (last (k :: m :: l) j) with (last (m :: l) j).
  apply IH.
Qed.

Lemma timeline_lines_app (prev : nat) (a b : list transition) :
  timeline_lines prev (a ++ b)
  = timeline_lines prev a ++ timeline_lines (last_index prev a) b.
Proof.
  revert prev. induction a as [|t a IH]; intros prev; [reflexivity|].
  cbn [app timeline_lines]. rewrite IH, last_index_cons. reflexivity.
Qed.

(** The lines of the transitions of one event. *)
Lemma lines_same_index (n prev : nat) (a : list transition) :
  Forall (fun x => at_index x = n) a ->
  prev <= n ->
  Forall (fun l => (0 <= snd l)%Z) (timeline_lines prev a)
  /\ last_index prev a <= n.
Proof.
  intros Ha. revert prev. induction Ha as [|t a Ht Ha IH]; intros prev Hle.
  - split; [constructor|exact Hle].
  - cbn [timeline_lines]. destruct (IH (at_index t)) as [Hl Hlast]; [lia|].
    rewrite last_index_cons. split.
    + constructor; [cbn [snd]; lia|exact Hl].
    + lia.
Qed.

Lemma lines_nonneg (events : list json) (n prev : nat) :
  prev <= n ->
  Forall (fun l => (0 <= snd l)%Z)
    (timeline_lines prev (flat_map transitions_at (enumerate_from n events))).
Proof.
  revert n prev. induction events as [|e events IH]; intros n prev Hle.
  - constructor.
  - cbn [enumerate_from flat_map]. rewrite timeline_lines_app.
    destruct (lines_same_index n prev (transitions_at (n, e))
                (transitions_at_index (n, e)) Hle) as [Hl Hlast].
    apply Forall_app. split; [exact Hl|]. apply IH. lia.
Qed.

Lemma total_gap_telescopes (prev : nat) (timeline : list transition) :
  total_gap (timeline_lines prev timeline)
  = (Z.of_nat (last_index prev timeline) - Z.of_nat prev)%Z.
Proof.
  revert prev. induction timeline as [|t timeline IH]; intros prev.
  - unfold total_gap, last_index. cbn. lia.
  - cbn [timeline_lines]. unfold total_gap in *. cbn [map fold_right snd].
    rewrite IH, last_index_cons. lia.
Qed.

End TimelineFacts.

(** X19.  On a well-shaped transcript the task-transition pass of
    [analyze_flow] records, for every Bash invocation, [START] when the
    command holds both [bd update] and [in_progress], otherwise [CLOSE]
    when it holds [bd close], otherwise nothing, each with the index of
    its event and the third word of the command as task id.  The printed
    [events_since] figures are never negative and add up to the index of
    the last transition. *)
Theorem task_timeline_transitions (events : list json) :
  transcript_ok events = true ->
  exists timeline,
    AnalyzeFlow.task_timeline events = Ok timeline
    /\ (forall x,
          In x timeline
          <-> exists t,
                In t (bash_uses_at events (AnalyzeFlow.at_index x))
                /\ In x (transition_of (AnalyzeFlow.at_index x) t))
    /\ Forall (fun l => (0 <= snd l)%Z)
         (AnalyzeFlow.timeline_lines 0 timeline)
    /\ total_gap (AnalyzeFlow.timeline_lines 0 timeline)
       = Z.of_nat (last_index 0 timeline).
Proof.
  intros Hok. eexists. split; [apply task_timeline_ok; exact Hok|].
  split; [|split].
  - intros x. rewrite in_flat_map. split.
    + intros ([i e] & Hie & Hx). apply enumerate_In in Hie.
      unfold transitions_at in Hx. cbn [fst snd] in Hx.
      apply in_flat_map in Hx. destruct Hx as (t & Ht & Hx).
      rewrite (transition_of_index i t x Hx).
      exists t. unfold bash_uses_at. rewrite Hie. auto.
    + intros (t & Ht & Hx). unfold bash_uses_at in Ht.
      destruct (nth_error events (AnalyzeFlow.at_index x)) as [e|] eqn:He;
        [|destruct Ht].
      exists (AnalyzeFlow.at_index x, e).
      split; [apply enumerate_In; exact He|].
      unfold transitions_at. cbn [fst snd]. apply in_flat_map. eauto.
  - apply (lines_nonneg events 0 0). lia.
  - rewrite total_gap_telescopes. lia.
Qed.

Lemma task_timeline_transitions_witness :
  transcript_ok TimelineSample.events = true
  /\ exists timeline,
       AnalyzeFlow.task_timeline TimelineSample.events = Ok timeline
       /\ In (AnalyzeFlow.mk_transition AnalyzeFlow.CLOSE "bd-7" 3) timeline.
Proof.
  split; [reflexivity|].
  destruct (task_timeline_transitions TimelineSample.events eq_refl)
    as (timeline & Hrun & Hin & _).
  exists timeline. split; [exact Hrun|]. apply Hin.
  exists (as_tool (BashSample.bash_block "t2" "bd close bd-7")).
  split; left; reflexivity.
Defined.

Section SplitFacts.

Lemma append_snoc (cur w : string) (c : ascii) :
  ((cur ++ String c EmptyString) ++ w)%string = (cur ++ String c w)%string.
Proof.
  induction cur as [|d cur IH]; simpl; [reflexivity|].
  rewrite IH. reflexivity.
Qed.

Lemma split_from_word (cur w s : string) :
  no_space w = true ->
  Str.split_from cur (w ++ s) = Str.split_from (cur ++ w) s.
Proof.
  revert cur. induction w as [|c w IH]; intros cur Hw; simpl.
  - assert (H : (cur ++ "")%string = cur)
      by (clear; induction cur as [|d cur IH]; simpl; congruence).
    rewrite H. reflexivity.
  - simpl in Hw. apply andb_prop in Hw. destruct Hw as [Hc Hw].
    destruct (Str.is_space c); [discriminate|].
    rewrite (IH _ Hw), append_snoc. reflexivity.
Qed.

(** Reading a word that is followed by a blank and more text. *)
Lemma split_word_then (w s : string) :
  is_word w = true ->
  Str.split_from "" (w ++ String " " s) = w :: Str.split_from "" s.
Proof.
  intros Hw. apply andb_prop in Hw. destruct Hw as [Hne Hns].
  rewrite (split_from_word "" w _ Hns). cbn [append Str.split_from].
  change (Str.is_space " ") with true. cbn iota.
  destruct w; [discriminate|reflexivity].
Qed.

End SplitFacts.

(** X20.  The task id of a transition is the third word of the whole
    command: for a command made of two words and an id separated by
    single blanks, followed by nothing or by white space and anything,
    it is the id; for a command of two words only it is [unknown]. *)
Theorem task_id_is_third_word (w1 w2 id rest : string) :
  is_word w1 = true ->
  is_word w2 = true ->
  is_word id = true ->
  (rest = "" \/ exists c r, rest = String c r /\ Str.is_space c = true) ->
  AnalyzeFlow.task_id_of
    (JStr (w1 ++ String " " (w2 ++ String " " (id ++ rest))))
  = Ok id
  /\ AnalyzeFlow.task_id_of (JStr (w1 ++ String " " w2)) = Ok "unknown".
Proof.
  intros H1 H2 H3 Hrest.
  assert (Hid : exists l, Str.split_from "" (id ++ rest) = id :: l).
  { pose proof H3 as H3'. apply andb_prop in H3'. destruct H3' as [Hne Hns].
    rewrite (split_from_word "" id rest Hns). cbn [append].
    destruct Hrest as [->|(c & r & -> & Hc)].
    - destruct id; [discriminate|]. eexists. reflexivity.
    - cbn [Str.split_from]. rewrite Hc.
      destruct id; [discriminate|]. eexists. reflexivity. }
  destruct Hid as (l & Hid).
  split.
  - rewrite task_id_of_str. unfold third_word, Str.split.
    rewrite (split_word_then w1 _ H1), (split_word_then w2 _ H2), Hid.
    reflexivity.
  - rewrite task_id_of_str. unfold third_word, Str.split.
    rewrite (split_word_then w1 _ H1).
    pose proof H2 as H2'. apply andb_prop in H2'. destruct H2' as [Hne Hns].
    assert (Hw2 : Str.split_from "" w2 = [w2]).
    { assert (H : (w2 ++ "")%string = w2)
        by (clear; induction w2 as [|d w IH]; simpl; congruence).
      rewrite <- H at 1. rewrite (split_from_word "" w2 "" Hns).
      cbn [append Str.split_from]. destruct w2; [discriminate|reflexivity]. }
    rewrite Hw2. reflexivity.
Qed.

Lemma task_id_is_third_word_witness :
  AnalyzeFlow.task_id_of (JStr "bd close bd-7 --reason done") = Ok "bd-7"
  /\ AnalyzeFlow.task_id_of (JStr "bd close") = Ok "unknown".
Proof.
  exact (task_id_is_third_word "bd" "close" "bd-7" " --reason done"
           eq_refl eq_refl eq_refl
           (or_intror (ex_intro _ " "%char
                         (ex_intro _ "--reason done" (conj eq_refl eq_refl))))).
Defined.

(** ** Tool errors of the session summary *)

Section ErrorCountFacts.

Import SummarizeSession.

Variable json_loads : string -> option json.

Lemma truthy_default (b : json) (k : string) :
  truthy (field b k (JBool false)) = truthy (field b k JNull).
Proof.
  destruct b as [| | | | |d]; try reflexivity. simpl.
  destruct (dict_lookup k d); reflexivity.
Qed.

Lemma user_block_errors (c c' : collected) (b : json) :
  user_block c b = Ok c' ->
  tool_errors c' = tool_errors c + (if is_error_block b then 1 else 0).
Proof.
  unfold user_block, is_error_block. intros H. step_bind H.
  apply py_get_ok in E. destruct E as [Hd ->].
  destruct (is_str (field b "type" JNull) "tool_result"); cbn [andb];
    [|injection H as <-; lia].
  step_bind H. apply py_get_ok in E. destruct E as [_ ->].
  rewrite truthy_default in H.
  destruct (truthy (field b "is_error" JNull)); injection H as <-; cbn; lia.
Qed.

Lemma user_blocks_errors (blocks : list json) (c c' : collected) :
  for_each blocks user_block c = Ok c' ->
  tool_errors c'
  = tool_errors c + List.length (filter is_error_block blocks).
Proof.
  revert c. induction blocks as [|b blocks IH]; intros c H; simpl in H.
  - injection H as <-. cbn. lia.
  - step_bind H. rewrite (IH a H), (user_block_errors c a b E).
    cbn [filter]. destruct (is_error_block b); cbn [List.length]; lia.
Qed.

Lemma assistant_blocks_errors (idx : nat) (blocks : list json)
  (c c' : collected) :
  for_each blocks (assistant_block idx) c = Ok c' ->
  tool_errors c' = tool_errors c.
Proof.
  apply (for_each_invariant (fun s => tool_errors s = tool_errors c)
           (assistant_block idx) blocks); [|reflexivity].
  intros s b s' Hs H. unfold assistant_block in H. step_bind H.
  destruct (is_str a "thinking").
  { do 2 step_bind H. injection H as <-. exact Hs. }
  destruct (is_str a "text").
  { step_bind H. injection H as <-. exact Hs. }
  destruct (is_str a "tool_use"); [|injection H as <-; exact Hs].
  do 5 step_bind H. injection H as <-. exact Hs.
Qed.

Lemma collect_line_errors (c c' : collected) (idx : nat) (line : string) :
  collect_line json_loads c (idx, line) = Ok c' ->
  tool_errors c'
  = tool_errors c + line_errors (parse_event json_loads) line.
Proof.
  unfold collect_line, line_errors. intros H.
  destruct (parse_event json_loads line) as [e|];
    [|injection H as <-; lia].
  destruct (truthy e); cbn [negb andb] in *; [|injection H as <-; lia].
  step_bind H. apply py_get_ok in E. destruct E as [Hd ->].
  destruct (is_str (field e "type" JNull) "loop_meta") eqn:Hl.
  { apply is_str_eq in Hl. rewrite Hl. do 2 step_bind H.
    injection H as <-. cbn. lia. }
  destruct (is_str (field e "type" JNull) "system") eqn:Hs.
  { apply is_str_eq in Hs. rewrite Hs. injection H as <-. cbn. lia. }
  destruct (is_str (field e "type" JNull) "assistant") eqn:Ha.
  { apply is_str_eq in Ha. rewrite Ha. do 2 step_bind H.
    change (is_str (JStr "assistant") "user") with false. cbn iota.
    destruct a0; try (injection H as <-; lia).
    rewrite (assistant_blocks_errors idx l c c' H). lia. }
  destruct (is_str (field e "type" JNull) "user");
    [|injection H as <-; lia].
  do 2 step_bind H.
  apply py_get_ok in E. destruct E as [_ ->].
  apply py_get_ok in E0. destruct E0 as [_ ->].
  unfold blocks_of.
  destruct (field (field e "message" (JDict [])) "content" (JList []));
    try (injection H as <-; cbn; lia).
  exact (user_blocks_errors l c c' H).
Qed.

Lemma collect_errors_from (lines : list string) (n : nat) (c c' : collected) :
  for_each (enumerate_from n lines) (collect_line json_loads) c = Ok c' ->
  tool_errors c'
  = tool_errors c
    + list_sum (map (line_errors (parse_event json_loads)) lines).
Proof.
  revert n c. induction lines as [|line lines IH]; intros n c H;
    cbn [enumerate_from for_each] in H.
  - injection H as <-. cbn. lia.
  - step_bind H. rewrite (IH _ _ H), (collect_line_errors c a n line E).
    cbn [map list_sum]. change (list_sum ?l) with (fold_right Nat.add 0 l).
    cbn [fold_right]. lia.
Qed.

End ErrorCountFacts.

(** X21.  Whatever the lines hold, when the collecting loop of
    [summarize_session] returns, the printed TOOL ERRORS figure is the
    number of [tool_result] blocks with a truthy [is_error] in the user
    events of the decoded lines; results in events of any other type,
    and user events whose content is not a list, add nothing. *)
Theorem tool_errors_total (json_loads : string -> option json)
  (lines : list string) (c : SummarizeSession.collected) :
  SummarizeSession.collect json_loads lines = Ok c ->
  SummarizeSession.tool_errors c
  = list_sum
      (map (line_errors (SummarizeSession.parse_event json_loads)) lines).
Proof.
  intros H.
  exact (collect_errors_from json_loads lines 0 SummarizeSession.empty c H).
Qed.

Lemma tool_errors_total_witness :
  let lines :=
    [ IndexSample.call_line;
      Str.q "{'type': 'user', 'message': {'content': [{'type': 'tool_result', 'tool_use_id': 't1', 'content': 'exit status 1', 'is_error': true}]}}";
      Str.q "{'type': 'assistant', 'message': {'content': [{'type': 'tool_result', 'is_error': true}]}}" ] in
  exists c,
    SummarizeSession.collect Json.loads lines = Ok c
    /\ SummarizeSession.tool_errors c = 1.
Proof.
  intros lines. eexists. split; [vm_compute; reflexivity|].
  rewrite (tool_errors_total Json.loads lines _ ltac:(vm_compute; reflexivity)).
  vm_compute. reflexivity.
Defined.
